(** * Criterion timing reports: a shallow embedding of the two report scripts

    The repository holds two near-identical Python scripts,
    [code/scripts/process_and_plot.py] and [code/scripts/draw_barplot.py].
    Both scan a Criterion result tree, aggregate per-group and per-stage
    timings, write two CSV reports and draw one chart (a pie chart in the
    first script, a 100% stacked bar chart in the second).

    Modelling conventions.
    - Python floats are idealised as rationals [Q]; [==] is equality of
      rationals, and every duration is a finite number.  A statement over
      [Q] names the value the code computes ([py_sum], a quotient, a
      rounding) or bounds it in a way that the rounding of floats keeps; it
      is not a statement about the exact sum.  Where the rounding itself
      matters the loops are run on binary64 numbers (module [Binary64]).
    - A Python [dict] is an association list in insertion order; the
      uniqueness of its keys is the check [wf_dict].
    - Console output, directory creation, file writes and figure saves are
      events of a trace; exceptions are values of [exn].
    - The plotting library is a black box that receives chart descriptions;
      [ax.pie] is taken to refuse wedge sizes that are negative or add up
      to zero.  Of the data-frame library, [sort_values] and the type
      inference of [read_csv] on the [pair] column are an interface
      ([SortValues]): a descending arrangement, and an answer to whether a
      group name comes back as text; the other operations used by the bar
      chart are written out.
    - Strings are byte strings holding UTF-8. *)

From Stdlib Require Import List String Ascii Bool ZArith QArith Qround Qabs.
From Stdlib Require Import Lqa Lia Permutation Sorted OrdersEx DecimalString.
From Stdlib Require Floats Uint63.
Import ListNotations.

Set Warnings "-register-all".

Local Open Scope Q_scope.
Local Open Scope list_scope.

(** ** Python values *)

(** [total_time > 0] on numbers. *)
Definition Qlt_bool (x y : Q) : bool := negb (Qle_bool y x).

(** [sum(xs)]: starts from 0 and adds from the left. *)
Definition py_sum (xs : list Q) : Q := fold_left Qplus xs 0.

(** [min(xs)] and [max(xs)]: the first smallest (largest) element; the
    builtin raises [ValueError] on an empty sequence, here [None]. *)
Definition py_min (xs : list Q) : option Q :=
  match xs with
  | [] => None
  | x :: rest => Some (fold_left (fun best y => if Qlt_bool y best then y else best) rest x)
  end.

Definition py_max (xs : list Q) : option Q :=
  match xs with
  | [] => None
  | x :: rest => Some (fold_left (fun best y => if Qlt_bool best y then y else best) rest x)
  end.

(** Rounding to the nearest integer, ties to even. *)
Definition round_half_even (q : Q) : Z :=
  let f := Qfloor q in
  match Qcompare (q - inject_Z f) (1 # 2) with
  | Lt => f
  | Gt => (f + 1)%Z
  | Eq => if Z.even f then f else (f + 1)%Z
  end.

(** [round(q, 2)]. *)
Definition py_round2 (q : Q) : Q := inject_Z (round_half_even (q * 100)) / 100.

(** ** Dictionaries in insertion order *)

Fixpoint nodupb (l : list string) : bool :=
  match l with
  | [] => true
  | x :: l' => negb (existsb (String.eqb x) l') && nodupb l'
  end.

Definition dict (V : Type) : Type := list (string * V).

Section Dict.
Variable V : Type.

Fixpoint dict_get (d : dict V) (k : string) : option V :=
  match d with
  | [] => None
  | (k', v) :: d' => if String.eqb k' k then Some v else dict_get d' k
  end.

(** [d[k] = v]: an existing key keeps its position, a new one goes last. *)
Fixpoint dict_set (d : dict V) (k : string) (v : V) : dict V :=
  match d with
  | [] => [(k, v)]
  | (k', v') :: d' =>
      if String.eqb k' k then (k', v) :: d' else (k', v') :: dict_set d' k v
  end.

Definition keys (d : dict V) : list string := map fst d.
Definition values (d : dict V) : list V := map snd d.

(** [d.get(k, default)]. *)
Definition dict_get_default (d : dict V) (k : string) (default : V) : V :=
  match dict_get d k with
  | Some v => v
  | None => default
  end.

(** The keys of a dictionary are pairwise distinct. *)
Definition wf_dict (d : dict V) : bool := nodupb (keys d).
End Dict.

Arguments dict_get {V} d k.
Arguments dict_set {V} d k v.
Arguments keys {V} d.
Arguments values {V} d.
Arguments dict_get_default {V} d k default.
Arguments wf_dict {V} d.

(** [GroupTimings] and [AllGroupsData]. *)
Definition GroupTimings : Type := dict Q.
Definition AllGroupsData : Type := dict GroupTimings.

Definition wf_data (all_data : AllGroupsData) : bool :=
  wf_dict all_data && forallb (fun g => wf_dict (snd g)) all_data.


(** ** Sorting stage names *)

Definition str_leb (a b : string) : bool :=
  match String_as_OT.compare a b with
  | Gt => false
  | _ => true
  end.

Fixpoint insert_sorted (x : string) (l : list string) : list string :=
  match l with
  | [] => [x]
  | y :: l' => if str_leb x y then x :: l else y :: insert_sorted x l'
  end.

(** [sorted(l)] on strings: ascending by code units.  The builtin is a
    stable merge sort; on strings every stable sort returns the same list. *)
Definition sorted (l : list string) : list string :=
  fold_right insert_sorted [] l.

(** [set(l)]: one copy of every element.  The iteration order of a Python
    set is not specified; [sorted_set_order_irrelevant] shows that it does
    not matter below. *)
Definition py_set (l : list string) : list string := nodup string_dec l.

(** ** The aggregator, shared by both scripts *)

(** [sorted(list(set(stage for stages in all_data.values()
                          for stage in stages.keys())))] *)
Definition stage_keys (all_data : AllGroupsData) : list string :=
  flat_map (fun g => keys (snd g)) all_data.

Definition all_stage_names (all_data : AllGroupsData) : list string :=
  sorted (py_set (stage_keys all_data)).

(** [stage_percentages[stage_name].append(percentage)] on a
    [defaultdict(list)]. *)
Definition dict_append (sp : dict (list Q)) (k : string) (p : Q) : dict (list Q) :=
  dict_set sp k (dict_get_default sp k [] ++ [p]).

(** The body of the loop over groups that fills [stage_percentages]. *)
Definition add_group_percentages (sp : dict (list Q)) (stages : GroupTimings)
  : dict (list Q) :=
  let total_time := py_sum (values stages) in
  if Qlt_bool 0 total_time then
    fold_left
      (fun acc st => dict_append acc (fst st) ((snd st / total_time) * 100))
      stages sp
  else sp.

Definition stage_percentages (all_data : AllGroupsData) : dict (list Q) :=
  fold_left (fun sp g => add_group_percentages sp (snd g)) all_data [].

(** [PercentageStat]: the triple computed for one row of the summary. *)
Record PercentageStat : Type := {
  min_percentage : Q;
  max_percentage : Q;
  avg_percentage : Q
}.

(** The body of the loop over [all_stage_names] that computes [min_p],
    [max_p] and [avg_p]; [None] stands for the [ValueError] of [min] and
    [max] on an empty list. *)
Definition percentage_stat (sp : dict (list Q)) (stage_name : string)
  : option PercentageStat :=
  let percentages := dict_get_default sp stage_name [0] in
  match py_min percentages, py_max percentages with
  | Some min_p, Some max_p =>
      Some {| min_percentage := min_p;
              max_percentage := max_p;
              avg_percentage :=
                py_sum percentages / inject_Z (Z.of_nat (List.length percentages)) |}
  | _, _ => None
  end.

(** ** The aggregator on binary64 numbers

    The same loops on Python's floats as they are: IEEE 754 binary64 numbers,
    every operation rounded to the nearest one, ties to even.  [sum] is the
    running sum from the left, as CPython up to 3.11 computes it (later
    versions compensate the rounding of the partial sums). *)
Module Binary64.

Definition float : Set := PrimFloat.float.

(** [float(z)] for an integer that a float holds exactly. *)
Definition of_Z (z : Z) : float := PrimFloat.of_uint63 (Uint63.of_Z z).

Definition GroupTimings : Type := dict float.
Definition AllGroupsData : Type := dict GroupTimings.

Definition py_sum (xs : list float) : float :=
  fold_left PrimFloat.add xs (of_Z 0).

Definition py_min (xs : list float) : option float :=
  match xs with
  | [] => None
  | x :: rest =>
      Some (fold_left (fun best y => if PrimFloat.ltb y best then y else best)
              rest x)
  end.

Definition py_max (xs : list float) : option float :=
  match xs with
  | [] => None
  | x :: rest =>
      Some (fold_left (fun best y => if PrimFloat.ltb best y then y else best)
              rest x)
  end.

Definition dict_append (sp : dict (list float)) (k : string) (p : float)
  : dict (list float) :=
  dict_set sp k (dict_get_default sp k [] ++ [p]).

Definition add_group_percentages (sp : dict (list float))
  (stages : GroupTimings) : dict (list float) :=
  let total_time := py_sum (values stages) in
  if PrimFloat.ltb (of_Z 0) total_time then
    fold_left
      (fun acc st =>
         dict_append acc (fst st)
           (PrimFloat.mul (PrimFloat.div (snd st) total_time) (of_Z 100)))
      stages sp
  else sp.

Definition stage_percentages (all_data : AllGroupsData) : dict (list float) :=
  fold_left (fun sp g => add_group_percentages sp (snd g)) all_data [].

Record PercentageStat : Type := {
  min_percentage : float;
  max_percentage : float;
  avg_percentage : float
}.

Definition percentage_stat (sp : dict (list float)) (stage_name : string)
  : option PercentageStat :=
  let percentages := dict_get_default sp stage_name [of_Z 0] in
  match py_min percentages, py_max percentages with
  | Some min_p, Some max_p =>
      Some {| min_percentage := min_p;
              max_percentage := max_p;
              avg_percentage :=
                PrimFloat.div (py_sum percentages)
                  (of_Z (Z.of_nat (List.length percentages))) |}
  | _, _ => None
  end.

End Binary64.

(** ** Paths ([os.path] on POSIX) *)

Local Open Scope string_scope.
Local Open Scope list_scope.

Definition is_slash (c : ascii) : bool := Ascii.eqb c "/"%char.

Fixpoint has_slash (p : string) : bool :=
  match p with
  | EmptyString => false
  | String c rest => is_slash c || has_slash rest
  end.

Fixpoint ends_with_slash (p : string) : bool :=
  match p with
  | EmptyString => false
  | String c EmptyString => is_slash c
  | String _ rest => ends_with_slash rest
  end.

(** [os.path.join(a, b)] for a relative [b]. *)
Definition path_join (a b : string) : string :=
  match b with
  | String "/"%char _ => b
  | _ =>
      if String.eqb a "" || ends_with_slash a then (a ++ b)%string
      else (a ++ "/" ++ b)%string
  end.

(** [os.path.basename(p)]: what follows the last slash. *)
Fixpoint basename (p : string) : string :=
  match p with
  | EmptyString => EmptyString
  | String c rest =>
      if has_slash rest then basename rest
      else if is_slash c then rest else p
  end.

(** [p[:i]] where [i] is one past the last slash. *)
Fixpoint head_part (p : string) : string :=
  match p with
  | EmptyString => EmptyString
  | String c rest => if has_slash p then String c (head_part rest) else EmptyString
  end.

Fixpoint all_slashes (p : string) : bool :=
  match p with
  | EmptyString => true
  | String c rest => is_slash c && all_slashes rest
  end.

Fixpoint rstrip_slashes (p : string) : string :=
  match p with
  | EmptyString => EmptyString
  | String c rest =>
      match rstrip_slashes rest with
      | EmptyString => if is_slash c then EmptyString else String c EmptyString
      | r => String c r
      end
  end.

(** [os.path.dirname(p)]. *)
Definition dirname (p : string) : string :=
  let head := head_part p in
  if negb (String.eqb head "") && negb (all_slashes head)
  then rstrip_slashes head else head.

(** ** The result tree on disk *)

(** A parsed JSON document, as [json.load] returns it: an integer literal
    is an integer of any size, a real literal a float (a finite one; the
    literals [NaN] and [Infinity] are left out). *)
Inductive json : Type :=
| JNull
| JBool (b : bool)
| JInt (z : Z)
| JNum (q : Q)
| JStr (s : string)
| JArr (items : list json)
| JObj (fields : list (string * json)).

(** What [open] followed by [json.load] finds in a regular file. *)
Inductive file_content : Type :=
| Unreadable
| Malformed
| Parsed (j : json).

Inductive node : Type :=
| File (content : file_content)
| Dir (entries : list (string * node)).

Definition is_dir (n : node) : bool :=
  match n with
  | Dir _ => true
  | File _ => false
  end.

Definition dir_names (entries : list (string * node)) : list string :=
  map fst (filter (fun e => is_dir (snd e)) entries).

Definition file_names (entries : list (string * node)) : list string :=
  map fst (filter (fun e => negb (is_dir (snd e))) entries).

(** One triple [(root, dirs, files)] of [os.walk], with the directory's
    entries for the file reads made under [root]. *)
Record walk_item : Type := {
  w_root : string;
  w_dirs : list string;
  w_files : list string;
  w_entries : list (string * node)
}.

(** [os.walk(top)], top-down. *)
Fixpoint walk (top : string) (n : node) : list walk_item :=
  match n with
  | File _ => []
  | Dir entries =>
      {| w_root := top;
         w_dirs := dir_names entries;
         w_files := file_names entries;
         w_entries := entries |}
      :: (fix walk_children (es : list (string * node)) : list walk_item :=
            match es with
            | [] => []
            | (name, child) :: es' =>
                walk (path_join top name) child ++ walk_children es'
            end) entries
  end.

(** ** Exceptions, console messages and report tables *)

Inductive exn : Type :=
| FileNotFoundError
| IsADirectoryError
| OSError
| JSONDecodeError
| AttributeError
| TypeError
| OverflowError
| ValueError
| KeyError.

Inductive result (A : Type) : Type :=
| Ok (a : A)
| Raise (e : exn).

Arguments Ok {A} a.
Arguments Raise {A} e.

Inductive message : Type :=
| ErrRootNotFound (criterion_root : string)
| WarnLeaf (root : string) (e : exn)
| ErrNoValidData
| InfoGroupsFound (n : nat)
| InfoRawSaved (path : string)
| InfoSummarySaved (path : string)
| InfoPieSaved (path : string)
| InfoBarSaved (path : string)
| ErrBarChart (e : exn).

(** A CSV field: text, a number, or a number printed with two decimals
    (held in hundredths). *)
Inductive cell : Type :=
| CStr (s : string)
| CNum (q : Q)
| CFix2 (hundredths : Z).

Record table : Type := {
  header : list string;
  rows : list (list cell)
}.

(** [f"{q:.2f}"]. *)
Definition fmt2 (q : Q) : cell := CFix2 (round_half_even (q * 100)).

(** ** Chart descriptions handed to the plotting library *)

Definition hatches : list string := [".."; "++"; "oo"; "xx"].

Record pie_chart : Type := {
  pie_labels : list string;
  pie_sizes : list Q;
  pie_colors : list nat;
  pie_hatches : list string
}.

(** One call of [ax.bar]: a layer across all bars.  A height is [None]
    where pandas holds a non-finite number (division by a zero total). *)
Record bar_layer : Type := {
  layer_column : string;
  layer_label : string;
  layer_heights : list (option Q);
  layer_bottoms : list (option Q);
  layer_color : nat;
  layer_hatch : string
}.

Record bar_chart : Type := {
  bar_labels : list string;
  bar_layers : list bar_layer;
  bar_totals_ms : list Q
}.

Inductive figure : Type :=
| PieFigure (c : pie_chart)
| BarFigure (c : bar_chart).

(** ** Effects: a trace of events, threaded as state, and exceptions *)

Inductive event : Type :=
| Print (m : message)
| MakeDirs (path : string)
| OpenWrite (path : string)
| Written (path : string) (t : table)
| SaveFig (path : string) (f : figure).

Definition trace : Type := list event.

Definition M (A : Type) : Type := trace -> trace * result A.

Definition ret {A : Type} (a : A) : M A := fun tr => (tr, Ok a).

Definition bind {A B : Type} (m : M A) (k : A -> M B) : M B :=
  fun tr =>
    match m tr with
    | (tr', Ok a) => k a tr'
    | (tr', Raise e) => (tr', Raise e)
    end.

Definition emit (e : event) : M unit := fun tr => (tr ++ [e], Ok tt).

Definition raise {A : Type} (e : exn) : M A := fun tr => (tr, Raise e).

Definition lift {A : Type} (r : result A) : M A := fun tr => (tr, r).

(** [try: m except Exception as e: h e]. *)
Definition try_except {A : Type} (m : M A) (h : exn -> M A) : M A :=
  fun tr =>
    match m tr with
    | (tr', Raise e) => h e tr'
    | done => done
    end.

Definition run {A : Type} (m : M A) : trace * result A := m [].

Notation "x <- m ;; k" := (bind m (fun x => k))
  (at level 61, m at next level, right associativity).
Notation "m ;;; k" := (bind m (fun _ => k))
  (at level 61, right associativity).

(** What the operating system answers to the writes of one run. *)
Record env : Type := {
  makedirs_fails : string -> bool;
  open_fails : string -> bool;
  savefig_fails : string -> bool
}.

Definition emit_all (es : list event) : M unit := fun tr => (tr ++ es, Ok tt).

(** [os.makedirs(path, exist_ok=True)]. *)
Definition makedirs (E : env) (path : string) : M unit :=
  if makedirs_fails E path then raise OSError else emit (MakeDirs path).

(** [with open(path, 'w', ...) as f:] around the rows of a whole table. *)
Definition write_csv (E : env) (path : string) (t : table) : M unit :=
  emit (OpenWrite path) ;;;
  if open_fails E path then raise OSError else emit (Written path t).

(** ** The result scanner: [collect_raw_data], the same in both scripts *)

(** [os.path.basename(root) == 'base' and 'benchmark.json' in files] *)
Definition leaf_condition (w : walk_item) : bool :=
  String.eqb (basename (w_root w)) "base"
  && existsb (String.eqb "benchmark.json") (w_files w).

(** [json.load(open(os.path.join(root, name), 'r'))] *)
Definition open_json (entries : list (string * node)) (name : string)
  : result json :=
  match dict_get entries name with
  | None => Raise FileNotFoundError
  | Some (Dir _) => Raise IsADirectoryError
  | Some (File Unreadable) => Raise OSError
  | Some (File Malformed) => Raise JSONDecodeError
  | Some (File (Parsed doc)) => Ok doc
  end.

(** [j.get(key, default)]: only a JSON object has [get]. *)
Definition json_get (j : json) (key : string) (default : json) : result json :=
  match j with
  | JObj fields => Ok (dict_get_default fields key default)
  | _ => Raise AttributeError
  end.

(** [json.load(f).get("mean", {}).get("point_estimate")] *)
Definition read_point_estimate (w : walk_item) : result json :=
  match open_json (w_entries w) "estimates.json" with
  | Raise e => Raise e
  | Ok doc =>
      match json_get doc "mean" (JObj []) with
      | Raise e => Raise e
      | Ok mean => json_get mean "point_estimate" JNull
      end
  end.

(** [float(z)] for an integer: [z] rounded to 53 significant bits, ties to
    even. *)
Definition int_to_float (z : Z) : Z :=
  let n := Z.log2 (Z.abs z) in
  if (n <? 53)%Z then z
  else
    let unit := (2 ^ (n - 52))%Z in
    let q := (Z.abs z / unit)%Z in
    let r := (Z.abs z mod unit)%Z in
    let half := (unit / 2)%Z in
    let q' := if (half <? r)%Z || ((half =? r)%Z && Z.odd q)
              then (q + 1)%Z else q in
    (Z.sgn z * (q' * unit))%Z.

(** What [0.0 + point_estimate] accepts: numbers and booleans; an integer is
    first converted to a float. *)
Definition number_of (j : json) : option Q :=
  match j with
  | JNum q => Some q
  | JInt z => Some (inject_Z (int_to_float z))
  | JBool b => Some (if b then 1 else 0)
  | _ => None
  end.

(** The conversion of an integer beyond the range of a float raises
    [OverflowError]. *)
Definition too_large (j : json) : bool :=
  match j with
  | JInt z => (2 ^ 1024 <=? Z.abs (int_to_float z))%Z
  | _ => false
  end.

(** The [try] block run for one leaf.  [stage_totals] is a
    [defaultdict(float)]: reading a missing key stores [0.0] under it before
    the addition is tried, so the key stays when the addition raises. *)
Definition process_leaf (stage_totals : dict Q) (w : walk_item)
  : dict Q * list event :=
  let parent_dir_name := basename (dirname (w_root w)) in
  match read_point_estimate w with
  | Raise e => (stage_totals, [Print (WarnLeaf (w_root w) e)])
  | Ok JNull => (stage_totals, [])
  | Ok point_estimate =>
      let current := dict_get_default stage_totals parent_dir_name 0 in
      let touched :=
        match dict_get stage_totals parent_dir_name with
        | Some _ => stage_totals
        | None => dict_set stage_totals parent_dir_name 0
        end in
      match number_of point_estimate with
      | Some q =>
          if too_large point_estimate
          then (touched, [Print (WarnLeaf (w_root w) OverflowError)])
          else (dict_set touched parent_dir_name (current + q), [])
      | None => (touched, [Print (WarnLeaf (w_root w) TypeError)])
      end
  end.

Definition scan_step (acc : dict Q * list event) (w : walk_item)
  : dict Q * list event :=
  if leaf_condition w then
    let (stage_totals, out) := process_leaf (fst acc) w in
    (stage_totals, snd acc ++ out)
  else acc.

(** The loop over [os.walk(group_path)] for one group. *)
Definition scan_leaves (ws : list walk_item) : dict Q * list event :=
  fold_left scan_step ws ([], []).

Definition scan_group (group_path : string) (group : node)
  : dict Q * list event :=
  scan_leaves (walk group_path group).

(** The loop over [group_dirs]. *)
Definition collect_groups (criterion_root : string)
  (group_dirs : list (string * node)) : AllGroupsData * list event :=
  fold_left
    (fun acc g =>
       let (stage_totals, out) :=
         scan_group (path_join criterion_root (fst g)) (snd g) in
       (match stage_totals with
        | [] => fst acc
        | _ => dict_set (fst acc) (fst g) stage_totals
        end, snd acc ++ out))
    group_dirs ([], []).

(** [fs] is what lies at [criterion_root]: nothing, a file or a directory.
    A directory is one that [os.listdir] can list; the call stands outside
    the [try] block, and a root that cannot be listed is not covered. *)
Definition collect_raw_data (criterion_root : string) (fs : option node)
  : M (option AllGroupsData) :=
  match fs with
  | Some (Dir entries) =>
      let group_dirs := filter (fun e => is_dir (snd e)) entries in
      let (all_groups_data, out) := collect_groups criterion_root group_dirs in
      emit_all out ;;;
      match all_groups_data with
      | [] => emit (Print ErrNoValidData) ;;; ret None
      | _ =>
          emit (Print (InfoGroupsFound (List.length all_groups_data))) ;;;
          ret (Some all_groups_data)
      end
  | _ => emit (Print (ErrRootNotFound criterion_root)) ;;; ret None
  end.

(** ** The report writer: the parts shared by both scripts *)

(** [['pair', 'total_time_ns'] + [f'{stage}_time_ns' for stage in ...]] *)
Definition raw_header (names : list string) : list string :=
  "pair" :: "total_time_ns"
  :: map (fun stage => (stage ++ "_time_ns")%string) names.

Definition summary_header : list string :=
  ["stage"; "min_percentage"; "max_percentage"; "avg_percentage"].

(** The loop over [all_stage_names] inside the second [with open]: the rows
    computed before a failure, and the failure if there is one. *)
Fixpoint summary_loop (sp : dict (list Q)) (names : list string)
  : list (string * PercentageStat) * option exn :=
  match names with
  | [] => ([], None)
  | stage_name :: rest =>
      match percentage_stat sp stage_name with
      | None => ([], Some ValueError)
      | Some st =>
          let (done, failure) := summary_loop sp rest in
          ((stage_name, st) :: done, failure)
      end
  end.

Definition summary_row (r : string * PercentageStat) : list cell :=
  [CStr (fst r); fmt2 (min_percentage (snd r)); fmt2 (max_percentage (snd r));
   fmt2 (avg_percentage (snd r))].

Definition write_summary (E : env) (path : string) (sp : dict (list Q))
  (names : list string) : M (list (string * Q)) :=
  emit (OpenWrite path) ;;;
  if open_fails E path then raise OSError
  else
    let (done, failure) := summary_loop sp names in
    emit (Written path {| header := summary_header;
                          rows := map summary_row done |}) ;;;
    match failure with
    | Some e => raise e
    | None => ret (map (fun r => (fst r, avg_percentage (snd r))) done)
    end.

(** ** [process_and_plot.py] *)

Module ProcessAndPlot.

(** One data row of [timings_raw.csv]: every number goes through
    [round(_, 2)]. *)
Definition raw_row (names : list string) (g : string * GroupTimings)
  : list cell :=
  let total_time := py_sum (values (snd g)) in
  [CStr (fst g); CNum (py_round2 total_time)]
  ++ map (fun s => CNum (py_round2 (dict_get_default (snd g) s 0))) names.

Definition generate_reports (E : env) (all_data : AllGroupsData)
  (output_dir : string) : M (list (string * Q)) :=
  makedirs E output_dir ;;;
  let all_stage_names := all_stage_names all_data in
  let csv1_path := path_join output_dir "timings_raw.csv" in
  write_csv E csv1_path
    {| header := raw_header all_stage_names;
       rows := map (raw_row all_stage_names) all_data |} ;;;
  emit (Print (InfoRawSaved csv1_path)) ;;;
  let stage_percentages := stage_percentages all_data in
  let csv2_path := path_join output_dir "percentage_summary.csv" in
  summary_for_chart <-
    write_summary E csv2_path stage_percentages all_stage_names ;;
  emit (Print (InfoSummarySaved csv2_path)) ;;;
  ret summary_for_chart.

(** The description handed to [ax.pie]; the hatch list is cycled over the
    wedges by the plotting library. *)
Definition summary_pie (summary_data : list (string * Q)) : pie_chart :=
  let labels := map fst summary_data in
  let sizes := map snd summary_data in
  {| pie_labels := labels;
     pie_sizes := sizes;
     pie_colors := seq 0 (List.length sizes);
     pie_hatches :=
       map (fun i => nth (i mod 4) hatches "") (seq 0 (List.length sizes)) |}.

(** The wedge sizes the plotting library cannot draw: [ax.pie] refuses a
    negative size, and sizes that add up to zero cannot be normalised; the
    calls up to [savefig] then end in a [ValueError]. *)
Definition pie_refuses (sizes : list Q) : bool :=
  existsb (fun x => Qlt_bool x 0) sizes || Qeq_bool (py_sum sizes) 0.

Definition create_summary_pie_chart (E : env)
  (summary_data : list (string * Q)) (output_dir : string) : M unit :=
  let chart := summary_pie summary_data in
  if pie_refuses (pie_sizes chart) then raise ValueError
  else
    let chart_filename := path_join output_dir "summary_pie_chart.pdf" in
    if savefig_fails E chart_filename then raise OSError
    else
      emit (SaveFig chart_filename (PieFigure chart)) ;;;
      emit (Print (InfoPieSaved chart_filename)).

Definition main (E : env) (root : string) (fs : option node)
  (output : string) : M unit :=
  raw_data <- collect_raw_data root fs ;;
  match raw_data with
  | None | Some [] => ret tt
  | Some all_data =>
      summary_data <- generate_reports E all_data output ;;
      match summary_data with
      | [] => ret tt
      | _ => create_summary_pie_chart E summary_data output
      end
  end.

End ProcessAndPlot.

(** ** The data-frame operations used by the stacked bar chart *)

(** What the data-frame library is taken to do where the scripts leave it
    the choice.

    [df.sort_values(by=..., ascending=False)] with the default sort kind:
    the library promises a descending arrangement of the rows and nothing
    about rows with equal keys.  [argsort_desc ks] lists the row positions
    in their new order.

    [pd.read_csv] infers the type of every column: a field of the [pair]
    column comes back as text unless the reader takes it for a missing
    value, or takes the whole column for numbers or booleans (a directory
    named [123], [nan] or [null]).  [pair_is_text column s] says whether
    the field [s] of a column holding [column] comes back as text. *)
Class SortValues : Type := {
  argsort_desc : list Q -> list nat;
  argsort_perm :
    forall ks, Permutation (argsort_desc ks) (seq 0 (List.length ks));
  argsort_sorted :
    forall ks,
      StronglySorted (fun i j => nth j ks 0 <= nth i ks 0) (argsort_desc ks);
  pair_is_text : list string -> string -> bool
}.

(** A sort by insertion that meets the promise: [before] decides whether
    the inserted row goes in front of a row already placed. *)
Fixpoint insert_row (before : Q -> Q -> bool) (ks : list Q) (i : nat)
  (placed : list nat) : list nat :=
  match placed with
  | [] => [i]
  | j :: rest =>
      if before (nth i ks 0) (nth j ks 0) then i :: placed
      else j :: insert_row before ks i rest
  end.

Definition argsort_by (before : Q -> Q -> bool) (ks : list Q) : list nat :=
  fold_right (insert_row before ks) [] (seq 0 (List.length ks)).

(** Equal keys keep their original order. *)
Definition argsort_stable (ks : list Q) : list nat :=
  argsort_by (fun a b => Qle_bool b a) ks.

(** The table [pd.read_csv] hands back. *)
Record csv_frame : Type := {
  cf_columns : list string;
  cf_rows : list (list cell)
}.

(** Duplicate header names are renamed [X], [X.1], [X.2], ... *)
Fixpoint dedup_names_from (seen names : list string) : list string :=
  match names with
  | [] => []
  | col :: rest =>
      let n := count_occ string_dec seen col in
      (match n with
       | O => col
       | _ => (col ++ "." ++ NilEmpty.string_of_uint (Nat.to_uint n))%string
       end) :: dedup_names_from (col :: seen) rest
  end.

Definition dedup_names (names : list string) : list string :=
  dedup_names_from [] names.

Fixpoint last_written (tr : trace) (path : string) : option table :=
  match tr with
  | [] => None
  | e :: tr' =>
      match last_written tr' path with
      | Some t => Some t
      | None =>
          match e with
          | Written p t => if String.eqb p path then Some t else None
          | _ => None
          end
      end
  end.

Fixpoint index_of (name : string) (l : list string) : option nat :=
  match l with
  | [] => None
  | x :: l' =>
      if String.eqb x name then Some O else option_map S (index_of name l')
  end.

(** [df[name]] *)
Definition column (df : csv_frame) (name : string) : result (list cell) :=
  match index_of name (cf_columns df) with
  | None => Raise KeyError
  | Some i => Ok (map (fun r => nth i r (CNum 0)) (cf_rows df))
  end.

(** A field of the [pair] column that did not come back as text: a number
    or a missing value.  Only its not being text is used, [p.split()] fails
    on it. *)
Definition not_text : cell := CNum 0.

Definition text_of (c : cell) : string :=
  match c with
  | CStr s => s
  | _ => ""
  end.

(** The type inference of the reader on the column named [pair]. *)
Definition infer_pair {sorter : SortValues} (df : csv_frame) : csv_frame :=
  match index_of "pair" (cf_columns df) with
  | None => df
  | Some i =>
      let pairs := map (fun r => text_of (nth i r (CStr ""))) (cf_rows df) in
      {| cf_columns := cf_columns df;
         cf_rows :=
           map (fun r =>
                  firstn i r
                  ++ match skipn i r with
                     | CStr s :: rest =>
                         (if pair_is_text pairs s then CStr s else not_text)
                         :: rest
                     | rest => rest
                     end)
             (cf_rows df) |}
  end.

(** [pd.read_csv(path)]: the file is the last table written to [path]
    during the run; the numbers come back as they were written. *)
Definition read_csv {sorter : SortValues} (path : string) : M csv_frame :=
  fun tr =>
    match last_written tr path with
    | None => (tr, Raise FileNotFoundError)
    | Some t =>
        (tr, Ok (infer_pair {| cf_columns := dedup_names (header t);
                               cf_rows := rows t |}))
    end.

Fixpoint map_result {A B : Type} (f : A -> result B) (l : list A)
  : result (list B) :=
  match l with
  | [] => Ok []
  | x :: l' =>
      match f x with
      | Raise e => Raise e
      | Ok y =>
          match map_result f l' with
          | Raise e => Raise e
          | Ok ys => Ok (y :: ys)
          end
      end
  end.

Definition number_cell (c : cell) : result Q :=
  match c with
  | CNum q => Ok q
  | CFix2 z => Ok (inject_Z z / 100)
  | CStr _ => Raise TypeError
  end.

Definition number_column (df : csv_frame) (name : string) : result (list Q) :=
  match column df name with
  | Raise e => Raise e
  | Ok cells => map_result number_cell cells
  end.

(** One entry of [df[stage_columns].div(df['total_time_ns'], axis=0) * 100];
    a division by zero leaves a non-finite number. *)
Definition percent_of (total_time value : Q) : option Q :=
  if Qeq_bool total_time 0 then None else Some (value / total_time * 100).

Fixpoint list_eqb (l1 l2 : list string) : bool :=
  match l1, l2 with
  | [], [] => true
  | x :: l1', y :: l2' => String.eqb x y && list_eqb l1' l2'
  | _, _ => false
  end.

(** [.reindex(target)] on rows labelled by [index]: an identical target
    returns a copy, otherwise the rows are looked up by label, which
    pandas refuses on duplicate labels. *)
Definition reindex {A : Type} (index target : list string) (nan : A)
  (col : list A) : result (list A) :=
  if list_eqb index target then Ok col
  else if negb (nodupb index) then Raise ValueError
  else
    Ok (map (fun label =>
               match index_of label index with
               | Some i => nth i col nan
               | None => nan
               end) target).

Definition add_opt (a b : option Q) : option Q :=
  match a, b with
  | Some x, Some y => Some (x + y)
  | _, _ => None
  end.

Fixpoint zip_with {A B C : Type} (f : A -> B -> C) (l1 : list A) (l2 : list B)
  : list C :=
  match l1, l2 with
  | x :: l1', y :: l2' => f x y :: zip_with f l1' l2'
  | _, _ => []
  end.

(** [df.loc[pair_name, 'total_time_ns']] followed by the [.1f] format: a
    label that occurs twice selects a Series, which cannot be formatted. *)
Definition loc_total (index : list string) (total : list Q)
  (pair_name : string) : result Q :=
  match filter (fun r => String.eqb (fst r) pair_name) (combine index total) with
  | [] => Raise KeyError
  | [r] => Ok (snd r)
  | _ => Raise TypeError
  end.

(** ** Small string functions *)

Definition is_space (c : ascii) : bool :=
  let n := nat_of_ascii c in
  ((9 <=? n) && (n <=? 13) || (28 <=? n) && (n <=? 32))%nat.

(** The number of bytes of the white-space character at the head of [p],
    0 when [p] starts with none.  Strings hold text in UTF-8, so the
    white-space characters beyond ASCII take two or three bytes: U+0085 and
    U+00A0 are [C2 85] and [C2 A0], U+1680 is [E1 9A 80], U+2000 to U+200A,
    U+2028, U+2029 and U+202F are [E2 80 80] to [E2 80 8A], [E2 80 A8],
    [E2 80 A9] and [E2 80 AF], U+205F is [E2 81 9F] and U+3000 is
    [E3 80 80]. *)
Definition space_width (p : string) : nat :=
  match p with
  | EmptyString => 0
  | String c rest =>
      if is_space c then 1
      else
        let b := nat_of_ascii c in
        match rest with
        | EmptyString => 0
        | String c1 rest1 =>
            let b1 := nat_of_ascii c1 in
            if ((b =? 194) && ((b1 =? 133) || (b1 =? 160)))%nat then 2
            else
              match rest1 with
              | EmptyString => 0
              | String c2 _ =>
                  let b2 := nat_of_ascii c2 in
                  if ((b =? 225) && (b1 =? 154) && (b2 =? 128)
                      || (b =? 226) && (b1 =? 128)
                         && ((128 <=? b2) && (b2 <=? 138) || (b2 =? 168)
                             || (b2 =? 169) || (b2 =? 175))
                      || (b =? 226) && (b1 =? 129) && (b2 =? 159)
                      || (b =? 227) && (b1 =? 128) && (b2 =? 128))%nat
                  then 3 else 0
              end
        end
  end.

(** [p.split()]: the maximal runs without white space; [skip] counts the
    bytes of a white-space character still to pass over. *)
Fixpoint split_ws_skip (skip : nat) (cur : string) (p : string) : list string :=
  match p with
  | EmptyString => if String.eqb cur "" then [] else [cur]
  | String c rest =>
      match skip with
      | S k => split_ws_skip k cur rest
      | O =>
          match space_width p with
          | O => split_ws_skip 0 (cur ++ String c "")%string rest
          | S k =>
              if String.eqb cur "" then split_ws_skip k "" rest
              else cur :: split_ws_skip k "" rest
          end
      end
  end.

Definition split_ws (cur : string) (p : string) : list string :=
  split_ws_skip 0 cur p.

Fixpoint ends_with (s suffix : string) : bool :=
  String.eqb s suffix ||
  match s with
  | EmptyString => false
  | String _ rest => ends_with rest suffix
  end.

(** [s.replace(old, '')] for a non-empty [old]; [skip] counts the
    characters of a match still to drop. *)
Fixpoint remove_all (old : string) (skip : nat) (s : string) : string :=
  match s with
  | EmptyString => EmptyString
  | String c rest =>
      match skip with
      | S k => remove_all old k rest
      | O =>
          if String.prefix old s
          then remove_all old (String.length old - 1) rest
          else String c (remove_all old 0 rest)
      end
  end.

(** ** [draw_barplot.py] *)

Module DrawBarplot.

Definition fruits_translation : dict string :=
  [("apple2", "Яблоко"); ("lemon", "Лимон"); ("banana", "Банан");
   ("pear", "Груша")].

(** One data row of [timings_raw.csv]: the numbers are written as they
    are. *)
Definition raw_row (names : list string) (g : string * GroupTimings)
  : list cell :=
  let total_time := py_sum (values (snd g)) in
  [CStr (fst g); CNum total_time]
  ++ map (fun s => CNum (dict_get_default (snd g) s 0)) names.

Definition generate_reports (E : env) (all_data : AllGroupsData)
  (output_dir : string) : M (list (string * Q) * string) :=
  makedirs E output_dir ;;;
  let all_stage_names := all_stage_names all_data in
  let csv1_path := path_join output_dir "timings_raw.csv" in
  write_csv E csv1_path
    {| header := raw_header all_stage_names;
       rows := map (raw_row all_stage_names) all_data |} ;;;
  emit (Print (InfoRawSaved csv1_path)) ;;;
  let stage_percentages := stage_percentages all_data in
  let csv2_path := path_join output_dir "percentage_summary.csv" in
  summary_for_chart <-
    write_summary E csv2_path stage_percentages all_stage_names ;;
  emit (Print (InfoSummarySaved csv2_path)) ;;;
  ret (summary_for_chart, csv1_path).

(** The [lambda] applied to the [pair] column. *)
Definition translate_pair (p : string) : string :=
  String.concat " - "
    (flat_map
       (fun w =>
          match dict_get fruits_translation w with
          | Some t => [t]
          | None => []
          end)
       (split_ws "" p)).

Definition translate_cell (c : cell) : result string :=
  match c with
  | CStr p => Ok (translate_pair p)
  | _ => Raise AttributeError
  end.

Definition is_stage_column (col : string) : bool :=
  ends_with col "_time_ns" && negb (String.eqb col "total_time_ns").

(** The loop that calls [ax.bar] once per stage column and then adds the
    layer to [bottom_values]. *)
Fixpoint draw_layers (i : nat) (cols : list (string * list (option Q)))
  (bottom_values : list (option Q)) : list bar_layer :=
  match cols with
  | [] => []
  | (stage_name, vals) :: rest =>
      {| layer_column := stage_name;
         layer_label := remove_all "_time_ns" 0 stage_name;
         layer_heights := vals;
         layer_bottoms := bottom_values;
         layer_color := i;
         layer_hatch := nth (i mod 4) hatches "" |}
      :: draw_layers (S i) rest (zip_with add_opt bottom_values vals)
  end.

Section WithSort.
Context {sorter : SortValues}.

(** Everything between [pd.read_csv] and [plt.savefig]. *)
Definition stacked_bar_chart (df : csv_frame) : result bar_chart :=
  match column df "pair" with
  | Raise e => Raise e
  | Ok pairs =>
  match map_result translate_cell pairs with
  | Raise e => Raise e
  | Ok index =>
  let columns :=
    filter (fun col => negb (String.eqb col "pair")) (cf_columns df) in
  let stage_columns := filter is_stage_column columns in
  match map_result (number_column df) stage_columns with
  | Raise e => Raise e
  | Ok stage_values =>
  match number_column df "total_time_ns" with
  | Raise e => Raise e
  | Ok total =>
  let df_percent := map (zip_with percent_of total) stage_values in
  let sorted_index :=
    map (fun i => nth i index "") (argsort_desc total) in
  match map_result (reindex index sorted_index None) df_percent with
  | Raise e => Raise e
  | Ok df_percent =>
  let bottom_values := repeat (Some 0) (List.length sorted_index) in
  let layers :=
    draw_layers 0 (combine stage_columns df_percent) bottom_values in
  match map_result (loc_total index total) sorted_index with
  | Raise e => Raise e
  | Ok totals =>
      Ok {| bar_labels := sorted_index;
            bar_layers := layers;
            bar_totals_ms := map (fun t => t / 1000000) totals |}
  end end end end end end.

Definition create_percentage_stacked_bar_chart (E : env)
  (csv_path output_dir : string) : M unit :=
  try_except
    (df <- read_csv csv_path ;;
     chart <- lift (stacked_bar_chart df) ;;
     let chart_filename :=
       path_join output_dir "percentage_stacked_bar_chart.pdf" in
     if savefig_fails E chart_filename then raise OSError
     else
       emit (SaveFig chart_filename (BarFigure chart)) ;;;
       emit (Print (InfoBarSaved chart_filename)))
    (fun e => emit (Print (ErrBarChart e))).

Definition main (E : env) (root : string) (fs : option node)
  (output : string) : M unit :=
  raw_data <- collect_raw_data root fs ;;
  match raw_data with
  | None | Some [] => ret tt
  | Some all_data =>
      r <- generate_reports E all_data output ;;
      if String.eqb (snd r) "" then ret tt
      else create_percentage_stacked_bar_chart E (snd r) output
  end.

End WithSort.

End DrawBarplot.

(** ** Result trees of the scenarios of the specification *)

Definition no_failures : env :=
  {| makedirs_fails := fun _ => false;
     open_fails := fun _ => false;
     savefig_fails := fun _ => false |}.

Definition estimates (q : Q) : node :=
  File (Parsed (JObj [("mean", JObj [("point_estimate", JNum q)])])).

Definition stage_dir (estimate : node) : node :=
  Dir [("base", Dir [("benchmark.json", File Malformed);
                     ("estimates.json", estimate)])].


Definition scenario_a : node :=
  Dir [("a", Dir [("x", stage_dir (estimates 100));
                  ("y", stage_dir (estimates 300))])].

Definition scenario_b : node :=
  Dir [("a", Dir [("x", stage_dir (estimates 100));
                  ("y", stage_dir (estimates 100))]);
       ("b", Dir [("x", stage_dir (estimates 300))])].

Definition scenario_d : node :=
  Dir [("a", Dir [("x", stage_dir (estimates 100));
                  ("y", stage_dir (File Malformed))]);
       ("b", Dir [("x", stage_dir (estimates 300))])].

(** ** Specification-side descriptions, compared with the code below *)

(** What one group adds to the percentage list of [stage_name]: one entry
    when the group holds the stage and its total is positive, nothing
    otherwise. *)
Definition contribution (stage_name : string) (stages : GroupTimings) : list Q :=
  let total_time := py_sum (values stages) in
  if Qlt_bool 0 total_time then
    match dict_get stages stage_name with
    | Some stage_time => [stage_time / total_time * 100]
    | None => []
    end
  else [].

Definition contributions (stage_name : string) (all_data : AllGroupsData)
  : list Q :=
  flat_map (fun g => contribution stage_name (snd g)) all_data.

(** A [defaultdict(list)] entry after more items were appended to it. *)
Definition extend (o : option (list Q)) (l : list Q) : option (list Q) :=
  match l with
  | [] => o
  | _ => Some (match o with Some l0 => l0 | None => [] end ++ l)
  end.

(** Strictly ascending order on stage names. *)
Definition str_lt : string -> string -> Prop := String_as_OT.lt.

Definition is_print (e : event) : bool :=
  match e with
  | Print _ => true
  | _ => false
  end.

Definition is_warning (e : event) : bool :=
  match e with
  | Print (WarnLeaf _ _) => true
  | _ => false
  end.

(** The two report tables of a run. *)
Definition raw_table (raw_row : list string -> string * GroupTimings -> list cell)
  (all_data : AllGroupsData) : table :=
  {| header := raw_header (all_stage_names all_data);
     rows := map (raw_row (all_stage_names all_data)) all_data |}.

Definition summary_stats (all_data : AllGroupsData)
  : list (string * PercentageStat) :=
  fst (summary_loop (stage_percentages all_data) (all_stage_names all_data)).

Definition summary_table (all_data : AllGroupsData) : table :=
  {| header := summary_header; rows := map summary_row (summary_stats all_data) |}.

Definition summary_for_chart (all_data : AllGroupsData) : list (string * Q) :=
  map (fun r => (fst r, avg_percentage (snd r))) (summary_stats all_data).

(** The events of [generate_reports] when nothing fails. *)
Definition reports_events (raw : table) (all_data : AllGroupsData)
  (output_dir : string) : list event :=
  let csv1_path := path_join output_dir "timings_raw.csv" in
  let csv2_path := path_join output_dir "percentage_summary.csv" in
  [MakeDirs output_dir; OpenWrite csv1_path; Written csv1_path raw;
   Print (InfoRawSaved csv1_path); OpenWrite csv2_path;
   Written csv2_path (summary_table all_data);
   Print (InfoSummarySaved csv2_path)].

(** The two fatal conditions of the scan: [criterion_root] is not a
    directory, or no group yields data. *)
Definition scan_is_fatal (criterion_root : string) (fs : option node) : Prop :=
  match fs with
  | Some (Dir entries) =>
      fst (collect_groups criterion_root
             (filter (fun e => is_dir (snd e)) entries)) = []
  | _ => True
  end.

Definition fatal_diagnostic (m : message) : bool :=
  match m with
  | ErrRootNotFound _ | ErrNoValidData => true
  | _ => false
  end.

(** The column of a stage in [timings_raw.csv], and the name the column
    has once the file is read back. *)
Definition stage_column (stage : string) : string :=
  (stage ++ "_time_ns")%string.

Definition read_column (stage : string) : string :=
  if String.eqb stage "total" then "total_time_ns.1" else stage_column stage.

(** The data frame read back from the [timings_raw.csv] of [all_data]. *)
Definition raw_frame (all_data : AllGroupsData) : csv_frame :=
  {| cf_columns := dedup_names (header (raw_table DrawBarplot.raw_row all_data));
     cf_rows := rows (raw_table DrawBarplot.raw_row all_data) |}.

Definition group_total (g : string * GroupTimings) : Q :=
  py_sum (values (snd g)).

Definition group_label (g : string * GroupTimings) : string :=
  DrawBarplot.translate_pair (fst g).

(** Every group name comes back as text when [timings_raw.csv] is read. *)
Definition pairs_are_text {sorter : SortValues} (all_data : AllGroupsData)
  : bool :=
  forallb (pair_is_text (keys all_data)) (keys all_data).

(** The stages that get a layer: all but one named [total], whose column
    name collides with the column of the totals. *)
Definition charted_stages (all_data : AllGroupsData) : list string :=
  filter (fun s => negb (String.eqb s "total")) (all_stage_names all_data).

(** The height of the segment of a stage in the bar of a group: the stage's
    share of the group total, 0 filled in for a stage the group lacks. *)
Definition bar_height (g : string * GroupTimings) (stage : string) : option Q :=
  percent_of (group_total g) (dict_get_default (snd g) stage 0).

Section ExpectedChart.
Context {sorter : SortValues}.

(** The groups in the order of their bars. *)
Definition bars (all_data : AllGroupsData) : list (string * GroupTimings) :=
  map (fun i => nth i all_data ("", []))
    (argsort_desc (map group_total all_data)).

Definition expected_chart (all_data : AllGroupsData) : bar_chart :=
  {| bar_labels := map group_label (bars all_data);
     bar_layers :=
       DrawBarplot.draw_layers 0
         (map (fun s => (stage_column s,
                         map (fun g => bar_height g s) (bars all_data)))
            (charted_stages all_data))
         (repeat (Some 0) (List.length all_data));
     bar_totals_ms := map (fun g => group_total g / 1000000) (bars all_data) |}.
End ExpectedChart.

(** Two result trees for the bar chart: two groups with the same total,
    and a group with a stage named [total]. *)
Definition tied_groups : node :=
  Dir [("apple2", Dir [("x", stage_dir (estimates 1))]);
       ("lemon", Dir [("x", stage_dir (estimates 1))])].

Definition total_stage : node :=
  Dir [("apple2", Dir [("total", stage_dir (estimates 1));
                       ("x", stage_dir (estimates 1))])].

(** Two groups with fruit names; the second lacks stage [y]. *)
Definition two_fruits : node :=
  Dir [("apple2", Dir [("y", stage_dir (estimates 1));
                       ("x", stage_dir (estimates 3))]);
       ("lemon", Dir [("x", stage_dir (estimates 2))])].

(** The height of the whole bar at position [j]: the layers' segments
    added up. *)
Definition stack_height (layers : list bar_layer) (j : nat) : option Q :=
  fold_left add_opt (map (fun l => nth j (layer_heights l) None) layers)
    (Some 0).

(** The events of [create_percentage_stacked_bar_chart] on the raw timings
    of [all_data]: the failure of [p.split()] on a group name that did not
    come back as text, the failure of the chart computation, the failure of
    [savefig], or the saved chart and its announcement. *)
Definition bar_chart_events {sorter : SortValues} (E : env)
  (all_data : AllGroupsData) (output_dir : string) : list event :=
  let chart_filename :=
    path_join output_dir "percentage_stacked_bar_chart.pdf" in
  if pairs_are_text all_data then
    match DrawBarplot.stacked_bar_chart (raw_frame all_data) with
    | Ok chart =>
        if savefig_fails E chart_filename then [Print (ErrBarChart OSError)]
        else [SaveFig chart_filename (BarFigure chart);
              Print (InfoBarSaved chart_filename)]
    | Raise e => [Print (ErrBarChart e)]
    end
  else [Print (ErrBarChart AttributeError)].

(** ** Descriptions used by the further properties of the code *)

(** What one directory of the walk adds to the total of [stage]: the point
    estimate of a leaf whose parent directory has that name, when it is a
    number. *)
Definition leaf_estimate (stage : string) (w : walk_item) : Q :=
  if leaf_condition w && String.eqb (basename (dirname (w_root w))) stage then
    match read_point_estimate w with
    | Ok point_estimate =>
        match number_of point_estimate with
        | Some q => if too_large point_estimate then 0 else q
        | None => 0
        end
    | Raise _ => 0
    end
  else 0.

(** A stage name that can be the name of a directory. *)
Definition is_name (s : string) : bool :=
  negb (String.eqb s "") && negb (has_slash s).

(** The directory of a group as the benchmarks lay it out: one directory
    per stage, each with a [base] leaf. *)
Definition group_dir (stages : GroupTimings) : node :=
  Dir (map (fun st => (fst st, stage_dir (estimates (snd st)))) stages).

(** The cells of two rows agree: equal text, numbers within 0.005. *)
Definition cell_close (c1 c2 : cell) : Prop :=
  match c1, c2 with
  | CStr a, CStr b => a = b
  | CNum a, CNum b => Qabs (a - b) <= 1 # 200
  | _, _ => False
  end.




(** * Properties *)

(** ** Numbers *)

Lemma Qlt_bool_iff (x y : Q) : Qlt_bool x y = true <-> x < y.
Proof.
  unfold Qlt_bool. rewrite negb_true_iff. split; intro H.
  - apply Qnot_le_lt. intro Hle. apply Qle_bool_iff in Hle. congruence.
  - destruct (Qle_bool y x) eqn:E; [|reflexivity].
    apply Qle_bool_iff in E. exfalso. exact (Qlt_not_le _ _ H E).
Qed.

Lemma Qlt_bool_false (x y : Q) : Qlt_bool x y = false <-> y <= x.
Proof.
  unfold Qlt_bool. rewrite negb_false_iff. apply Qle_bool_iff.
Qed.

Lemma fold_sum_acc (xs : list Q) (a : Q) :
  fold_left Qplus xs a == a + py_sum xs.
Proof.
  unfold py_sum. revert a.
  induction xs as [|x xs IH]; intro a; simpl.
  - ring.
  - rewrite (IH (a + x)), (IH (0 + x)). ring.
Qed.

Lemma py_sum_cons (x : Q) (xs : list Q) : py_sum (x :: xs) == x + py_sum xs.
Proof.
  unfold py_sum at 1. simpl. rewrite fold_sum_acc. ring.
Qed.

Lemma py_sum_app (xs ys : list Q) : py_sum (xs ++ ys) == py_sum xs + py_sum ys.
Proof.
  induction xs as [|x xs IH]; simpl.
  - unfold py_sum at 2. simpl. ring.
  - rewrite !py_sum_cons, IH. ring.
Qed.



Lemma fold_min_spec (rest : list Q) (x : Q) :
  let m := fold_left (fun best y => if Qlt_bool y best then y else best) rest x in
  In m (x :: rest) /\ Forall (fun y => m <= y) (x :: rest).
Proof.
  revert x. induction rest as [|y rest IH]; intro x; simpl.
  - split; [auto|]. constructor; [lra|constructor].
  - destruct (Qlt_bool y x) eqn:E.
    + apply Qlt_bool_iff in E.
      destruct (IH y) as [Hin Hall]. simpl in Hin, Hall. split.
      * right. exact Hin.
      * inversion Hall as [|? ? Hy Hrest]; subst.
        constructor; [lra|]. constructor; assumption.
    + apply Qlt_bool_false in E.
      destruct (IH x) as [Hin Hall]. simpl in Hin, Hall. split.
      * destruct Hin as [Hin|Hin]; [left; exact Hin|right; right; exact Hin].
      * inversion Hall as [|? ? Hx Hrest]; subst.
        constructor; [assumption|]. constructor; [lra|assumption].
Qed.

Lemma fold_max_spec (rest : list Q) (x : Q) :
  let m := fold_left (fun best y => if Qlt_bool best y then y else best) rest x in
  In m (x :: rest) /\ Forall (fun y => y <= m) (x :: rest).
Proof.
  revert x. induction rest as [|y rest IH]; intro x; simpl.
  - split; [auto|]. constructor; [lra|constructor].
  - destruct (Qlt_bool x y) eqn:E.
    + apply Qlt_bool_iff in E.
      destruct (IH y) as [Hin Hall]. simpl in Hin, Hall. split.
      * right. exact Hin.
      * inversion Hall as [|? ? Hy Hrest]; subst.
        constructor; [lra|]. constructor; assumption.
    + apply Qlt_bool_false in E.
      destruct (IH x) as [Hin Hall]. simpl in Hin, Hall. split.
      * destruct Hin as [Hin|Hin]; [left; exact Hin|right; right; exact Hin].
      * inversion Hall as [|? ? Hx Hrest]; subst.
        constructor; [assumption|]. constructor; [lra|assumption].
Qed.

Lemma py_min_spec (xs : list Q) (m : Q) :
  py_min xs = Some m -> In m xs /\ Forall (fun y => m <= y) xs.
Proof.
  destruct xs as [|x rest]; simpl; [discriminate|].
  intro H. injection H as <-. apply fold_min_spec.
Qed.

Lemma py_max_spec (xs : list Q) (m : Q) :
  py_max xs = Some m -> In m xs /\ Forall (fun y => y <= m) xs.
Proof.
  destruct xs as [|x rest]; simpl; [discriminate|].
  intro H. injection H as <-. apply fold_max_spec.
Qed.

Lemma py_min_nonempty (xs : list Q) : xs <> [] -> exists m, py_min xs = Some m.
Proof. destruct xs; [congruence|]. intros _. simpl. eauto. Qed.

Lemma py_max_nonempty (xs : list Q) : xs <> [] -> exists m, py_max xs = Some m.
Proof. destruct xs; [congruence|]. intros _. simpl. eauto. Qed.





Lemma round_half_even_close (q : Q) :
  Qabs (inject_Z (round_half_even q) - q) <= 1 # 2.
Proof.
  unfold round_half_even.
  pose proof (Qfloor_le q) as Hlo.
  pose proof (Qlt_floor q) as Hhi.
  rewrite inject_Z_plus in Hhi. change (inject_Z 1) with 1 in Hhi.
  apply Qabs_Qle_condition.
  destruct (Qcompare_spec (q - inject_Z (Qfloor q)) (1 # 2)) as [E|E|E].
  - destruct (Z.even (Qfloor q)).
    + lra.
    + rewrite inject_Z_plus. change (inject_Z 1) with 1. lra.
  - lra.
  - rewrite inject_Z_plus. change (inject_Z 1) with 1. lra.
Qed.

(** [round(q, 2)] moves a number by at most half a hundredth. *)
Lemma py_round2_close (q : Q) : Qabs (py_round2 q - q) <= 1 # 200.
Proof.
  unfold py_round2.
  pose proof (round_half_even_close (q * 100)) as H.
  apply Qabs_Qle_condition in H. apply Qabs_Qle_condition.
  set (z := inject_Z (round_half_even (q * 100))) in *.
  unfold Qdiv. change (/ 100) with (1 # 100). lra.
Qed.

(** ** Dictionaries *)

Lemma existsb_eqb_In (x : string) (l : list string) :
  existsb (String.eqb x) l = true <-> In x l.
Proof.
  rewrite existsb_exists. split.
  - intros [y [Hy E]]. apply String.eqb_eq in E. subst. exact Hy.
  - intro H. exists x. split; [exact H|apply String.eqb_refl].
Qed.

Lemma nodupb_NoDup (l : list string) : nodupb l = true <-> NoDup l.
Proof.
  induction l as [|x l IH]; simpl.
  - split; [constructor|reflexivity].
  - rewrite andb_true_iff, negb_true_iff, IH. split.
    + intros [Hx Hl]. constructor; [|exact Hl].
      intro Hin. apply existsb_eqb_In in Hin. congruence.
    + intro H. inversion H as [|? ? Hx Hl]; subst. split; [|exact Hl].
      destruct (existsb (String.eqb x) l) eqn:E; [|reflexivity].
      apply existsb_eqb_In in E. contradiction.
Qed.

Section DictFacts.
Variable V : Type.
Implicit Types (d : dict V) (k : string) (v : V).

Lemma dict_get_set_same d k v : dict_get (dict_set d k v) k = Some v.
Proof.
  induction d as [|[k' v'] d IH]; simpl.
  - rewrite String.eqb_refl. reflexivity.
  - destruct (String.eqb k' k) eqn:E; simpl; rewrite E; auto.
Qed.

Lemma dict_get_set_other d k k' v :
  k <> k' -> dict_get (dict_set d k v) k' = dict_get d k'.
Proof.
  intro Hne. induction d as [|[k0 v0] d IH]; simpl.
  - apply String.eqb_neq in Hne. rewrite Hne. reflexivity.
  - destruct (String.eqb k0 k) eqn:E; simpl.
    + apply String.eqb_eq in E. subst k0.
      apply String.eqb_neq in Hne. rewrite Hne. reflexivity.
    + destruct (String.eqb k0 k'); auto.
Qed.

Lemma dict_get_None d k : dict_get d k = None <-> ~ In k (keys d).
Proof.
  induction d as [|[k' v'] d IH]; simpl.
  - tauto.
  - destruct (String.eqb k' k) eqn:E.
    + apply String.eqb_eq in E. split; [discriminate|intro H; tauto].
    + apply String.eqb_neq in E. rewrite IH. tauto.
Qed.

Lemma dict_get_Some_In d k v : dict_get d k = Some v -> In (k, v) d.
Proof.
  induction d as [|[k' v'] d IH]; simpl; [discriminate|].
  destruct (String.eqb k' k) eqn:E.
  - apply String.eqb_eq in E. intro H. injection H as ->. subst. auto.
  - auto.
Qed.

Lemma dict_get_In d k v :
  wf_dict d = true -> In (k, v) d -> dict_get d k = Some v.
Proof.
  unfold wf_dict. rewrite nodupb_NoDup.
  induction d as [|[k' v'] d IH]; simpl; [contradiction|].
  intros Hnd [Heq|Hin].
  - injection Heq as -> ->. rewrite String.eqb_refl. reflexivity.
  - inversion Hnd as [|? ? Hk Hd]; subst.
    destruct (String.eqb k' k) eqn:E; [|auto].
    apply String.eqb_eq in E. subst k'. exfalso. apply Hk.
    change (In (fst (k, v)) (map fst d)). apply in_map. exact Hin.
Qed.

Lemma keys_dict_set d k v :
  keys (dict_set d k v) = if existsb (String.eqb k) (keys d) then keys d
                          else keys d ++ [k].
Proof.
  induction d as [|[k' v'] d IH]; simpl; [reflexivity|].
  rewrite (String.eqb_sym k k').
  destruct (String.eqb k' k) eqn:E; simpl; [reflexivity|].
  fold (keys (dict_set d k v)). rewrite IH. fold (keys d).
  destruct (existsb (String.eqb k) (keys d)); reflexivity.
Qed.

Lemma dict_set_Forall (P : V -> Prop) d k v :
  Forall (fun kv => P (snd kv)) d -> P v ->
  Forall (fun kv => P (snd kv)) (dict_set d k v).
Proof.
  intros Hd Hv. induction Hd as [|[k0 v0] d Hkv Hd IH]; simpl.
  - constructor; [exact Hv|constructor].
  - destruct (String.eqb k0 k); constructor; assumption.
Qed.
End DictFacts.

Arguments dict_get_set_same {V} d k v.
Arguments dict_get_set_other {V} d k k' v.
Arguments dict_get_None {V} d k.
Arguments dict_get_Some_In {V} d k v.
Arguments dict_get_In {V} d k v.
Arguments keys_dict_set {V} d k v.
Arguments dict_set_Forall {V} P d k v.

Lemma wf_data_groups (all_data : AllGroupsData) (g : string * GroupTimings) :
  wf_data all_data = true -> In g all_data -> wf_dict (snd g) = true.
Proof.
  unfold wf_data. rewrite andb_true_iff. intros [_ H] Hin.
  rewrite forallb_forall in H. exact (H g Hin).
Qed.


(** ** The percentage lists *)

Lemma extend_extend (o : option (list Q)) (l1 l2 : list Q) :
  extend (extend o l1) l2 = extend o (l1 ++ l2).
Proof.
  destruct l1 as [|x l1]; [reflexivity|].
  destruct l2 as [|y l2]; simpl.
  - rewrite app_nil_r. reflexivity.
  - rewrite <- app_assoc. reflexivity.
Qed.

Lemma dict_get_dict_append_same (sp : dict (list Q)) (k : string) (p : Q) :
  dict_get (dict_append sp k p) k = extend (dict_get sp k) [p].
Proof.
  unfold dict_append, dict_get_default. rewrite dict_get_set_same.
  reflexivity.
Qed.

Lemma dict_get_dict_append_other (sp : dict (list Q)) (k k' : string) (p : Q) :
  k <> k' -> dict_get (dict_append sp k p) k' = dict_get sp k'.
Proof. intro H. unfold dict_append. apply dict_get_set_other. exact H. Qed.

(** The inner loop over the stages of one group, for any entry formula. *)
Lemma stages_loop_get (f : Q -> Q) (stages : GroupTimings)
  (sp : dict (list Q)) (s : string) :
  wf_dict stages = true ->
  dict_get
    (fold_left (fun acc st => dict_append acc (fst st) (f (snd st))) stages sp) s
  = extend (dict_get sp s)
      (match dict_get stages s with Some v => [f v] | None => [] end).
Proof.
  unfold wf_dict. rewrite nodupb_NoDup. revert sp.
  induction stages as [|[k v] stages IH]; intros sp Hnd; simpl.
  - reflexivity.
  - inversion Hnd as [|? ? Hk Hrest]; subst.
    rewrite (IH _ Hrest).
    destruct (String.eqb k s) eqn:E.
    + apply String.eqb_eq in E. subst k.
      assert (Hnone : dict_get stages s = None) by (apply dict_get_None; exact Hk).
      rewrite Hnone, dict_get_dict_append_same. reflexivity.
    + apply String.eqb_neq in E.
      rewrite dict_get_dict_append_other by exact E. reflexivity.
Qed.

Lemma add_group_percentages_get (sp : dict (list Q)) (stages : GroupTimings)
  (s : string) :
  wf_dict stages = true ->
  dict_get (add_group_percentages sp stages) s
  = extend (dict_get sp s) (contribution s stages).
Proof.
  intro Hwf. unfold add_group_percentages, contribution.
  destruct (Qlt_bool 0 (py_sum (values stages))); [|reflexivity].
  exact (stages_loop_get (fun t => t / py_sum (values stages) * 100)
           stages sp s Hwf).
Qed.

Lemma groups_loop_get (all_data : AllGroupsData) (sp : dict (list Q))
  (s : string) :
  Forall (fun g => wf_dict (snd g) = true) all_data ->
  dict_get (fold_left (fun acc g => add_group_percentages acc (snd g)) all_data sp) s
  = extend (dict_get sp s) (contributions s all_data).
Proof.
  intro H. revert sp. induction H as [|g rest Hg _ IH]; intro sp; simpl.
  - reflexivity.
  - rewrite IH, add_group_percentages_get by exact Hg.
    apply extend_extend.
Qed.

(** The code's [stage_percentages] against the description: the list kept
    for a stage is the list of contributions, and the key exists only when
    that list is not empty. *)
Lemma stage_percentages_get (all_data : AllGroupsData) (s : string) :
  wf_data all_data = true ->
  dict_get (stage_percentages all_data) s
  = extend None (contributions s all_data).
Proof.
  intro Hwf. unfold stage_percentages.
  apply (groups_loop_get all_data [] s).
  apply Forall_forall. intros g Hg. exact (wf_data_groups all_data g Hwf Hg).
Qed.

Lemma contributions_app (s : string) (l1 l2 : AllGroupsData) :
  contributions s (l1 ++ l2) = contributions s l1 ++ contributions s l2.
Proof. unfold contributions. apply flat_map_app. Qed.



(** Every list stored in [stage_percentages] has an entry, whatever the
    input: keys are created by [append] only. *)
Lemma dict_append_nonempty (sp : dict (list Q)) (k : string) (p : Q) :
  Forall (fun kv => snd kv <> []) sp ->
  Forall (fun kv => snd kv <> []) (dict_append sp k p).
Proof.
  intro H. unfold dict_append.
  apply (dict_set_Forall (fun l => l <> [])); [exact H|].
  destruct (dict_get_default sp k []); discriminate.
Qed.

Lemma add_group_percentages_nonempty (sp : dict (list Q)) (stages : GroupTimings) :
  Forall (fun kv => snd kv <> []) sp ->
  Forall (fun kv => snd kv <> []) (add_group_percentages sp stages).
Proof.
  unfold add_group_percentages.
  destruct (Qlt_bool 0 (py_sum (values stages))); [|auto].
  generalize (py_sum (values stages)). intro T. revert sp.
  induction stages as [|st stages IH]; intros sp H; simpl; [exact H|].
  apply IH. apply dict_append_nonempty. exact H.
Qed.

Lemma stage_percentages_nonempty (all_data : AllGroupsData) :
  Forall (fun kv => snd kv <> []) (stage_percentages all_data).
Proof.
  unfold stage_percentages.
  assert (H : Forall (fun kv : string * list Q => snd kv <> []) [])
    by constructor.
  revert H. generalize (@nil (string * list Q)).
  induction all_data as [|g rest IH]; intros sp H; simpl; [exact H|].
  apply IH. apply add_group_percentages_nonempty. exact H.
Qed.

(** [min] and [max] never fail in the summary loop. *)
Lemma percentage_stat_defined (all_data : AllGroupsData) (s : string) :
  exists st, percentage_stat (stage_percentages all_data) s = Some st.
Proof.
  unfold percentage_stat.
  assert (Hne : dict_get_default (stage_percentages all_data) s [0] <> []).
  { unfold dict_get_default.
    destruct (dict_get (stage_percentages all_data) s) as [l|] eqn:E;
      [|discriminate].
    apply dict_get_Some_In in E.
    pose proof (stage_percentages_nonempty all_data) as H.
    rewrite Forall_forall in H. exact (H _ E). }
  destruct (py_min_nonempty _ Hne) as [mn ->].
  destruct (py_max_nonempty _ Hne) as [mx ->].
  eauto.
Qed.


Lemma extend_None_None (c : list Q) : extend None c = None -> c = [].
Proof. destruct c; simpl; [reflexivity|discriminate]. Qed.

(** The list the summary loop works on, in terms of the contributions. *)
Lemma percentages_used (all_data : AllGroupsData) (s : string) :
  wf_data all_data = true ->
  dict_get_default (stage_percentages all_data) s [0]
  = match contributions s all_data with
    | [] => [0]
    | l => l
    end.
Proof.
  intro Hwf. unfold dict_get_default.
  rewrite (stage_percentages_get all_data s Hwf).
  destruct (contributions s all_data); reflexivity.
Qed.

Lemma percentage_stat_of_list (sp : dict (list Q)) (s : string)
  (st : PercentageStat) :
  percentage_stat sp s = Some st ->
  let l := dict_get_default sp s [0] in
  l <> []
  /\ In (min_percentage st) l /\ Forall (fun y => min_percentage st <= y) l
  /\ In (max_percentage st) l /\ Forall (fun y => y <= max_percentage st) l
  /\ avg_percentage st = py_sum l / inject_Z (Z.of_nat (List.length l)).
Proof.
  intro H. cbv zeta. unfold percentage_stat in H.
  set (l := dict_get_default sp s [0]) in *.
  destruct (py_min l) as [mn|] eqn:Emin; [|discriminate].
  destruct (py_max l) as [mx|] eqn:Emax; [|discriminate].
  injection H as <-. simpl.
  destruct (py_min_spec _ _ Emin) as [Hmin1 Hmin2].
  destruct (py_max_spec _ _ Emax) as [Hmax1 Hmax2].
  repeat split; try assumption.
  intro Hnil. rewrite Hnil in Hmin1. contradiction.
Qed.




(** C10: in a group with a positive total, a stage whose value is exactly 0
    adds the entry 0 to the stage's list, at the group's place, and the
    statistics are taken over the list with that entry; a stage the group
    does not hold adds nothing. *)
Theorem zero_stage_is_counted (before after : AllGroupsData) (name : string)
  (stages : GroupTimings) (s : string) :
  let all_data := before ++ (name, stages) :: after in
  wf_data all_data = true ->
  0 < py_sum (values stages) ->
  (forall v, dict_get stages s = Some v -> v == 0 ->
     exists p st,
       p == 0
       /\ dict_get (stage_percentages all_data) s
          = Some (contributions s before ++ p :: contributions s after)
       /\ percentage_stat (stage_percentages all_data) s = Some st
       /\ min_percentage st <= 0 /\ 0 <= max_percentage st
       /\ avg_percentage st
          = py_sum (contributions s before ++ p :: contributions s after)
            / inject_Z (Z.of_nat (List.length (contributions s before) + 1
                                  + List.length (contributions s after))))
  /\ (dict_get stages s = None ->
      contributions s all_data
      = contributions s before ++ contributions s after).
Proof.
  intros all_data Hwf Hpos.
  assert (Hsplit : contributions s all_data
                   = contributions s before
                     ++ contribution s stages ++ contributions s after).
  { unfold all_data. rewrite contributions_app. reflexivity. }
  split.
  - intros v Hv Hzero.
    assert (Hc : contribution s stages = [v / py_sum (values stages) * 100]).
    { unfold contribution. apply Qlt_bool_iff in Hpos. rewrite Hpos, Hv.
      reflexivity. }
    rewrite Hc in Hsplit. simpl in Hsplit.
    set (p := v / py_sum (values stages) * 100) in *.
    assert (Hp : p == 0).
    { unfold p. rewrite Hzero. unfold Qdiv. ring. }
    assert (Hget : dict_get (stage_percentages all_data) s
                   = Some (contributions s before ++ p :: contributions s after)).
    { rewrite (stage_percentages_get all_data s Hwf), Hsplit.
      destruct (contributions s before); reflexivity. }
    destruct (percentage_stat_defined all_data s) as [st Hst].
    exists p, st.
    destruct (percentage_stat_of_list _ _ _ Hst)
      as (_ & _ & Hmin2 & _ & Hmax2 & Havg).
    unfold dict_get_default in Hmin2, Hmax2, Havg. rewrite Hget in *.
    assert (Hin : In p (contributions s before ++ p :: contributions s after))
      by (apply in_or_app; right; left; reflexivity).
    rewrite Forall_forall in Hmin2, Hmax2.
    pose proof (Hmin2 _ Hin). pose proof (Hmax2 _ Hin).
    repeat split; try assumption; try lra.
    rewrite Havg. rewrite length_app. simpl List.length.
    replace (List.length (contributions s before)
             + S (List.length (contributions s after)))%nat
      with (List.length (contributions s before) + 1
            + List.length (contributions s after))%nat by lia.
    reflexivity.
  - intro Hnone. rewrite Hsplit. unfold contribution. rewrite Hnone.
    destruct (Qlt_bool 0 (py_sum (values stages))); reflexivity.
Qed.

Lemma zero_stage_is_counted_witness :
  exists p st,
    p == 0
    /\ In p (dict_get_default
               (stage_percentages
                  [("a", [("x", 100)]); ("b", [("x", 0); ("y", 5)])])
               "x" [])
    /\ percentage_stat
         (stage_percentages [("a", [("x", 100)]); ("b", [("x", 0); ("y", 5)])])
         "x" = Some st
    /\ min_percentage st <= 0.
Proof.
  destruct (zero_stage_is_counted [("a", [("x", 100)])] [] "b"
              [("x", 0); ("y", 5)] "x" eq_refl eq_refl) as [H _].
  destruct (H 0 eq_refl (Qeq_refl 0)) as (p & st & Hp & Hget & Hst & Hmin & _).
  exists p, st. repeat split; try assumption.
  unfold dict_get_default.
  change ([("a", [("x", 100)])] ++ [("b", [("x", 0); ("y", 5)])])
    with [("a", [("x", 100)]); ("b", [("x", 0); ("y", 5)])] in Hget.
  rewrite Hget. apply in_or_app. right. left. reflexivity.
Defined.

(** ** Sorted stage names *)

Lemma str_lt_trans (a b c : string) : str_lt a b -> str_lt b c -> str_lt a c.
Proof. apply String_as_OT.lt_strorder. Qed.

Lemma str_lt_irrefl (a : string) : ~ str_lt a a.
Proof. apply String_as_OT.lt_strorder. Qed.

Lemma str_leb_true (a b : string) : str_leb a b = true -> a = b \/ str_lt a b.
Proof.
  unfold str_leb.
  destruct (String_as_OT.compare_spec a b) as [E|E|E]; intro H;
    [left; exact E|right; exact E|discriminate].
Qed.

Lemma str_leb_false (a b : string) : str_leb a b = false -> str_lt b a.
Proof.
  unfold str_leb.
  destruct (String_as_OT.compare_spec a b) as [E|E|E]; intro H;
    [discriminate|discriminate|exact E].
Qed.

Lemma insert_sorted_In (x y : string) (l : list string) :
  In y (insert_sorted x l) <-> y = x \/ In y l.
Proof.
  induction l as [|z l IH]; simpl.
  - intuition.
  - destruct (str_leb x z); simpl; [intuition|].
    rewrite IH. intuition.
Qed.

Lemma sorted_In (y : string) (l : list string) : In y (sorted l) <-> In y l.
Proof.
  induction l as [|x l IH]; simpl; [tauto|].
  rewrite insert_sorted_In, IH. intuition.
Qed.

Lemma insert_sorted_strict (x : string) (l : list string) :
  StronglySorted str_lt l -> ~ In x l ->
  StronglySorted str_lt (insert_sorted x l).
Proof.
  induction 1 as [|y l Hl IH Hy]; intro Hnot; simpl.
  - constructor; constructor.
  - destruct (str_leb x y) eqn:E.
    + apply str_leb_true in E. destruct E as [->|Hlt].
      * exfalso. apply Hnot. left. reflexivity.
      * constructor; [constructor; assumption|].
        constructor; [exact Hlt|].
        rewrite Forall_forall in Hy |- *. intros z Hz.
        exact (str_lt_trans _ _ _ Hlt (Hy z Hz)).
    + apply str_leb_false in E. constructor.
      * apply IH. intro Hin. apply Hnot. right. exact Hin.
      * rewrite Forall_forall in Hy |- *. intros z Hz.
        apply insert_sorted_In in Hz. destruct Hz as [->|Hz]; auto.
Qed.

Lemma sorted_strict (l : list string) :
  NoDup l -> StronglySorted str_lt (sorted l).
Proof.
  induction 1 as [|x l Hx _ IH]; simpl; [constructor|].
  apply insert_sorted_strict; [exact IH|].
  rewrite sorted_In. exact Hx.
Qed.

(** A strictly ascending list is determined by its elements. *)
Lemma strictly_sorted_unique (l1 l2 : list string) :
  StronglySorted str_lt l1 -> StronglySorted str_lt l2 ->
  (forall x, In x l1 <-> In x l2) -> l1 = l2.
Proof.
  intro H1. revert l2.
  induction H1 as [|x1 t1 Ht1 IH Hx1]; intros l2 H2 Hsame.
  - destruct l2 as [|x2 t2]; [reflexivity|].
    exfalso. apply (Hsame x2). left. reflexivity.
  - destruct H2 as [|x2 t2 Ht2 Hx2].
    + exfalso. apply (Hsame x1). left. reflexivity.
    + rewrite Forall_forall in Hx1, Hx2.
      assert (Heq : x1 = x2).
      { destruct (proj1 (Hsame x1) (or_introl eq_refl)) as [E|Hin1]; [auto|].
        destruct (proj2 (Hsame x2) (or_introl eq_refl)) as [E|Hin2]; [auto|].
        exfalso. apply (str_lt_irrefl x1).
        exact (str_lt_trans _ _ _ (Hx1 _ Hin2) (Hx2 _ Hin1)). }
      subst x2. f_equal. apply IH; [exact Ht2|].
      intro z. split; intro Hz.
      * destruct (proj1 (Hsame z) (or_intror Hz)) as [E|Hin]; [|exact Hin].
        subst z. exfalso. exact (str_lt_irrefl _ (Hx1 _ Hz)).
      * destruct (proj2 (Hsame z) (or_intror Hz)) as [E|Hin]; [|exact Hin].
        subst z. exfalso. exact (str_lt_irrefl _ (Hx2 _ Hz)).
Qed.

Lemma strictly_sorted_NoDup (l : list string) :
  StronglySorted str_lt l -> NoDup l.
Proof.
  induction 1 as [|x l _ IH Hx]; constructor; [|exact IH].
  intro Hin. rewrite Forall_forall in Hx.
  exact (str_lt_irrefl _ (Hx _ Hin)).
Qed.

Lemma stage_keys_In (all_data : AllGroupsData) (s : string) :
  In s (stage_keys all_data)
  <-> exists g, In g all_data /\ In s (keys (snd g)).
Proof. unfold stage_keys. apply in_flat_map. Qed.

Lemma all_stage_names_In (all_data : AllGroupsData) (s : string) :
  In s (all_stage_names all_data)
  <-> exists g, In g all_data /\ In s (keys (snd g)).
Proof.
  unfold all_stage_names, py_set.
  rewrite sorted_In, nodup_In. apply stage_keys_In.
Qed.

Lemma all_stage_names_strict (all_data : AllGroupsData) :
  StronglySorted str_lt (all_stage_names all_data).
Proof. apply sorted_strict. apply NoDup_nodup. Qed.


(** ** The summary loop *)

Lemma summary_loop_done (all_data : AllGroupsData) (names : list string) :
  snd (summary_loop (stage_percentages all_data) names) = None
  /\ map fst (fst (summary_loop (stage_percentages all_data) names)) = names
  /\ Forall (fun r => percentage_stat (stage_percentages all_data) (fst r)
                      = Some (snd r))
       (fst (summary_loop (stage_percentages all_data) names)).
Proof.
  induction names as [|s names (IH1 & IH2 & IH3)]; simpl.
  - repeat split. constructor.
  - destruct (percentage_stat_defined all_data s) as [st Hst]. rewrite Hst.
    destruct (summary_loop (stage_percentages all_data) names) as [done failure].
    simpl in *. repeat split; [exact IH1|f_equal; exact IH2|].
    constructor; [exact Hst|exact IH3].
Qed.

Lemma summary_loop_eq (all_data : AllGroupsData) :
  summary_loop (stage_percentages all_data) (all_stage_names all_data)
  = (summary_stats all_data, None).
Proof.
  unfold summary_stats.
  destruct (summary_loop_done all_data (all_stage_names all_data)) as [H _].
  destruct (summary_loop _ _) as [done failure]. simpl in *. subst. reflexivity.
Qed.

Lemma summary_stats_names (all_data : AllGroupsData) :
  map fst (summary_stats all_data) = all_stage_names all_data.
Proof. apply summary_loop_done. Qed.

(** ** Runs of the report writer *)

Ltac run_steps :=
  unfold bind, emit, raise, ret, makedirs, write_csv, write_summary;
  cbn beta iota.

Lemma write_summary_run (E : env) (path : string) (all_data : AllGroupsData)
  (tr : trace) :
  write_summary E path (stage_percentages all_data) (all_stage_names all_data) tr
  = if open_fails E path then (tr ++ [OpenWrite path], Raise OSError)
    else (tr ++ [OpenWrite path; Written path (summary_table all_data)],
          Ok (summary_for_chart all_data)).
Proof.
  unfold write_summary. rewrite summary_loop_eq. run_steps.
  destruct (open_fails E path); [reflexivity|].
  rewrite <- app_assoc. reflexivity.
Qed.

Lemma process_and_plot_reports_run (E : env) (all_data : AllGroupsData)
  (out : string) (tr : trace) :
  let csv1 := path_join out "timings_raw.csv" in
  let csv2 := path_join out "percentage_summary.csv" in
  let raw := raw_table ProcessAndPlot.raw_row all_data in
  ProcessAndPlot.generate_reports E all_data out tr
  = if makedirs_fails E out then (tr, Raise OSError)
    else if open_fails E csv1 then
      (tr ++ [MakeDirs out; OpenWrite csv1], Raise OSError)
    else if open_fails E csv2 then
      (tr ++ [MakeDirs out; OpenWrite csv1; Written csv1 raw;
              Print (InfoRawSaved csv1); OpenWrite csv2], Raise OSError)
    else (tr ++ reports_events raw all_data out, Ok (summary_for_chart all_data)).
Proof.
  cbv zeta. unfold ProcessAndPlot.generate_reports, reports_events, raw_table.
  unfold bind at 1. unfold makedirs.
  destruct (makedirs_fails E out); [reflexivity|].
  unfold emit at 1. unfold bind at 1. unfold write_csv, bind at 1, emit at 1.
  destruct (open_fails E (path_join out "timings_raw.csv")).
  { unfold raise. rewrite <- app_assoc. reflexivity. }
  unfold emit at 1. unfold bind at 1, emit at 1.
  unfold bind at 1. rewrite write_summary_run.
  destruct (open_fails E (path_join out "percentage_summary.csv")).
  { rewrite <- !app_assoc. reflexivity. }
  unfold bind, emit, ret. rewrite <- !app_assoc. reflexivity.
Qed.

Lemma draw_barplot_reports_run (E : env) (all_data : AllGroupsData)
  (out : string) (tr : trace) :
  let csv1 := path_join out "timings_raw.csv" in
  let csv2 := path_join out "percentage_summary.csv" in
  let raw := raw_table DrawBarplot.raw_row all_data in
  DrawBarplot.generate_reports E all_data out tr
  = if makedirs_fails E out then (tr, Raise OSError)
    else if open_fails E csv1 then
      (tr ++ [MakeDirs out; OpenWrite csv1], Raise OSError)
    else if open_fails E csv2 then
      (tr ++ [MakeDirs out; OpenWrite csv1; Written csv1 raw;
              Print (InfoRawSaved csv1); OpenWrite csv2], Raise OSError)
    else (tr ++ reports_events raw all_data out,
          Ok (summary_for_chart all_data, csv1)).
Proof.
  cbv zeta. unfold DrawBarplot.generate_reports, reports_events, raw_table.
  unfold bind at 1. unfold makedirs.
  destruct (makedirs_fails E out); [reflexivity|].
  unfold emit at 1. unfold bind at 1. unfold write_csv, bind at 1, emit at 1.
  destruct (open_fails E (path_join out "timings_raw.csv")).
  { unfold raise. rewrite <- app_assoc. reflexivity. }
  unfold emit at 1. unfold bind at 1, emit at 1.
  unfold bind at 1. rewrite write_summary_run.
  destruct (open_fails E (path_join out "percentage_summary.csv")).
  { rewrite <- !app_assoc. reflexivity. }
  unfold bind, emit, ret. rewrite <- !app_assoc. reflexivity.
Qed.

(** ** Runs of the scanner *)

Lemma process_leaf_warnings (st : dict Q) (w : walk_item) :
  forallb is_warning (snd (process_leaf st w)) = true.
Proof.
  unfold process_leaf.
  destruct (read_point_estimate w) as [pe|e]; [|reflexivity].
  destruct pe; cbn [number_of too_large]; try reflexivity.
  destruct (_ <=? _)%Z; reflexivity.
Qed.

Lemma scan_step_log (acc : dict Q * list event) (w : walk_item) :
  scan_step acc w
  = (fst (scan_step (fst acc, []) w), snd acc ++ snd (scan_step (fst acc, []) w)).
Proof.
  unfold scan_step. destruct (leaf_condition w); simpl.
  - destruct (process_leaf (fst acc) w); reflexivity.
  - rewrite app_nil_r. destruct acc; reflexivity.
Qed.

(** The log is only appended to. *)
Lemma scan_fold_log (ws : list walk_item) (st : dict Q) (log : list event) :
  fold_left scan_step ws (st, log)
  = (fst (fold_left scan_step ws (st, [])),
     log ++ snd (fold_left scan_step ws (st, []))).
Proof.
  revert st log. induction ws as [|w ws IH]; intros st log; simpl.
  - rewrite app_nil_r. reflexivity.
  - rewrite (scan_step_log (st, log) w). simpl fst. simpl snd.
    destruct (scan_step (st, []) w) as [st' out] eqn:E. simpl.
    rewrite (IH st' (log ++ out)), (IH st' out).
    simpl. rewrite app_assoc. reflexivity.
Qed.

Lemma scan_step_warnings (acc : dict Q * list event) (w : walk_item) :
  forallb is_warning (snd acc) = true ->
  forallb is_warning (snd (scan_step acc w)) = true.
Proof.
  intro H. unfold scan_step. destruct (leaf_condition w); [|exact H].
  pose proof (process_leaf_warnings (fst acc) w) as Hw.
  destruct (process_leaf (fst acc) w) as [st out]. simpl in *.
  rewrite forallb_app, H, Hw. reflexivity.
Qed.

Lemma scan_leaves_warnings (ws : list walk_item) :
  forallb is_warning (snd (scan_leaves ws)) = true.
Proof.
  unfold scan_leaves.
  match goal with
  | |- context [fold_left _ ws ?init] =>
      assert (H : forallb is_warning (snd init) = true) by reflexivity;
      revert H; generalize init
  end.
  induction ws as [|w ws IH]; intros acc H; simpl; [exact H|].
  apply IH. apply scan_step_warnings. exact H.
Qed.

Lemma collect_groups_warnings (root : string) (groups : list (string * node)) :
  forallb is_warning (snd (collect_groups root groups)) = true.
Proof.
  unfold collect_groups.
  match goal with
  | |- context [fold_left _ groups ?init] =>
      assert (H : forallb is_warning (snd init) = true) by reflexivity;
      revert H; generalize init
  end.
  induction groups as [|g groups IH]; intros acc H; simpl; [exact H|].
  apply IH.
  pose proof (scan_leaves_warnings (walk (path_join root (fst g)) (snd g))) as Hw.
  unfold scan_group.
  destruct (scan_leaves (walk (path_join root (fst g)) (snd g))) as [st out].
  cbn [snd] in *. rewrite forallb_app. apply andb_true_iff.
  split; [exact H|exact Hw].
Qed.

(** What the scanner prints and returns, case by case. *)
Lemma collect_raw_data_run (root : string) (fs : option node) (tr : trace) :
  collect_raw_data root fs tr
  = match fs with
    | Some (Dir entries) =>
        let r := collect_groups root (filter (fun e => is_dir (snd e)) entries) in
        match fst r with
        | [] => (tr ++ snd r ++ [Print ErrNoValidData], Ok None)
        | _ => (tr ++ snd r ++ [Print (InfoGroupsFound (List.length (fst r)))],
                Ok (Some (fst r)))
        end
    | _ => (tr ++ [Print (ErrRootNotFound root)], Ok None)
    end.
Proof.
  unfold collect_raw_data.
  destruct fs as [[c|entries]|]; try reflexivity.
  cbv zeta.
  destruct (collect_groups root (filter (fun e => is_dir (snd e)) entries))
    as [d out].
  simpl fst. simpl snd.
  destruct d; unfold bind, emit_all, emit, ret; rewrite <- app_assoc;
    reflexivity.
Qed.

Lemma collect_raw_data_Some_nonempty (root : string) (fs : option node)
  (tr tr' : trace) (all_data : AllGroupsData) :
  collect_raw_data root fs tr = (tr', Ok (Some all_data)) -> all_data <> [].
Proof.
  rewrite collect_raw_data_run.
  destruct fs as [[c|entries]|]; try discriminate.
  cbv zeta.
  destruct (fst (collect_groups root (filter (fun e => is_dir (snd e)) entries)));
    [discriminate|].
  intro H. injection H as _ <-. discriminate.
Qed.

(** ** Sorting rows by insertion *)

Section InsertRows.
Variable before : Q -> Q -> bool.
Variable ks : list Q.
Hypothesis before_true : forall a b, before a b = true -> b <= a.
Hypothesis before_false : forall a b, before a b = false -> a <= b.

Let desc (i j : nat) : Prop := nth j ks 0 <= nth i ks 0.

Lemma insert_row_perm (i : nat) (placed : list nat) :
  Permutation (insert_row before ks i placed) (i :: placed).
Proof.
  induction placed as [|j placed IH]; simpl; [reflexivity|].
  destruct (before (nth i ks 0) (nth j ks 0)); [reflexivity|].
  rewrite IH. apply perm_swap.
Qed.

Lemma insert_row_sorted (i : nat) (placed : list nat) :
  StronglySorted desc placed ->
  StronglySorted desc (insert_row before ks i placed).
Proof.
  induction 1 as [|j placed Hp IH Hj]; simpl.
  - constructor; constructor.
  - destruct (before (nth i ks 0) (nth j ks 0)) eqn:E.
    + apply before_true in E. constructor; [constructor; assumption|].
      constructor; [exact E|].
      rewrite Forall_forall in Hj |- *. intros z Hz.
      specialize (Hj z Hz). unfold desc in *. lra.
    + apply before_false in E. constructor; [exact IH|].
      rewrite Forall_forall in Hj |- *. intros z Hz.
      apply (Permutation_in _ (insert_row_perm i placed)) in Hz.
      destruct Hz as [<-|Hz]; [exact E|auto].
Qed.

Lemma argsort_by_perm :
  Permutation (argsort_by before ks) (seq 0 (List.length ks)).
Proof.
  unfold argsort_by. induction (seq 0 (List.length ks)) as [|i l IH]; simpl.
  - reflexivity.
  - rewrite insert_row_perm. constructor. exact IH.
Qed.

Lemma argsort_by_sorted : StronglySorted desc (argsort_by before ks).
Proof.
  unfold argsort_by. induction (seq 0 (List.length ks)) as [|i l IH]; simpl.
  - constructor.
  - apply insert_row_sorted. exact IH.
Qed.
End InsertRows.

Lemma argsort_stable_perm (ks : list Q) :
  Permutation (argsort_stable ks) (seq 0 (List.length ks)).
Proof. apply argsort_by_perm. Qed.

Lemma argsort_stable_sorted (ks : list Q) :
  StronglySorted (fun i j => nth j ks 0 <= nth i ks 0) (argsort_stable ks).
Proof.
  apply argsort_by_sorted.
  - intros a b H. apply Qle_bool_iff in H. exact H.
  - intros a b H.
    destruct (Qlt_le_dec a b) as [Hlt|Hle]; [lra|].
    apply Qle_bool_iff in Hle. congruence.
Qed.

(** A sort that keeps rows with equal keys in their original order. *)
Definition stable_sort_values : SortValues :=
  {| argsort_desc := argsort_stable;
     argsort_perm := argsort_stable_perm;
     argsort_sorted := argsort_stable_sorted;
     pair_is_text := fun _ _ => true |}.

(** ** Leaves that fail *)

Lemma keys_dict_set_In {V : Type} (d : dict V) (k k' : string) (v : V) :
  In k' (keys (dict_set d k v)) <-> k' = k \/ In k' (keys d).
Proof.
  rewrite keys_dict_set.
  destruct (existsb (String.eqb k) (keys d)) eqn:E.
  - apply existsb_eqb_In in E. split; [auto|]. intros [->|H]; auto.
  - rewrite in_app_iff. simpl. intuition.
Qed.

Lemma process_leaf_keys (st : dict Q) (w : walk_item) (k : string) :
  In k (keys st) -> In k (keys (fst (process_leaf st w))).
Proof.
  intros H. unfold process_leaf.
  destruct (read_point_estimate w) as [j|e]; [|exact H].
  assert (Ht : In k (keys (match dict_get st (basename (dirname (w_root w))) with
                           | Some _ => st
                           | None => dict_set st (basename (dirname (w_root w))) 0
                           end))).
  { destruct (dict_get st _); [exact H|]. apply keys_dict_set_In. auto. }
  destruct j; cbn [number_of too_large fst]; try exact H; try exact Ht;
    try (destruct (_ <=? _)%Z; [exact Ht|]);
    apply keys_dict_set_In; auto.
Qed.

Lemma scan_step_keys (acc : dict Q * list event) (w : walk_item) (k : string) :
  In k (keys (fst acc)) -> In k (keys (fst (scan_step acc w))).
Proof.
  intros H. unfold scan_step. destruct (leaf_condition w); [|exact H].
  pose proof (process_leaf_keys (fst acc) w k H) as Hp.
  destruct (process_leaf (fst acc) w). exact Hp.
Qed.

Lemma scan_fold_keys (ws : list walk_item) (acc : dict Q * list event)
  (k : string) :
  In k (keys (fst acc)) -> In k (keys (fst (fold_left scan_step ws acc))).
Proof.
  revert acc. induction ws as [|w ws IH]; intros acc H; [exact H|].
  cbn [fold_left]. apply IH, scan_step_keys, H.
Qed.










(** ** Runs of the two scripts *)

Lemma process_and_plot_main_run (E : env) (root out : string)
  (fs : option node) (tr : trace) :
  ProcessAndPlot.main E root fs out tr
  = match collect_raw_data root fs tr with
    | (tr1, Raise e) => (tr1, Raise e)
    | (tr1, Ok None) | (tr1, Ok (Some [])) => (tr1, Ok tt)
    | (tr1, Ok (Some all_data)) =>
        match ProcessAndPlot.generate_reports E all_data out tr1 with
        | (tr2, Raise e) => (tr2, Raise e)
        | (tr2, Ok []) => (tr2, Ok tt)
        | (tr2, Ok summary_data) =>
            ProcessAndPlot.create_summary_pie_chart E summary_data out tr2
        end
    end.
Proof.
  unfold ProcessAndPlot.main, bind.
  destruct (collect_raw_data root fs tr) as [tr1 [[[|g d]|]|e]]; try reflexivity.
  destruct (ProcessAndPlot.generate_reports E (g :: d) out tr1)
    as [tr2 [[|r s]|e]]; reflexivity.
Qed.

Lemma draw_barplot_main_run {sorter : SortValues} (E : env) (root out : string)
  (fs : option node) (tr : trace) :
  DrawBarplot.main E root fs out tr
  = match collect_raw_data root fs tr with
    | (tr1, Raise e) => (tr1, Raise e)
    | (tr1, Ok None) | (tr1, Ok (Some [])) => (tr1, Ok tt)
    | (tr1, Ok (Some all_data)) =>
        match DrawBarplot.generate_reports E all_data out tr1 with
        | (tr2, Raise e) => (tr2, Raise e)
        | (tr2, Ok r) =>
            if String.eqb (snd r) "" then (tr2, Ok tt)
            else DrawBarplot.create_percentage_stacked_bar_chart E (snd r) out tr2
        end
    end.
Proof.
  unfold DrawBarplot.main, bind.
  destruct (collect_raw_data root fs tr) as [tr1 [[[|g d]|]|e]]; try reflexivity.
  destruct (DrawBarplot.generate_reports E (g :: d) out tr1)
    as [tr2 [r|e]]; [|reflexivity].
  unfold ret. destruct (String.eqb (snd r) ""); reflexivity.
Qed.

Lemma fatal_scan_run (root : string) (fs : option node) :
  scan_is_fatal root fs ->
  exists warnings m,
    run (collect_raw_data root fs) = (warnings ++ [Print m], Ok None)
    /\ forallb is_warning warnings = true
    /\ fatal_diagnostic m = true.
Proof.
  unfold run. rewrite collect_raw_data_run.
  destruct fs as [[c|entries]|]; simpl; intro H.
  - exists [], (ErrRootNotFound root). repeat split.
  - rewrite H.
    exists (snd (collect_groups root (filter (fun e => is_dir (snd e)) entries))),
      ErrNoValidData.
    repeat split. apply collect_groups_warnings.
  - exists [], (ErrRootNotFound root). repeat split.
Qed.

(** C7: when the scan root is not a directory, or when no group yields
    data, either script prints its warnings and one diagnostic and returns;
    the trace of the run holds no directory creation, no file write and no
    saved figure. *)
Theorem fatal_conditions_write_nothing {sorter : SortValues} (E : env)
  (root out : string) (fs : option node) :
  scan_is_fatal root fs ->
  exists warnings m,
    forallb is_warning warnings = true
    /\ fatal_diagnostic m = true
    /\ run (ProcessAndPlot.main E root fs out) = (warnings ++ [Print m], Ok tt)
    /\ run (DrawBarplot.main E root fs out) = (warnings ++ [Print m], Ok tt)
    /\ forallb is_print (warnings ++ [Print m]) = true.
Proof.
  intro Hfatal.
  destruct (fatal_scan_run root fs Hfatal) as (warnings & m & Hrun & Hw & Hm).
  exists warnings, m. unfold run in *.
  rewrite process_and_plot_main_run, draw_barplot_main_run, Hrun.
  repeat split; try assumption.
  rewrite forallb_app. apply andb_true_iff. split; [|reflexivity].
  rewrite forallb_forall in Hw |- *. intros e He. specialize (Hw e He).
  destruct e as [[]| | | |]; simpl in *; congruence.
Qed.

Lemma fatal_conditions_write_nothing_witness :
  run (ProcessAndPlot.main no_failures "target/criterion" None "out")
  = ([Print (ErrRootNotFound "target/criterion")], Ok tt)
  /\ run (DrawBarplot.main (sorter := stable_sort_values) no_failures
            "target/criterion"
            (Some (Dir [("a", Dir [("x", stage_dir (File Malformed))])])) "out")
     = ([Print (WarnLeaf "target/criterion/a/x/base" JSONDecodeError);
         Print ErrNoValidData], Ok tt).
Proof.
  split.
  - destruct (fatal_conditions_write_nothing (sorter := stable_sort_values)
                no_failures "target/criterion" "out" None I)
      as (warnings & m & _ & _ & H & _).
    reflexivity.
  - destruct (fatal_conditions_write_nothing (sorter := stable_sort_values)
                no_failures "target/criterion" "out"
                (Some (Dir [("a", Dir [("x", stage_dir (File Malformed))])]))
                eq_refl)
      as (warnings & m & _ & _ & _ & H & _).
    reflexivity.
Defined.

(** ** The tables found in a trace *)

Lemma append_inj_l (s a b : string) : (s ++ a = s ++ b)%string -> a = b.
Proof.
  induction s as [|c s IH]; simpl; intro H; [exact H|].
  injection H as H. exact (IH H).
Qed.

Lemma csv_paths_differ (out : string) :
  path_join out "timings_raw.csv" <> path_join out "percentage_summary.csv".
Proof.
  unfold path_join.
  destruct (String.eqb out "" || ends_with_slash out); intro H;
    apply append_inj_l in H; discriminate.
Qed.

Lemma process_and_plot_written_raw (E : env) (all_data : AllGroupsData)
  (out : string) (t : table) :
  In (Written (path_join out "timings_raw.csv") t)
     (fst (run (ProcessAndPlot.generate_reports E all_data out))) ->
  t = raw_table ProcessAndPlot.raw_row all_data.
Proof.
  unfold run. rewrite process_and_plot_reports_run. cbv zeta.
  unfold reports_events.
  pose proof (csv_paths_differ out) as Hne.
  set (csv1 := path_join out "timings_raw.csv") in *.
  set (csv2 := path_join out "percentage_summary.csv") in *.
  destruct (makedirs_fails E out); [intros []|].
  destruct (open_fails E csv1).
  { cbn [In app fst]. intuition discriminate. }
  destruct (open_fails E csv2); cbn [In app fst];
    intros H; repeat (destruct H as [H|H]; try discriminate H);
    try contradiction; injection H; intros; congruence.
Qed.

Lemma draw_barplot_written_raw (E : env) (all_data : AllGroupsData)
  (out : string) (t : table) :
  In (Written (path_join out "timings_raw.csv") t)
     (fst (run (DrawBarplot.generate_reports E all_data out))) ->
  t = raw_table DrawBarplot.raw_row all_data.
Proof.
  unfold run. rewrite draw_barplot_reports_run. cbv zeta.
  unfold reports_events.
  pose proof (csv_paths_differ out) as Hne.
  set (csv1 := path_join out "timings_raw.csv") in *.
  set (csv2 := path_join out "percentage_summary.csv") in *.
  destruct (makedirs_fails E out); [intros []|].
  destruct (open_fails E csv1).
  { cbn [In app fst]. intuition discriminate. }
  destruct (open_fails E csv2); cbn [In app fst];
    intros H; repeat (destruct H as [H|H]; try discriminate H);
    try contradiction; injection H; intros; congruence.
Qed.

(** The running sum of floats is rounded at every step: 0.1 + 0.2 is above
    0.3, and 10^16 + 1 + 1 is 10^16 where 1 + 1 + 10^16 is 10^16 + 2. *)
Example float_sum_is_rounded :
  PrimFloat.ltb
    (PrimFloat.div (Binary64.of_Z 3) (Binary64.of_Z 10))
    (Binary64.py_sum [PrimFloat.div (Binary64.of_Z 1) (Binary64.of_Z 10);
                      PrimFloat.div (Binary64.of_Z 2) (Binary64.of_Z 10)])
  = true
  /\ Binary64.py_sum [Binary64.of_Z (10 ^ 16); Binary64.of_Z 1; Binary64.of_Z 1]
     = Binary64.of_Z (10 ^ 16)
  /\ Binary64.py_sum [Binary64.of_Z 1; Binary64.of_Z 1; Binary64.of_Z (10 ^ 16)]
     = Binary64.of_Z (10 ^ 16 + 2).
Proof. repeat split; vm_compute; reflexivity. Qed.

(** C1, counterexample: the claim that the written total is the exact sum
    fails for
    [process_and_plot.py]: a group whose only stage took 1/16 ns gets the
    total 0.06 in [timings_raw.csv]. *)
Lemma raw_total_rounded_counterexample :
  let all_data : AllGroupsData := [("a", [("x", 1 # 16)])] in
  exists t written,
    In (Written "out/timings_raw.csv" t)
       (fst (run (ProcessAndPlot.generate_reports no_failures all_data "out")))
    /\ map (fun r => nth 1 r (CStr "")) (rows t) = [CNum written]
    /\ written == 6 # 100
    /\ ~ written == py_sum (values [("x", 1 # 16)]).
Proof.
  eexists. eexists. split; [|split; [|split]].
  - vm_compute. right. right. left. reflexivity.
  - vm_compute. reflexivity.
  - vm_compute. reflexivity.
  - vm_compute. discriminate.
Qed.

(** C1, amended: when the output directory and [timings_raw.csv] can be
    written, each script writes one table to [timings_raw.csv]; its second
    column is [total_time_ns] and holds, for every group in scan order, the
    value of [sum(stages.values())] in [draw_barplot.py] and that value
    rounded to two decimals in [process_and_plot.py].  The sum is the
    running sum of the stage values in the order of the dictionary; nothing
    is said about its distance from the exact sum. *)
Theorem raw_total_column (E : env) (all_data : AllGroupsData) (out : string) :
  let csv1 := path_join out "timings_raw.csv" in
  let total := fun g : string * GroupTimings => py_sum (values (snd g)) in
  let total_cells :=
    fun t : table => map (fun r => nth 1 r (CStr "")) (rows t) in
  makedirs_fails E out = false ->
  open_fails E csv1 = false ->
  (exists t,
     In (Written csv1 t)
        (fst (run (DrawBarplot.generate_reports E all_data out)))
     /\ (forall t',
           In (Written csv1 t')
              (fst (run (DrawBarplot.generate_reports E all_data out))) ->
           t' = t)
     /\ nth 1 (header t) "" = "total_time_ns"
     /\ total_cells t = map (fun g => CNum (total g)) all_data)
  /\ (exists t,
        In (Written csv1 t)
           (fst (run (ProcessAndPlot.generate_reports E all_data out)))
        /\ (forall t',
              In (Written csv1 t')
                 (fst (run (ProcessAndPlot.generate_reports E all_data out))) ->
              t' = t)
        /\ nth 1 (header t) "" = "total_time_ns"
        /\ total_cells t = map (fun g => CNum (py_round2 (total g))) all_data).
Proof.
  intros csv1 total total_cells Hmk H1. split.
  - exists (raw_table DrawBarplot.raw_row all_data).
    split; [|split; [|split]].
    + unfold run. rewrite draw_barplot_reports_run. cbv zeta.
      fold csv1. rewrite Hmk, H1.
      destruct (open_fails E (path_join out "percentage_summary.csv"));
        cbn [fst app reports_events]; right; right; left; reflexivity.
    + intros t' H. exact (draw_barplot_written_raw E all_data out t' H).
    + reflexivity.
    + unfold total_cells, raw_table. simpl rows. rewrite map_map. reflexivity.
  - exists (raw_table ProcessAndPlot.raw_row all_data).
    split; [|split; [|split]].
    + unfold run. rewrite process_and_plot_reports_run. cbv zeta.
      fold csv1. rewrite Hmk, H1.
      destruct (open_fails E (path_join out "percentage_summary.csv"));
        cbn [fst app reports_events]; right; right; left; reflexivity.
    + intros t' H. exact (process_and_plot_written_raw E all_data out t' H).
    + reflexivity.
    + unfold total_cells, raw_table. simpl rows. rewrite map_map. reflexivity.
Qed.

Lemma raw_total_column_witness :
  (exists t,
     In (Written "out/timings_raw.csv" t)
        (fst (run (DrawBarplot.generate_reports no_failures
                     [("a", [("x", 100); ("y", 300)])] "out")))
     /\ map (fun r => nth 1 r (CStr "")) (rows t) = [CNum (0 + 100 + 300)])
  /\ (exists t,
        In (Written "out/timings_raw.csv" t)
           (fst (run (ProcessAndPlot.generate_reports no_failures
                        [("a", [("x", 100); ("y", 300)])] "out")))
        /\ map (fun r => nth 1 r (CStr "")) (rows t)
           = [CNum (py_round2 (0 + 100 + 300))]).
Proof.
  destruct (raw_total_column no_failures [("a", [("x", 100); ("y", 300)])]
              "out" eq_refl eq_refl)
    as [(t1 & Hin1 & _ & _ & Hcells1) (t2 & Hin2 & _ & _ & Hcells2)].
  split; [exists t1|exists t2]; split; assumption.
Defined.

(** ** Failures while writing artifacts *)

(** The [try]/[except] around the bar chart catches everything: the call
    returns normally and adds either the saved figure or one error line. *)
Lemma bar_chart_run {sorter : SortValues} (E : env) (csv out : string)
  (tr : trace) :
  exists chart_events,
    DrawBarplot.create_percentage_stacked_bar_chart E csv out tr
    = (tr ++ chart_events, Ok tt)
    /\ ((exists e, chart_events = [Print (ErrBarChart e)])
        \/ exists chart,
             let chart_filename :=
               path_join out "percentage_stacked_bar_chart.pdf" in
             chart_events = [SaveFig chart_filename (BarFigure chart);
                             Print (InfoBarSaved chart_filename)]).
Proof.
  unfold DrawBarplot.create_percentage_stacked_bar_chart, try_except, bind,
    read_csv, lift.
  destruct (last_written tr csv) as [t|].
  - destruct (DrawBarplot.stacked_bar_chart _) as [chart|e].
    + destruct (savefig_fails E _).
      * unfold raise, emit. eexists. split; [reflexivity|]. left. eexists. reflexivity.
      * unfold emit. eexists. rewrite <- app_assoc. split; [reflexivity|].
        right. eexists. reflexivity.
    + unfold emit. eexists. split; [reflexivity|]. left. eexists. reflexivity.
  - unfold emit. eexists. split; [reflexivity|]. left. eexists. reflexivity.
Qed.

Lemma scan_then (root : string) (fs : option node) (log tr : trace)
  (all_data : AllGroupsData) :
  run (collect_raw_data root fs) = (log, Ok (Some all_data)) ->
  collect_raw_data root fs tr = (tr ++ log, Ok (Some all_data))
  /\ all_data <> [].
Proof.
  unfold run. intro H. split.
  - rewrite collect_raw_data_run in *.
    destruct fs as [[c|entries]|]; try discriminate.
    cbv zeta in *.
    destruct (fst (collect_groups root (filter (fun e => is_dir (snd e)) entries)));
      [discriminate|].
    simpl in H. injection H as <- <-. reflexivity.
  - exact (collect_raw_data_Some_nonempty _ _ _ _ _ H).
Qed.

(** C8, counterexample: the claim that a failing write of
    [timings_raw.csv] leaves the other
    report attempted fails: the exception leaves [generate_reports] and
    [main], and [percentage_summary.csv] is never opened. *)
Lemma raw_write_failure_counterexample :
  let E := {| makedirs_fails := fun _ => false;
              open_fails := fun p => String.eqb p "out/timings_raw.csv";
              savefig_fails := fun _ => false |} in
  let r1 := run (ProcessAndPlot.main E "target/criterion" (Some scenario_a) "out") in
  let r2 := run (DrawBarplot.main (sorter := stable_sort_values) E
                   "target/criterion" (Some scenario_a) "out") in
  snd r1 = Raise OSError
  /\ In (OpenWrite "out/timings_raw.csv") (fst r1)
  /\ ~ In (OpenWrite "out/percentage_summary.csv") (fst r1)
  /\ snd r2 = Raise OSError
  /\ ~ In (OpenWrite "out/percentage_summary.csv") (fst r2).
Proof.
  vm_compute. repeat split.
  - right. right. left. reflexivity.
  - intro H. repeat (destruct H as [H|H]; [discriminate H|]). exact H.
  - intro H. repeat (destruct H as [H|H]; [discriminate H|]). exact H.
Qed.

(** C8, amended: the report writer has no handler of its own.  When
    [timings_raw.csv] cannot be opened the run ends there with the
    exception: the summary is not opened and no chart is drawn.  When both
    reports can be written they are written before any chart is tried, so a
    failing chart never costs a report; the bar chart's failure is caught
    and reported and [main] returns normally, the pie chart's failure ends
    [main] with the exception. *)
Theorem artifact_failures {sorter : SortValues} (E : env) (root out : string)
  (fs : option node) (log : trace) (all_data : AllGroupsData) :
  let csv1 := path_join out "timings_raw.csv" in
  let csv2 := path_join out "percentage_summary.csv" in
  run (collect_raw_data root fs) = (log, Ok (Some all_data)) ->
  makedirs_fails E out = false ->
  (open_fails E csv1 = true ->
   run (ProcessAndPlot.main E root fs out)
   = (log ++ [MakeDirs out; OpenWrite csv1], Raise OSError)
   /\ run (DrawBarplot.main E root fs out)
      = (log ++ [MakeDirs out; OpenWrite csv1], Raise OSError))
  /\ (open_fails E csv1 = false -> open_fails E csv2 = false ->
      (exists chart_events r,
         run (ProcessAndPlot.main E root fs out)
         = (log ++ reports_events (raw_table ProcessAndPlot.raw_row all_data)
                     all_data out ++ chart_events, r)
         /\ (r = Ok tt \/ exists e, r = Raise e /\ chart_events = []))
      /\ (exists chart_events,
            run (DrawBarplot.main E root fs out)
            = (log ++ reports_events (raw_table DrawBarplot.raw_row all_data)
                        all_data out ++ chart_events, Ok tt))).
Proof.
  intros csv1 csv2 Hscan Hmk.
  destruct (scan_then root fs log [] all_data Hscan) as [Hscan' Hne].
  simpl in Hscan'.
  assert (Hgd : exists g d, all_data = g :: d)
    by (destruct all_data; [congruence|eauto]).
  destruct Hgd as (g & d & Hgd).
  unfold run.
  rewrite process_and_plot_main_run, draw_barplot_main_run, Hscan'.
  rewrite process_and_plot_reports_run, draw_barplot_reports_run.
  cbv zeta. rewrite Hmk. fold csv1 csv2.
  split.
  - intro Hfail. rewrite Hfail. rewrite Hgd. split; reflexivity.
  - intros Hok1 Hok2. rewrite Hok1, Hok2. rewrite Hgd. rewrite <- Hgd.
    split.
    + destruct (summary_for_chart all_data) as [|r s] eqn:Es.
      * exists [], (Ok tt). rewrite app_nil_r. split; [reflexivity|auto].
      * unfold ProcessAndPlot.create_summary_pie_chart. cbv zeta.
        destruct (ProcessAndPlot.pie_refuses _).
        { exists [], (Raise ValueError). rewrite app_nil_r.
          split; [reflexivity|eauto]. }
        destruct (savefig_fails E _).
        -- exists [], (Raise OSError). rewrite app_nil_r.
           split; [reflexivity|eauto].
        -- unfold bind, emit. eexists. exists (Ok tt).
           rewrite <- !app_assoc. split; [reflexivity|auto].
    + cbn [snd]. destruct (String.eqb csv1 "").
      * exists []. rewrite app_nil_r. reflexivity.
      * destruct (bar_chart_run E csv1 out
                    (log ++ reports_events
                       (raw_table DrawBarplot.raw_row all_data) all_data out))
          as (chart_events & Hrun & _).
        exists chart_events. rewrite Hrun, <- app_assoc. reflexivity.
Qed.

Lemma artifact_failures_witness :
  exists chart_events,
    run (DrawBarplot.main (sorter := stable_sort_values)
           {| makedirs_fails := fun _ => false;
              open_fails := fun _ => false;
              savefig_fails := fun _ => true |}
           "target/criterion" (Some scenario_a) "out")
    = ([Print (InfoGroupsFound 1)]
       ++ reports_events
            (raw_table DrawBarplot.raw_row [("a", [("x", 100); ("y", 300)])])
            [("a", [("x", 100); ("y", 300)])] "out"
       ++ chart_events, Ok tt).
Proof.
  exact (proj2 (proj2 (artifact_failures (sorter := stable_sort_values)
                         {| makedirs_fails := fun _ => false;
                            open_fails := fun _ => false;
                            savefig_fails := fun _ => true |}
                         "target/criterion" "out" (Some scenario_a)
                         [Print (InfoGroupsFound 1)]
                         [("a", [("x", 100); ("y", 300)])]
                         eq_refl eq_refl)
                  eq_refl eq_refl)).
Defined.

(** ** Column names *)

Lemma length_append (a b : string) :
  String.length (a ++ b)%string = (String.length a + String.length b)%nat.
Proof. induction a as [|c a IH]; simpl; [reflexivity|]. rewrite IH. reflexivity. Qed.

Lemma append_inj_r (a b s : string) : (a ++ s = b ++ s)%string -> a = b.
Proof.
  revert b. induction a as [|c a IH]; intros [|c' b] H; simpl in H.
  - reflexivity.
  - exfalso. apply (f_equal String.length) in H. simpl in H.
    rewrite length_append in H. lia.
  - exfalso. apply (f_equal String.length) in H. simpl in H.
    rewrite length_append in H. lia.
  - injection H as -> H. f_equal. exact (IH b H).
Qed.

Lemma ends_with_append (a s : string) : ends_with (a ++ s)%string s = true.
Proof.
  induction a as [|c a IH].
  - destruct s; cbn [ends_with append]; rewrite String.eqb_refl; reflexivity.
  - cbn [ends_with append]. rewrite IH. apply orb_true_r.
Qed.

Lemma stage_column_inj (s s' : string) :
  stage_column s = stage_column s' -> s = s'.
Proof. apply append_inj_r. Qed.

Lemma stage_column_total (s : string) :
  String.eqb "total_time_ns" (stage_column s) = String.eqb s "total".
Proof.
  destruct (String.eqb s "total") eqn:E.
  - apply String.eqb_eq in E. subst. reflexivity.
  - apply String.eqb_neq. apply String.eqb_neq in E. intro H. apply E.
    symmetry. apply stage_column_inj. exact H.
Qed.

Lemma stage_column_not (s other : string) :
  ends_with other "_time_ns" = false -> stage_column s <> other.
Proof.
  intros H E. rewrite <- E in H. unfold stage_column in H.
  rewrite ends_with_append in H. discriminate.
Qed.

Lemma is_stage_column_read (s : string) :
  DrawBarplot.is_stage_column (read_column s) = negb (String.eqb s "total").
Proof.
  unfold read_column, DrawBarplot.is_stage_column.
  destruct (String.eqb s "total") eqn:E; [reflexivity|].
  unfold stage_column at 1. rewrite ends_with_append.
  rewrite String.eqb_sym, stage_column_total, E. reflexivity.
Qed.

Lemma dedup_stage_columns (seen names : list string) :
  NoDup names ->
  (forall s, In s names ->
     count_occ string_dec seen (stage_column s)
     = if String.eqb s "total" then 1%nat else 0%nat) ->
  dedup_names_from seen (map stage_column names) = map read_column names.
Proof.
  intro Hnd. revert seen.
  induction Hnd as [|s names Hs Hnd IH]; intros seen Hseen; simpl.
  - reflexivity.
  - rewrite (Hseen s (or_introl eq_refl)). f_equal.
    + unfold read_column. destruct (String.eqb s "total") eqn:E; [|reflexivity].
      apply String.eqb_eq in E. subst. reflexivity.
    + apply IH. intros s' Hs'. cbn [count_occ].
      destruct (string_dec (stage_column s) (stage_column s')) as [E|_].
      * apply stage_column_inj in E. subst. contradiction.
      * apply Hseen. right. exact Hs'.
Qed.

(** The header of [timings_raw.csv] as [pd.read_csv] returns it. *)
Lemma dedup_raw_header (names : list string) :
  NoDup names ->
  dedup_names (raw_header names)
  = "pair" :: "total_time_ns" :: map read_column names.
Proof.
  intro Hnd. unfold dedup_names, raw_header. simpl. do 2 f_equal.
  apply (dedup_stage_columns _ names Hnd). intros s _. cbn [count_occ].
  destruct (string_dec "total_time_ns" (stage_column s)) as [E|E].
  - apply String.eqb_eq in E. rewrite stage_column_total in E. rewrite E.
    destruct (string_dec "pair" (stage_column s)) as [E'|_]; [|reflexivity].
    exfalso. symmetry in E'. revert E'. apply stage_column_not. reflexivity.
  - apply String.eqb_neq in E. rewrite stage_column_total in E. rewrite E.
    destruct (string_dec "pair" (stage_column s)) as [E'|_]; [|reflexivity].
    exfalso. symmetry in E'. revert E'. apply stage_column_not. reflexivity.
Qed.

(** ** Lists, positions and labels *)

Lemma map_result_map {A B C : Type} (f : B -> result C) (g : A -> B)
  (h : A -> C) (l : list A) :
  (forall x, In x l -> f (g x) = Ok (h x)) ->
  map_result f (map g l) = Ok (map h l).
Proof.
  induction l as [|x l IH]; simpl; intro H; [reflexivity|].
  rewrite (H x (or_introl eq_refl)), IH; [reflexivity|].
  intros y Hy. apply H. right. exact Hy.
Qed.

Lemma zip_with_map {A B C D : Type} (f : B -> C -> D) (a : A -> B)
  (b : A -> C) (l : list A) :
  zip_with f (map a l) (map b l) = map (fun x => f (a x) (b x)) l.
Proof. induction l as [|x l IH]; simpl; [reflexivity|]. rewrite IH. reflexivity. Qed.

Lemma nth_map_lt {A B : Type} (f : A -> B) (l : list A) (i : nat) (d : A) (d' : B) :
  (i < List.length l)%nat -> nth i (map f l) d' = f (nth i l d).
Proof.
  intro H. rewrite (nth_indep (map f l) d' (f d)) by (rewrite length_map; exact H).
  apply map_nth.
Qed.

Lemma map_nth_seq {A : Type} (l : list A) (d : A) :
  map (fun i => nth i l d) (seq 0 (List.length l)) = l.
Proof.
  apply (nth_ext _ _ d d).
  - rewrite length_map, length_seq. reflexivity.
  - intros i Hi. rewrite length_map, length_seq in Hi.
    rewrite (nth_map_lt (fun i => nth i l d) (seq 0 (List.length l)) i 0%nat d)
      by (rewrite length_seq; exact Hi).
    rewrite seq_nth by exact Hi. reflexivity.
Qed.

Lemma list_eqb_eq (l1 l2 : list string) : list_eqb l1 l2 = true <-> l1 = l2.
Proof.
  revert l2. induction l1 as [|x l1 IH]; intros [|y l2]; simpl;
    try (split; [discriminate|discriminate]); [tauto|].
  rewrite andb_true_iff, String.eqb_eq, IH. split.
  - intros [-> ->]. reflexivity.
  - intro H. injection H as -> ->. auto.
Qed.

Lemma index_of_In (s : string) (l : list string) :
  In s l -> exists i, index_of s l = Some i.
Proof.
  induction l as [|x l IH]; simpl; [contradiction|].
  intro H. destruct (String.eqb x s) eqn:E; [eauto|].
  apply String.eqb_neq in E. destruct H as [H|H]; [contradiction|].
  destruct (IH H) as [i ->]. simpl. eauto.
Qed.

Lemma index_of_nth_map {B : Type} (f : string -> B) (s : string)
  (l : list string) (i : nat) (d : B) :
  index_of s l = Some i -> nth i (map f l) d = f s.
Proof.
  revert i. induction l as [|x l IH]; simpl; intro i; [discriminate|].
  destruct (String.eqb x s) eqn:E.
  - apply String.eqb_eq in E. intro H. injection H as <-. subst. reflexivity.
  - destruct (index_of s l) as [j|]; simpl; [|discriminate].
    intro H. injection H as <-. apply IH. reflexivity.
Qed.

Lemma index_of_map_inj (f : string -> string) (s : string) (l : list string) :
  (forall x, f x = f s -> x = s) ->
  index_of (f s) (map f l) = index_of s l.
Proof.
  intro Hinj. induction l as [|x l IH]; simpl; [reflexivity|].
  rewrite IH.
  destruct (String.eqb x s) eqn:E.
  - apply String.eqb_eq in E. subst. rewrite String.eqb_refl. reflexivity.
  - apply String.eqb_neq in E.
    destruct (String.eqb (f x) (f s)) eqn:E'; [|reflexivity].
    apply String.eqb_eq in E'. apply Hinj in E'. contradiction.
Qed.

Lemma index_of_nth_NoDup (l : list string) (i : nat) :
  NoDup l -> (i < List.length l)%nat -> index_of (nth i l "") l = Some i.
Proof.
  intro Hnd. revert i. induction Hnd as [|x l Hx Hnd IH]; intros i Hi; simpl in *.
  - lia.
  - destruct i as [|i].
    + rewrite String.eqb_refl. reflexivity.
    + assert (Hin : In (nth i l "") l) by (apply nth_In; lia).
      destruct (String.eqb x (nth i l "")) eqn:E.
      * apply String.eqb_eq in E. subst x. contradiction.
      * rewrite IH by lia. reflexivity.
Qed.

Lemma filter_label_none {B : Type} (x : string) (labels : list string)
  (vals : list B) :
  ~ In x labels ->
  filter (fun r => String.eqb (fst r) x) (combine labels vals) = [].
Proof.
  revert vals. induction labels as [|y labels IH]; intros [|v vals] H; simpl;
    try reflexivity.
  destruct (String.eqb y x) eqn:E.
  - apply String.eqb_eq in E. subst. exfalso. apply H. left. reflexivity.
  - apply IH. intro Hin. apply H. right. exact Hin.
Qed.

Lemma loc_total_unique (labels : list string) (totals : list Q) (i : nat) :
  NoDup labels -> List.length totals = List.length labels ->
  (i < List.length labels)%nat ->
  loc_total labels totals (nth i labels "") = Ok (nth i totals 0).
Proof.
  unfold loc_total. intro Hnd. revert totals i.
  induction Hnd as [|x labels Hx Hnd IH]; intros [|t totals] i Hlen Hi;
    simpl in *; try lia.
  destruct i as [|i].
  - rewrite String.eqb_refl, filter_label_none by exact Hx. reflexivity.
  - assert (Hin : In (nth i labels "") labels) by (apply nth_In; lia).
    destruct (String.eqb x (nth i labels "")) eqn:E.
    + apply String.eqb_eq in E. subst x. contradiction.
    + apply IH; lia.
Qed.

(** Rows looked up by distinct labels come back in the requested order. *)
Lemma reindex_by_order {A : Type} (labels : list string) (order : list nat)
  (nan : A) (col : list A) :
  NoDup labels -> List.length col = List.length labels ->
  Permutation order (seq 0 (List.length labels)) ->
  reindex labels (map (fun i => nth i labels "") order) nan col
  = Ok (map (fun i => nth i col nan) order).
Proof.
  intros Hnd Hlen Hperm. unfold reindex.
  assert (Hlt : forall i, In i order -> (i < List.length labels)%nat).
  { intros i Hi. apply (Permutation_in _ Hperm) in Hi. apply in_seq in Hi. lia. }
  assert (Hlookup :
            map (fun label => match index_of label labels with
                              | Some i => nth i col nan
                              | None => nan
                              end) (map (fun i => nth i labels "") order)
            = map (fun i => nth i col nan) order).
  { rewrite map_map. apply map_ext_in. intros i Hi.
    rewrite index_of_nth_NoDup by auto. reflexivity. }
  destruct (list_eqb labels (map (fun i => nth i labels "") order)) eqn:E.
  - apply list_eqb_eq in E. f_equal.
    assert (Horder : order = seq 0 (List.length labels)).
    { assert (H : map (fun l => index_of l labels) labels
                  = map (fun l => index_of l labels)
                      (map (fun i => nth i labels "") order))
        by (rewrite <- E; reflexivity).
      rewrite map_map in H.
      rewrite (map_ext_in _ Some order) in H
        by (intros i Hi; apply index_of_nth_NoDup; auto).
      assert (H1 : map (fun l => index_of l labels) labels
                   = map Some (seq 0 (List.length labels))).
      { transitivity (map (fun l => index_of l labels)
                        (map (fun i => nth i labels "")
                           (seq 0 (List.length labels)))).
        - f_equal. symmetry. apply map_nth_seq.
        - rewrite map_map. apply map_ext_in. intros i Hi.
          apply in_seq in Hi. apply index_of_nth_NoDup; [exact Hnd|lia]. }
      rewrite H1 in H. clear - H. revert H. generalize (seq 0 (List.length labels)).
      induction order as [|i order IH]; intros [|j l] H; simpl in H;
        try discriminate; [reflexivity|].
      injection H as <- H. f_equal. apply IH. exact H. }
    rewrite Horder, <- Hlen. symmetry. apply map_nth_seq.
  - apply nodupb_NoDup in Hnd. rewrite Hnd. simpl. f_equal. exact Hlookup.
Qed.

(** ** The data frame of the raw timings *)

Lemma all_stage_names_NoDup (all_data : AllGroupsData) :
  NoDup (all_stage_names all_data).
Proof. apply strictly_sorted_NoDup. apply all_stage_names_strict. Qed.

Lemma read_column_inj (x s : string) : read_column x = read_column s -> x = s.
Proof.
  unfold read_column.
  destruct (String.eqb x "total") eqn:Ex, (String.eqb s "total") eqn:Es; intro H.
  - apply String.eqb_eq in Ex, Es. congruence.
  - exfalso. symmetry in H. revert H. apply stage_column_not. reflexivity.
  - exfalso. revert H. apply stage_column_not. reflexivity.
  - apply stage_column_inj. exact H.
Qed.

Lemma raw_frame_columns (all_data : AllGroupsData) :
  cf_columns (raw_frame all_data)
  = "pair" :: "total_time_ns" :: map read_column (all_stage_names all_data).
Proof.
  unfold raw_frame, raw_table. simpl header.
  apply dedup_raw_header. apply all_stage_names_NoDup.
Qed.

Lemma raw_frame_rows (all_data : AllGroupsData) :
  cf_rows (raw_frame all_data)
  = map (fun g => CStr (fst g) :: CNum (group_total g)
                  :: map (fun s => CNum (dict_get_default (snd g) s 0))
                       (all_stage_names all_data)) all_data.
Proof. reflexivity. Qed.

Lemma column_pair (all_data : AllGroupsData) :
  column (raw_frame all_data) "pair" = Ok (map (fun g => CStr (fst g)) all_data).
Proof.
  unfold column. rewrite raw_frame_columns, raw_frame_rows. simpl index_of.
  cbv beta iota. rewrite map_map. reflexivity.
Qed.

Lemma number_column_total (all_data : AllGroupsData) :
  number_column (raw_frame all_data) "total_time_ns"
  = Ok (map group_total all_data).
Proof.
  unfold number_column, column. rewrite raw_frame_columns, raw_frame_rows.
  simpl index_of. cbv beta iota. rewrite map_map. simpl nth.
  apply (map_result_map number_cell (fun g => CNum (group_total g))).
  reflexivity.
Qed.

Lemma number_column_stage (all_data : AllGroupsData) (s : string) :
  In s (charted_stages all_data) ->
  number_column (raw_frame all_data) (stage_column s)
  = Ok (map (fun g => dict_get_default (snd g) s 0) all_data).
Proof.
  unfold charted_stages. rewrite filter_In, negb_true_iff.
  intros [Hin Hnot].
  assert (Hread : read_column s = stage_column s)
    by (unfold read_column; rewrite Hnot; reflexivity).
  destruct (index_of_In s _ Hin) as [i Hi].
  unfold number_column, column. rewrite raw_frame_columns, raw_frame_rows.
  cbn [index_of].
  replace (String.eqb "pair" (stage_column s)) with false
    by (symmetry; apply String.eqb_neq; intro E; symmetry in E; revert E;
        apply stage_column_not; reflexivity).
  rewrite stage_column_total, Hnot, <- Hread.
  rewrite (index_of_map_inj read_column s _ (fun x => read_column_inj x s)), Hi.
  cbn [option_map]. rewrite map_map. cbn [nth].
  apply (map_result_map number_cell
           (fun g => nth i (map (fun s0 => CNum (dict_get_default (snd g) s0 0))
                              (all_stage_names all_data)) (CNum 0))).
  intros g _.
  rewrite (index_of_nth_map (fun s0 => CNum (dict_get_default (snd g) s0 0))
             s _ i (CNum 0) Hi).
  reflexivity.
Qed.

Lemma stage_columns_filter (names : list string) :
  filter DrawBarplot.is_stage_column
    (filter (fun col => negb (String.eqb col "pair")) (map read_column names))
  = map stage_column (filter (fun s => negb (String.eqb s "total")) names).
Proof.
  induction names as [|s names IH]; [reflexivity|].
  cbn [map filter].
  assert (Hpair : String.eqb (read_column s) "pair" = false).
  { apply String.eqb_neq. unfold read_column.
    destruct (String.eqb s "total"); [discriminate|].
    apply stage_column_not. reflexivity. }
  rewrite Hpair. cbn [negb filter]. rewrite is_stage_column_read.
  destruct (String.eqb s "total") eqn:E; cbn [negb map].
  - exact IH.
  - unfold read_column at 1. rewrite E. f_equal. exact IH.
Qed.

Lemma stage_columns_of_raw_frame (all_data : AllGroupsData) :
  filter DrawBarplot.is_stage_column
    (filter (fun col => negb (String.eqb col "pair"))
       (cf_columns (raw_frame all_data)))
  = map stage_column (charted_stages all_data).
Proof.
  rewrite raw_frame_columns. unfold charted_stages.
  rewrite <- stage_columns_filter. reflexivity.
Qed.

(** ** The chart computed from the raw timings *)

Lemma combine_map {A B C : Type} (f : A -> B) (g : A -> C) (l : list A) :
  combine (map f l) (map g l) = map (fun x => (f x, g x)) l.
Proof. induction l as [|x l IH]; simpl; [reflexivity|]. rewrite IH. reflexivity. Qed.

Section Chart.
Context {sorter : SortValues}.

Lemma bar_order_lt (all_data : AllGroupsData) (i : nat) :
  In i (argsort_desc (map group_total all_data)) ->
  (i < List.length all_data)%nat.
Proof.
  intro H. apply (Permutation_in _ (argsort_perm _)) in H.
  apply in_seq in H. rewrite length_map in H. lia.
Qed.

Lemma bars_map {B : Type} (f : string * GroupTimings -> B) (d' : B)
  (all_data : AllGroupsData) :
  map (fun i => nth i (map f all_data) d')
    (argsort_desc (map group_total all_data))
  = map f (bars all_data).
Proof.
  unfold bars. rewrite map_map. apply map_ext_in. intros i Hi.
  apply nth_map_lt. apply bar_order_lt. exact Hi.
Qed.

Lemma bars_perm (all_data : AllGroupsData) :
  Permutation (bars all_data) all_data.
Proof.
  unfold bars.
  rewrite (Permutation_map _ (argsort_perm (map group_total all_data))).
  rewrite length_map, map_nth_seq. reflexivity.
Qed.

Lemma bars_length (all_data : AllGroupsData) :
  List.length (bars all_data) = List.length all_data.
Proof. apply Permutation_length. apply bars_perm. Qed.

(** With distinct bar labels the chart is produced, and it is the
    expected one. *)
Lemma stacked_bar_chart_of_reports (all_data : AllGroupsData) :
  nodupb (map group_label all_data) = true ->
  DrawBarplot.stacked_bar_chart (raw_frame all_data)
  = Ok (expected_chart all_data).
Proof.
  intro Hlabels. apply nodupb_NoDup in Hlabels.
  unfold DrawBarplot.stacked_bar_chart.
  rewrite column_pair.
  rewrite (map_result_map DrawBarplot.translate_cell
             (fun g => CStr (fst g)) group_label) by reflexivity.
  rewrite stage_columns_of_raw_frame.
  rewrite (map_result_map (number_column (raw_frame all_data)) stage_column
             (fun s => map (fun g => dict_get_default (snd g) s 0) all_data))
    by (intros s Hs; apply number_column_stage; exact Hs).
  rewrite number_column_total. cbv zeta.
  rewrite map_map.
  rewrite (map_result_map
             (reindex (map group_label all_data)
                (map (fun i => nth i (map group_label all_data) "")
                   (argsort_desc (map group_total all_data))) None)
             (fun s => zip_with percent_of (map group_total all_data)
                         (map (fun g => dict_get_default (snd g) s 0) all_data))
             (fun s => map (fun g => bar_height g s) (bars all_data))).
  2:{ intros s _. rewrite zip_with_map.
      rewrite reindex_by_order.
      - rewrite bars_map. reflexivity.
      - exact Hlabels.
      - rewrite !length_map. reflexivity.
      - rewrite length_map.
        rewrite <- (length_map group_total all_data). apply argsort_perm. }
  rewrite (map_result_map
             (loc_total (map group_label all_data) (map group_total all_data))
             (fun i => nth i (map group_label all_data) "")
             (fun i => nth i (map group_total all_data) 0)).
  2:{ intros i Hi. apply loc_total_unique.
      - exact Hlabels.
      - rewrite !length_map. reflexivity.
      - rewrite length_map. apply bar_order_lt. exact Hi. }
  unfold expected_chart. f_equal. f_equal.
  - apply bars_map.
  - rewrite combine_map. f_equal.
    rewrite length_map.
    rewrite (Permutation_length (argsort_perm (map group_total all_data))).
    rewrite length_seq, length_map. reflexivity.
  - rewrite bars_map, map_map. reflexivity.
Qed.
End Chart.

(** ** When the chart is produced *)

Lemma map_result_Ok_inv {A B : Type} (f : A -> result B) (l : list A)
  (ys : list B) :
  map_result f l = Ok ys -> forall x, In x l -> exists y, f x = Ok y.
Proof.
  revert ys. induction l as [|a l IH]; simpl; intros ys H x Hx; [contradiction|].
  destruct (f a) as [b|e] eqn:Ea; [|discriminate].
  destruct (map_result f l) as [bs|e] eqn:El; [|discriminate].
  destruct Hx as [<-|Hx]; [eauto|]. exact (IH bs eq_refl x Hx).
Qed.

Lemma filter_combine_count {B : Type} (x : string) (labels : list string)
  (vals : list B) :
  List.length vals = List.length labels ->
  List.length (filter (fun r => String.eqb (fst r) x) (combine labels vals))
  = count_occ string_dec labels x.
Proof.
  revert vals. induction labels as [|y labels IH]; intros [|v vals] H;
    simpl in *; try lia.
  destruct (string_dec y x) as [->|Hne].
  - rewrite String.eqb_refl. simpl. rewrite IH by lia. reflexivity.
  - apply String.eqb_neq in Hne. rewrite Hne. apply IH. lia.
Qed.

Lemma loc_total_Ok_count (labels : list string) (totals : list Q)
  (x : string) (t : Q) :
  List.length totals = List.length labels ->
  loc_total labels totals x = Ok t -> count_occ string_dec labels x = 1%nat.
Proof.
  intros Hlen H. rewrite <- (filter_combine_count x labels totals Hlen).
  unfold loc_total in H.
  destruct (filter _ _) as [|r [|r' rest]]; try discriminate. reflexivity.
Qed.

Section ChartProduced.
Context {sorter : SortValues}.

(** Two groups with the same label leave no chart: either [reindex]
    refuses the duplicate labels or the annotation of the bars fails. *)
Lemma chart_needs_distinct_labels (all_data : AllGroupsData)
  (chart : bar_chart) :
  DrawBarplot.stacked_bar_chart (raw_frame all_data) = Ok chart ->
  nodupb (map group_label all_data) = true.
Proof.
  unfold DrawBarplot.stacked_bar_chart.
  rewrite column_pair.
  rewrite (map_result_map DrawBarplot.translate_cell
             (fun g => CStr (fst g)) group_label) by reflexivity.
  rewrite stage_columns_of_raw_frame.
  rewrite (map_result_map (number_column (raw_frame all_data)) stage_column
             (fun s => map (fun g => dict_get_default (snd g) s 0) all_data))
    by (intros s Hs; apply number_column_stage; exact Hs).
  rewrite number_column_total. cbv zeta.
  destruct (map_result (reindex _ _ _) _) as [cols|e]; [|discriminate].
  destruct (map_result (loc_total _ _) _) as [totals|e] eqn:Eloc;
    [|discriminate].
  intros _. apply nodupb_NoDup. apply NoDup_count_occ' with (decA := string_dec).
  intros x Hx.
  assert (Hin : In x (map (fun i => nth i (map group_label all_data) "")
                        (argsort_desc (map group_total all_data)))).
  { apply (Permutation_in x
             (Permutation_sym
                (Permutation_map (fun i => nth i (map group_label all_data) "")
                   (argsort_perm (map group_total all_data))))).
    rewrite length_map, <- (length_map group_label all_data), map_nth_seq.
    exact Hx. }
  destruct (map_result_Ok_inv _ _ _ Eloc x Hin) as [t Ht].
  apply (loc_total_Ok_count _ _ _ _ (eq_trans (length_map _ _)
                                        (eq_sym (length_map _ _))) Ht).
Qed.

Lemma chart_produced (all_data : AllGroupsData) (chart : bar_chart) :
  DrawBarplot.stacked_bar_chart (raw_frame all_data) = Ok chart ->
  chart = expected_chart all_data.
Proof.
  intro H. pose proof (chart_needs_distinct_labels _ _ H) as Hnd.
  rewrite (stacked_bar_chart_of_reports all_data Hnd) in H.
  injection H as <-. reflexivity.
Qed.
End ChartProduced.

(** ** Layers *)

Lemma draw_layers_columns (i : nat) (cols : list (string * list (option Q)))
  (bottom : list (option Q)) :
  map layer_column (DrawBarplot.draw_layers i cols bottom) = map fst cols
  /\ map layer_heights (DrawBarplot.draw_layers i cols bottom) = map snd cols.
Proof.
  revert i bottom. induction cols as [|[c h] cols IH]; intros i bottom; simpl.
  - split; reflexivity.
  - destruct (IH (S i) (zip_with add_opt bottom h)) as [-> ->].
    split; reflexivity.
Qed.

(** The style of a layer depends on its position only. *)
Lemma draw_layers_style (i : nat) (cols : list (string * list (option Q)))
  (bottom : list (option Q)) (k : nat) (layer : bar_layer) :
  nth_error (DrawBarplot.draw_layers i cols bottom) k = Some layer ->
  layer_color layer = (i + k)%nat
  /\ layer_hatch layer = nth ((i + k) mod 4) hatches "".
Proof.
  revert i bottom k. induction cols as [|[c h] cols IH]; intros i bottom k H.
  - destruct k; discriminate.
  - destruct k as [|k]; simpl in H.
    + injection H as <-. simpl. rewrite Nat.add_0_r. split; reflexivity.
    + apply IH in H. replace (i + S k)%nat with (S i + k)%nat by lia. exact H.
Qed.

(** ** The figure saved by [draw_barplot.py] *)

Lemma last_written_app (tr tr' : trace) (p : string) :
  last_written (tr ++ tr') p
  = match last_written tr' p with
    | Some t => Some t
    | None => last_written tr p
    end.
Proof.
  induction tr as [|e tr IH]; simpl.
  - destruct (last_written tr' p); reflexivity.
  - rewrite IH. destruct (last_written tr' p); reflexivity.
Qed.

Lemma last_written_reports (raw : table) (all_data : AllGroupsData)
  (out : string) (tr : trace) :
  last_written (tr ++ reports_events raw all_data out)
    (path_join out "timings_raw.csv") = Some raw.
Proof.
  rewrite last_written_app. unfold reports_events.
  pose proof (csv_paths_differ out) as Hne.
  set (csv1 := path_join out "timings_raw.csv") in *.
  set (csv2 := path_join out "percentage_summary.csv") in *.
  cbn [last_written].
  assert (E : String.eqb csv2 csv1 = false)
    by (apply String.eqb_neq; congruence).
  rewrite E, String.eqb_refl. reflexivity.
Qed.

Lemma prints_hold_no_figure (l : list event) (p : string) (f : figure) :
  forallb is_print l = true -> ~ In (SaveFig p f) l.
Proof.
  intros H Hin. rewrite forallb_forall in H. specialize (H _ Hin). discriminate.
Qed.

Lemma warnings_are_prints (l : list event) :
  forallb is_warning l = true -> forallb is_print l = true.
Proof.
  rewrite !forallb_forall. intros H e He. specialize (H e He).
  destruct e as [[]| | | |]; simpl in *; congruence.
Qed.

Lemma scan_prints (root : string) (fs : option node) :
  forallb is_print (fst (run (collect_raw_data root fs))) = true.
Proof.
  unfold run. rewrite collect_raw_data_run.
  destruct fs as [[c|entries]|]; try reflexivity.
  cbv zeta.
  pose proof (warnings_are_prints _
                (collect_groups_warnings root
                   (filter (fun e => is_dir (snd e)) entries))) as Hw.
  destruct (fst (collect_groups root _)); cbn [fst app];
    rewrite forallb_app, Hw; reflexivity.
Qed.

Section Inference.
Context {sorter : SortValues}.

Lemma infer_pair_raw_frame (all_data : AllGroupsData) :
  infer_pair (raw_frame all_data)
  = {| cf_columns := cf_columns (raw_frame all_data);
       cf_rows :=
         map (fun g =>
                (if pair_is_text (keys all_data) (fst g)
                 then CStr (fst g) else not_text)
                :: CNum (group_total g)
                :: map (fun s => CNum (dict_get_default (snd g) s 0))
                     (all_stage_names all_data)) all_data |}.
Proof.
  unfold infer_pair. rewrite raw_frame_columns, raw_frame_rows.
  cbn [index_of]. replace (String.eqb "pair" "pair") with true by reflexivity.
  rewrite !map_map. cbn [nth text_of firstn skipn app]. reflexivity.
Qed.

Lemma infer_pair_text (all_data : AllGroupsData) :
  pairs_are_text all_data = true ->
  infer_pair (raw_frame all_data) = raw_frame all_data.
Proof.
  intros H. rewrite infer_pair_raw_frame.
  unfold pairs_are_text in H. rewrite forallb_forall in H.
  transitivity {| cf_columns := cf_columns (raw_frame all_data);
                  cf_rows := cf_rows (raw_frame all_data) |};
    [|destruct (raw_frame all_data); reflexivity].
  f_equal. rewrite raw_frame_rows. apply map_ext_in. intros g Hg.
  rewrite (H (fst g)); [reflexivity|]. apply in_map. exact Hg.
Qed.

Lemma translate_not_text (names : list string) (l : list (string * GroupTimings)) :
  forallb (pair_is_text names) (keys l) = false ->
  map_result DrawBarplot.translate_cell
    (map (fun g => if pair_is_text names (fst g)
                   then CStr (fst g) else not_text) l)
  = Raise AttributeError.
Proof.
  induction l as [|g l IH]; [discriminate|].
  cbn [keys map forallb map_result].
  destruct (pair_is_text names (fst g)); cbn [andb DrawBarplot.translate_cell];
    [|reflexivity].
  intros H. fold (keys l) in H. rewrite (IH H). reflexivity.
Qed.

Lemma infer_pair_not_text (all_data : AllGroupsData) :
  pairs_are_text all_data = false ->
  DrawBarplot.stacked_bar_chart (infer_pair (raw_frame all_data))
  = Raise AttributeError.
Proof.
  intros H. rewrite infer_pair_raw_frame.
  unfold DrawBarplot.stacked_bar_chart, column.
  cbn [cf_columns cf_rows]. rewrite raw_frame_columns.
  cbn [index_of]. replace (String.eqb "pair" "pair") with true by reflexivity.
  rewrite map_map. cbn [nth].
  rewrite (translate_not_text (keys all_data) all_data H). reflexivity.
Qed.
End Inference.

Section SavedChart.
Context {sorter : SortValues}.

(** A bar chart found in the trace of [main] is the chart computed from
    the raw timings of the groups that the scan returned. *)
Lemma saved_chart_is_computed (E : env) (root out : string)
  (fs : option node) (p : string) (chart : bar_chart) :
  In (SaveFig p (BarFigure chart)) (fst (run (DrawBarplot.main E root fs out))) ->
  exists all_data,
    snd (run (collect_raw_data root fs)) = Ok (Some all_data)
    /\ DrawBarplot.stacked_bar_chart (raw_frame all_data) = Ok chart.
Proof.
  pose proof (scan_prints root fs) as Hprints.
  unfold run in *. rewrite draw_barplot_main_run.
  destruct (collect_raw_data root fs []) as [log [[d|]|e]] eqn:Escan;
    cbn [fst snd] in *.
  2,3: intro H; exfalso; exact (prints_hold_no_figure _ _ _ Hprints H).
  destruct d as [|g d].
  { intro H. exfalso. exact (prints_hold_no_figure _ _ _ Hprints H). }
  rewrite draw_barplot_reports_run. cbv zeta.
  set (all_data := g :: d) in *.
  set (csv1 := path_join out "timings_raw.csv").
  set (csv2 := path_join out "percentage_summary.csv").
  assert (Hno : forall l, (forall e, In e l -> is_print e = true
                                     \/ (forall p' f, e <> SaveFig p' f)) ->
                          ~ In (SaveFig p (BarFigure chart)) (log ++ l)).
  { intros l Hl Hin. apply in_app_or in Hin. destruct Hin as [Hin|Hin].
    - exact (prints_hold_no_figure _ _ _ Hprints Hin).
    - destruct (Hl _ Hin) as [H|H]; [discriminate|]. exact (H _ _ eq_refl). }
  destruct (makedirs_fails E out).
  { cbn [fst]. intro H. exfalso.
    exact (prints_hold_no_figure _ _ _ Hprints H). }
  destruct (open_fails E csv1).
  { cbn [fst]. intro H. exfalso. revert H. apply Hno.
    intros e [<-|[<-|[]]]; right; discriminate. }
  destruct (open_fails E csv2).
  { cbn [fst]. intro H. exfalso. revert H. apply Hno.
    intros e [<-|[<-|[<-|[<-|[<-|[]]]]]]; (left; reflexivity)
                                          || (right; discriminate). }
  cbn [snd].
  destruct (String.eqb csv1 "").
  { cbn [fst]. intro H. exfalso. revert H. apply Hno. unfold reports_events.
    intros e [<-|[<-|[<-|[<-|[<-|[<-|[<-|[]]]]]]]]; (left; reflexivity)
                                          || (right; discriminate). }
  unfold DrawBarplot.create_percentage_stacked_bar_chart, try_except, bind,
    read_csv, lift.
  unfold csv1 at 1. rewrite last_written_reports.
  change {| cf_columns := dedup_names (header (raw_table DrawBarplot.raw_row all_data));
            cf_rows := rows (raw_table DrawBarplot.raw_row all_data) |}
    with (raw_frame all_data).
  assert (Hreports : ~ In (SaveFig p (BarFigure chart))
                       (log ++ reports_events
                                 (raw_table DrawBarplot.raw_row all_data)
                                 all_data out)).
  { apply Hno. unfold reports_events.
    intros e [<-|[<-|[<-|[<-|[<-|[<-|[<-|[]]]]]]]]; (left; reflexivity)
                                          || (right; discriminate). }
  destruct (pairs_are_text all_data) eqn:Et.
  2:{ rewrite (infer_pair_not_text all_data Et). unfold emit. cbn [fst].
      intro H. apply in_app_or in H.
      destruct H as [H|[H|[]]]; [contradiction|discriminate]. }
  rewrite (infer_pair_text all_data Et).
  destruct (DrawBarplot.stacked_bar_chart (raw_frame all_data))
    as [c|e] eqn:Echart.
  - destruct (savefig_fails E _).
    + unfold raise, emit. cbn [fst]. intro H. apply in_app_or in H.
      destruct H as [H|[H|[]]]; [contradiction|discriminate].
    + unfold emit. cbn [fst]. intro H.
      apply in_app_or in H. destruct H as [H|[H|[]]]; [|discriminate].
      apply in_app_or in H. destruct H as [H|[H|[]]]; [contradiction|].
      injection H as _ <-. exists all_data. split; [reflexivity|exact Echart].
  - unfold emit. cbn [fst]. intro H. apply in_app_or in H.
    destruct H as [H|[H|[]]]; [contradiction|discriminate].
Qed.
End SavedChart.

Lemma raw_path_not_empty (out : string) :
  String.eqb (path_join out "timings_raw.csv") "" = false.
Proof.
  apply String.eqb_neq. intros H. apply (f_equal String.length) in H.
  unfold path_join in H.
  destruct (String.eqb out "" || ends_with_slash out);
    rewrite ?length_append in H; cbn in H; lia.
Qed.

Section BarplotEvents.
Context {sorter : SortValues}.

Lemma chart_step_events (E : env) (all_data : AllGroupsData) (out : string)
  (log : trace) :
  DrawBarplot.create_percentage_stacked_bar_chart E
    (path_join out "timings_raw.csv") out
    (log ++ reports_events (raw_table DrawBarplot.raw_row all_data) all_data out)
  = ((log ++ reports_events (raw_table DrawBarplot.raw_row all_data)
               all_data out)
     ++ bar_chart_events E all_data out, Ok tt).
Proof.
  unfold DrawBarplot.create_percentage_stacked_bar_chart, try_except, bind,
    read_csv, lift, bar_chart_events.
  rewrite last_written_reports.
  change {| cf_columns := dedup_names (header (raw_table DrawBarplot.raw_row all_data));
            cf_rows := rows (raw_table DrawBarplot.raw_row all_data) |}
    with (raw_frame all_data).
  destruct (pairs_are_text all_data) eqn:Et.
  - rewrite (infer_pair_text all_data Et).
    destruct (DrawBarplot.stacked_bar_chart (raw_frame all_data)) as [c|e].
    + destruct (savefig_fails E _).
      * reflexivity.
      * unfold emit. rewrite <- !app_assoc. reflexivity.
    + reflexivity.
  - rewrite (infer_pair_not_text all_data Et). reflexivity.
Qed.

Lemma draw_barplot_run_events (E : env) (root out : string)
  (fs : option node) (log : trace) (all_data : AllGroupsData) :
  run (collect_raw_data root fs) = (log, Ok (Some all_data)) ->
  makedirs_fails E out = false ->
  open_fails E (path_join out "timings_raw.csv") = false ->
  open_fails E (path_join out "percentage_summary.csv") = false ->
  run (DrawBarplot.main E root fs out)
  = (log ++ reports_events (raw_table DrawBarplot.raw_row all_data)
              all_data out ++ bar_chart_events E all_data out, Ok tt).
Proof.
  intros Hscan Hmk H1 H2.
  destruct (scan_then root fs log [] all_data Hscan) as [Hscan' Hne].
  simpl in Hscan'.
  assert (Hgd : exists g d, all_data = g :: d)
    by (destruct all_data; [congruence|eauto]).
  destruct Hgd as (g & d & Hgd).
  unfold run.
  rewrite draw_barplot_main_run, Hscan'.
  rewrite draw_barplot_reports_run.
  cbv zeta. rewrite Hmk, H1, H2.
  rewrite Hgd. rewrite <- Hgd. cbn [snd].
  rewrite raw_path_not_empty, chart_step_events, <- app_assoc. reflexivity.
Qed.
End BarplotEvents.

(** ** What a scan hands to the report writer *)

Lemma dict_set_wf {V : Type} (d : dict V) (k : string) (v : V) :
  wf_dict d = true -> wf_dict (dict_set d k v) = true.
Proof.
  unfold wf_dict. rewrite keys_dict_set.
  destruct (existsb (String.eqb k) (keys d)) eqn:E; auto.
  intros H. apply nodupb_NoDup. apply nodupb_NoDup in H.
  apply NoDup_app; auto.
  - constructor; [intros []|constructor].
  - intros a Ha [<-|[]].
    apply existsb_eqb_In in Ha. congruence.
Qed.

Lemma process_leaf_wf (st : dict Q) (w : walk_item) :
  wf_dict st = true -> wf_dict (fst (process_leaf st w)) = true.
Proof.
  intros H. unfold process_leaf.
  destruct (read_point_estimate w) as [j|e]; [|exact H].
  assert (Ht : wf_dict
                 (match dict_get st (basename (dirname (w_root w))) with
                  | Some _ => st
                  | None => dict_set st (basename (dirname (w_root w))) 0
                  end) = true).
  { destruct (dict_get st _); [exact H|apply dict_set_wf; exact H]. }
  destruct j; cbn [number_of too_large]; try exact H; try exact Ht;
    try (destruct (_ <=? _)%Z; [exact Ht|]);
    apply dict_set_wf; exact Ht.
Qed.

Lemma scan_step_wf (acc : dict Q * list event) (w : walk_item) :
  wf_dict (fst acc) = true -> wf_dict (fst (scan_step acc w)) = true.
Proof.
  intros H. unfold scan_step. destruct (leaf_condition w); [|exact H].
  pose proof (process_leaf_wf (fst acc) w H) as Hp.
  destruct (process_leaf (fst acc) w). exact Hp.
Qed.

Lemma scan_leaves_wf (ws : list walk_item) :
  wf_dict (fst (scan_leaves ws)) = true.
Proof.
  unfold scan_leaves.
  assert (G : forall acc, wf_dict (fst acc) = true ->
                          wf_dict (fst (fold_left scan_step ws acc)) = true).
  { induction ws as [|w ws IH]; intros acc H; simpl; [exact H|].
    apply IH, scan_step_wf, H. }
  apply G. reflexivity.
Qed.

(** The invariant of the loop over [group_dirs]. *)
Lemma collect_groups_invariant (root : string) (groups : list (string * node)) :
  let d := fst (collect_groups root groups) in
  wf_dict d = true
  /\ Forall (fun g => wf_dict (snd g) = true /\ snd g <> []) d
  /\ incl (keys d) (map fst groups).
Proof.
  unfold collect_groups.
  set (step := fun (acc : AllGroupsData * list event) (g : string * node) =>
                 let (stage_totals, out) :=
                   scan_group (path_join root (fst g)) (snd g) in
                 (match stage_totals with
                  | [] => fst acc
                  | _ => dict_set (fst acc) (fst g) stage_totals
                  end, snd acc ++ out)).
  assert (G : forall (seen : list string) acc,
             wf_dict (fst acc) = true
             /\ Forall (fun g => wf_dict (snd g) = true /\ snd g <> []) (fst acc)
             /\ incl (keys (fst acc)) seen ->
             let d := fst (fold_left step groups acc) in
             wf_dict d = true
             /\ Forall (fun g => wf_dict (snd g) = true /\ snd g <> []) d
             /\ incl (keys d) (seen ++ map fst groups)).
  { induction groups as [|g groups IH]; intros seen acc (Hw & Hf & Hi).
    - simpl. rewrite app_nil_r. auto.
    - cbn [fold_left map].
      replace (seen ++ fst g :: map fst groups)
        with ((seen ++ [fst g]) ++ map fst groups)
        by (rewrite <- app_assoc; reflexivity).
      apply IH. unfold step.
      pose proof (scan_leaves_wf (walk (path_join root (fst g)) (snd g))) as Hs.
      unfold scan_group.
      destruct (scan_leaves (walk (path_join root (fst g)) (snd g)))
        as [stage_totals out].
      cbn [fst snd] in *.
      destruct stage_totals as [|p rest].
      + split; [exact Hw|]. split; [exact Hf|].
        intros k Hk. apply in_or_app. left. apply Hi, Hk.
      + split; [apply dict_set_wf, Hw|]. split.
        * apply (dict_set_Forall
                   (fun s : GroupTimings => wf_dict s = true /\ s <> [])).
          -- exact Hf.
          -- split; [exact Hs|discriminate].
        * intros k Hk. apply keys_dict_set_In in Hk. apply in_or_app.
          destruct Hk as [->|Hk]; [right; left; reflexivity|left; apply Hi, Hk]. }
  cbv zeta.
  apply (G [] ([], [])). repeat split; [constructor|intros k []].
Qed.

Lemma wf_data_of_parts (d : AllGroupsData) :
  wf_dict d = true -> Forall (fun g => wf_dict (snd g) = true) d ->
  wf_data d = true.
Proof.
  intros H F. unfold wf_data. rewrite H. simpl.
  apply forallb_forall. intros g Hg.
  rewrite Forall_forall in F. apply F, Hg.
Qed.

Lemma scanned_data_wf (root : string) (fs : option node) (log : trace)
  (all_data : AllGroupsData) :
  run (collect_raw_data root fs) = (log, Ok (Some all_data)) ->
  wf_data all_data = true /\ Forall (fun g => snd g <> []) all_data.
Proof.
  unfold run. rewrite collect_raw_data_run.
  destruct fs as [[c|entries]|]; try discriminate.
  cbv zeta.
  pose proof (collect_groups_invariant root
                (filter (fun e => is_dir (snd e)) entries)) as (Hw & Hf & _).
  destruct (fst (collect_groups root (filter (fun e => is_dir (snd e)) entries)))
    as [|g d] eqn:E; [discriminate|].
  intros H. injection H as _ <-.
  split.
  - apply wf_data_of_parts; [exact Hw|].
    eapply Forall_impl; [|exact Hf]. intros a [Ha _]. exact Ha.
  - eapply Forall_impl; [|exact Hf]. intros a [_ Ha]. exact Ha.
Qed.

Lemma scanned_stage_names (root : string) (fs : option node) (log : trace)
  (all_data : AllGroupsData) :
  run (collect_raw_data root fs) = (log, Ok (Some all_data)) ->
  all_stage_names all_data <> [] /\ summary_for_chart all_data <> [].
Proof.
  intros Hscan.
  destruct (scanned_data_wf root fs log all_data Hscan) as [_ Hne].
  destruct (scan_then root fs log [] all_data Hscan) as [_ Hd].
  assert (Hn : all_stage_names all_data <> []).
  { destruct all_data as [|g d]; [congruence|].
    apply Forall_inv in Hne.
    destruct (snd g) as [|[k v] rest] eqn:Eg; [exfalso; apply Hne; exact Eg|].
    assert (Hin : In k (all_stage_names (g :: d))).
    { apply all_stage_names_In. exists g. split; [left; reflexivity|].
      rewrite Eg. left. reflexivity. }
    intros E. rewrite E in Hin. exact Hin. }
  split; [exact Hn|].
  intros E. apply Hn. rewrite <- summary_stats_names.
  unfold summary_for_chart in E. apply map_eq_nil in E. rewrite E. reflexivity.
Qed.

Lemma process_and_plot_run_events (E : env) (root out : string)
  (fs : option node) (log : trace) (all_data : AllGroupsData) :
  let chart_filename := path_join out "summary_pie_chart.pdf" in
  run (collect_raw_data root fs) = (log, Ok (Some all_data)) ->
  makedirs_fails E out = false ->
  open_fails E (path_join out "timings_raw.csv") = false ->
  open_fails E (path_join out "percentage_summary.csv") = false ->
  run (ProcessAndPlot.main E root fs out)
  = if ProcessAndPlot.pie_refuses
         (pie_sizes (ProcessAndPlot.summary_pie (summary_for_chart all_data)))
    then
      (log ++ reports_events (raw_table ProcessAndPlot.raw_row all_data)
                all_data out, Raise ValueError)
    else if savefig_fails E chart_filename then
      (log ++ reports_events (raw_table ProcessAndPlot.raw_row all_data)
                all_data out, Raise OSError)
    else
      (log ++ reports_events (raw_table ProcessAndPlot.raw_row all_data)
                all_data out
           ++ [SaveFig chart_filename
                 (PieFigure (ProcessAndPlot.summary_pie
                               (summary_for_chart all_data)));
               Print (InfoPieSaved chart_filename)], Ok tt).
Proof.
  intros chart_filename Hscan Hmk H1 H2.
  destruct (scanned_stage_names root fs log all_data Hscan) as [_ Hsum].
  destruct (scan_then root fs log [] all_data Hscan) as [Hscan' Hne].
  simpl in Hscan'.
  assert (Hgd : exists g d, all_data = g :: d)
    by (destruct all_data; [congruence|eauto]).
  destruct Hgd as (g & d & Hgd).
  unfold run.
  rewrite process_and_plot_main_run, Hscan'.
  rewrite process_and_plot_reports_run.
  cbv zeta. rewrite Hmk, H1, H2.
  rewrite Hgd. rewrite <- Hgd.
  destruct (summary_for_chart all_data) as [|r s] eqn:Es; [congruence|].
  unfold ProcessAndPlot.create_summary_pie_chart. cbv zeta.
  fold chart_filename. rewrite <- Es.
  destruct (ProcessAndPlot.pie_refuses _); [reflexivity|].
  destruct (savefig_fails E chart_filename); [reflexivity|].
  unfold bind, emit. rewrite <- !app_assoc. reflexivity.
Qed.



(** ** The order of the bars *)

Lemma StronglySorted_map_in {A B : Type} (R : A -> A -> Prop)
  (R' : B -> B -> Prop) (f : A -> B) (l : list A) :
  (forall x y, In x l -> In y l -> R x y -> R' (f x) (f y)) ->
  StronglySorted R l -> StronglySorted R' (map f l).
Proof.
  intros Hf H. induction H as [|x l Hl IH Hx]; simpl; constructor.
  - apply IH. intros a b Ha Hb. apply Hf; right; assumption.
  - rewrite Forall_forall in Hx |- *. intros y Hy.
    apply in_map_iff in Hy. destruct Hy as [z [<- Hz]].
    apply Hf; [left; reflexivity|right; exact Hz|exact (Hx z Hz)].
Qed.

Lemma bars_sorted {sorter : SortValues} (all_data : AllGroupsData) :
  StronglySorted (fun g1 g2 => group_total g2 <= group_total g1)
    (bars all_data).
Proof.
  unfold bars.
  apply (StronglySorted_map_in
           (fun i j => nth j (map group_total all_data) 0
                       <= nth i (map group_total all_data) 0)).
  - intros i j Hi Hj H.
    rewrite (nth_map_lt group_total all_data i ("", []) 0) in H
      by (apply bar_order_lt; exact Hi).
    rewrite (nth_map_lt group_total all_data j ("", []) 0) in H
      by (apply bar_order_lt; exact Hj).
    exact H.
  - apply argsort_sorted.
Qed.

(** ** A stage named [total] *)

(** C4, the code at the failing input: with the stages [total] and [x] of
    1 ns each, the header of
    [timings_raw.csv] holds [total_time_ns] twice; the chart has the single
    layer [x_time_ns] and the bar of the group is 50 high. *)
Lemma stage_named_total_breaks_stack :
  exists chart h,
    In (SaveFig "out/percentage_stacked_bar_chart.pdf" (BarFigure chart))
       (fst (run (DrawBarplot.main (sorter := stable_sort_values) no_failures
                    "target/criterion" (Some total_stage) "out")))
    /\ snd (run (collect_raw_data "target/criterion" (Some total_stage)))
       = Ok (Some [("apple2", [("total", 0 + 1); ("x", 0 + 1)])])
    /\ all_stage_names [("apple2", [("total", 0 + 1); ("x", 0 + 1)])]
       = ["total"; "x"]
    /\ map layer_column (bar_layers chart) = ["x_time_ns"]
    /\ stack_height (bar_layers chart) 0 = Some h
    /\ h == 50.
Proof.
  eexists. eexists. split; [|split; [|split; [|split; [|split]]]].
  - vm_compute. do 8 right. left. reflexivity.
  - vm_compute. reflexivity.
  - vm_compute. reflexivity.
  - vm_compute. reflexivity.
  - vm_compute. reflexivity.
  - vm_compute. reflexivity.
Qed.

(** ** The height of a whole bar *)

Lemma py_sum_indicator_out (k : string) (v : Q) (names : list string) :
  ~ In k names ->
  py_sum (map (fun s => if String.eqb k s then v else 0) names) == 0.
Proof.
  induction names as [|s names IH]; intro H.
  - reflexivity.
  - cbn [map]. rewrite py_sum_cons.
    destruct (String.eqb k s) eqn:E.
    + apply String.eqb_eq in E. exfalso. apply H. left. auto.
    + rewrite IH; [ring|]. intro Hin. apply H. right. exact Hin.
Qed.

Lemma py_sum_indicator_in (k : string) (v : Q) (names : list string) :
  NoDup names -> In k names ->
  py_sum (map (fun s => if String.eqb k s then v else 0) names) == v.
Proof.
  induction 1 as [|s names Hs Hnd IH]; intro Hin; [contradiction|].
  cbn [map]. rewrite py_sum_cons.
  destruct (String.eqb k s) eqn:E.
  - apply String.eqb_eq in E. subst s.
    rewrite py_sum_indicator_out by exact Hs. ring.
  - apply String.eqb_neq in E. destruct Hin as [Hin|Hin]; [congruence|].
    rewrite IH by exact Hin. ring.
Qed.

Lemma py_sum_lookup_cons (k : string) (v : Q) (rest : GroupTimings)
  (names : list string) :
  ~ In k (keys rest) ->
  py_sum (map (fun s => dict_get_default ((k, v) :: rest) s 0) names)
  == py_sum (map (fun s => if String.eqb k s then v else 0) names)
     + py_sum (map (fun s => dict_get_default rest s 0) names).
Proof.
  intro Hk. induction names as [|s names IH].
  - reflexivity.
  - cbn [map]. rewrite !py_sum_cons, IH.
    unfold dict_get_default at 1 3. cbn [dict_get].
    destruct (String.eqb k s) eqn:E.
    + apply String.eqb_eq in E. subst s.
      apply dict_get_None in Hk. rewrite Hk. ring.
    + ring.
Qed.

(** Summing the zero-filled lookups over all stage names gives the sum of
    the group's own values. *)
Lemma py_sum_lookup (names : list string) (stages : GroupTimings) :
  NoDup names -> wf_dict stages = true -> incl (keys stages) names ->
  py_sum (map (fun s => dict_get_default stages s 0) names)
  == py_sum (values stages).
Proof.
  intros Hnd Hwf. unfold wf_dict in Hwf. apply nodupb_NoDup in Hwf.
  induction stages as [|[k v] rest IH]; intro Hincl.
  - unfold dict_get_default. cbn [dict_get values map].
    clear. induction names as [|s names IHn]; [reflexivity|].
    cbn [map]. rewrite py_sum_cons, IHn. reflexivity.
  - cbn [keys map fst] in Hwf. inversion Hwf as [|? ? Hk Hrest]; subst.
    rewrite py_sum_lookup_cons by exact Hk.
    rewrite py_sum_indicator_in;
      [|exact Hnd|apply Hincl; left; reflexivity].
    rewrite IH; [|exact Hrest|intros x Hx; apply Hincl; right; exact Hx].
    cbn [values map snd]. rewrite py_sum_cons. reflexivity.
Qed.

Lemma py_sum_scale (f : string -> Q) (c : Q) (names : list string) :
  py_sum (map (fun s => f s / c * 100) names) == py_sum (map f names) / c * 100.
Proof.
  induction names as [|s names IH].
  - unfold py_sum. simpl. unfold Qdiv. ring.
  - cbn [map]. rewrite !py_sum_cons, IH. unfold Qdiv. ring.
Qed.

Lemma fold_add_opt_some (xs : list Q) (a : Q) :
  fold_left add_opt (map Some xs) (Some a) = Some (fold_left Qplus xs a).
Proof.
  revert a. induction xs as [|x xs IH]; intro a; simpl; [reflexivity|].
  apply IH.
Qed.

Lemma keys_in_all_stage_names (all_data : AllGroupsData)
  (g : string * GroupTimings) :
  In g all_data -> incl (keys (snd g)) (all_stage_names all_data).
Proof.
  intros Hg s Hs. apply all_stage_names_In. exists g. split; assumption.
Qed.

Lemma charted_stages_all (all_data : AllGroupsData) :
  ~ In "total" (all_stage_names all_data) ->
  charted_stages all_data = all_stage_names all_data.
Proof.
  unfold charted_stages. intro H.
  induction (all_stage_names all_data) as [|s names IH]; [reflexivity|].
  cbn [filter]. destruct (String.eqb s "total") eqn:E.
  - apply String.eqb_eq in E. exfalso. apply H. left. exact E.
  - cbn [negb]. f_equal. apply IH. intro Hin. apply H. right. exact Hin.
Qed.

(** Supporting C4: when no stage is named [total], the segments of every
    bar of a group with a non-zero total add up to 100. *)
Lemma stack_sums_to_100 {sorter : SortValues} (all_data : AllGroupsData)
  (chart : bar_chart) (j : nat) (g : string * GroupTimings) :
  wf_data all_data = true ->
  ~ In "total" (all_stage_names all_data) ->
  DrawBarplot.stacked_bar_chart (raw_frame all_data) = Ok chart ->
  nth_error (bars all_data) j = Some g ->
  ~ group_total g == 0 ->
  exists h, stack_height (bar_layers chart) j = Some h /\ h == 100.
Proof.
  intros Hwf Htotal Hchart Hj Hnz.
  apply chart_produced in Hchart. subst chart.
  assert (Hg : In g all_data).
  { apply (Permutation_in _ (bars_perm all_data)).
    exact (nth_error_In _ _ Hj). }
  unfold stack_height, expected_chart. cbn [bar_layers].
  rewrite <- (map_map layer_heights (fun h => nth j h None)).
  rewrite (proj2 (draw_layers_columns _ _ _)).
  rewrite charted_stages_all by exact Htotal.
  rewrite !map_map. cbn [snd].
  rewrite (map_ext _ (fun s => Some (dict_get_default (snd g) s 0
                                     / group_total g * 100))).
  2:{ intro s.
      rewrite (nth_map_lt (fun g' => bar_height g' s) (bars all_data) j g None)
        by (apply nth_error_Some; congruence).
      rewrite (nth_error_nth _ _ g Hj).
      unfold bar_height, percent_of.
      destruct (Qeq_bool (group_total g) 0) eqn:E; [|reflexivity].
      apply Qeq_bool_iff in E. contradiction. }
  rewrite <- (map_map (fun s => dict_get_default (snd g) s 0
                                / group_total g * 100) Some).
  rewrite fold_add_opt_some. eexists. split; [reflexivity|].
  fold (py_sum (map (fun s => dict_get_default (snd g) s 0 / group_total g * 100)
                  (all_stage_names all_data))).
  rewrite (py_sum_scale (fun s => dict_get_default (snd g) s 0)).
  rewrite py_sum_lookup.
  - fold (group_total g). field. exact Hnz.
  - apply all_stage_names_NoDup.
  - exact (wf_data_groups all_data g Hwf Hg).
  - apply keys_in_all_stage_names. exact Hg.
Qed.

(** Every layer starts, in every bar, where the layers before it end. *)
Lemma draw_layers_bottoms (i : nat) (cols : list (string * list (option Q)))
  (bottom : list (option Q)) (k : nat) (layer : bar_layer) :
  nth_error (DrawBarplot.draw_layers i cols bottom) k = Some layer ->
  layer_bottoms layer
  = fold_left (zip_with add_opt) (map snd (firstn k cols)) bottom.
Proof.
  revert i bottom k. induction cols as [|[c h] cols IH]; intros i bottom k H.
  - destruct k; discriminate.
  - destruct k as [|k]; simpl in H.
    + injection H as <-. reflexivity.
    + apply IH in H. exact H.
Qed.

(** ** The stage order and its consumers *)

Lemma draw_layers_pairs (i : nat) (cols : list (string * list (option Q)))
  (bottom : list (option Q)) :
  map (fun l => (layer_column l, layer_heights l))
    (DrawBarplot.draw_layers i cols bottom) = cols.
Proof.
  revert i bottom. induction cols as [|[c h] cols IH]; intros i bottom; simpl.
  - reflexivity.
  - rewrite IH. reflexivity.
Qed.





(** ** Labels that coincide *)

Lemma map_result_Raise_inv {A B : Type} (f : A -> result B) (l : list A)
  (e : exn) :
  map_result f l = Raise e -> exists x, In x l /\ f x = Raise e.
Proof.
  induction l as [|x l IH]; cbn [map_result]; [discriminate|].
  destruct (f x) as [y|e'] eqn:Ex.
  - destruct (map_result f l) as [ys|e'']; [discriminate|].
    intros H. injection H as <-. destruct (IH eq_refl) as (x' & Hin & Hx).
    exists x'. split; [right; exact Hin|exact Hx].
  - intros H. injection H as <-. exists x. split; [left; reflexivity|exact Ex].
Qed.

Lemma reindex_Raise {A : Type} (index target : list string) (nan : A)
  (col : list A) (e : exn) :
  reindex index target nan col = Raise e -> e = ValueError.
Proof.
  unfold reindex. destruct (list_eqb index target); [discriminate|].
  destruct (negb (nodupb index)); [|discriminate].
  intros H. injection H as <-. reflexivity.
Qed.

Lemma loc_total_Raise (labels : list string) (totals : list Q) (x : string)
  (e : exn) :
  List.length totals = List.length labels -> In x labels ->
  loc_total labels totals x = Raise e -> e = TypeError.
Proof.
  intros Hlen Hin. unfold loc_total.
  pose proof (filter_combine_count x labels totals Hlen) as Hc.
  destruct (filter (fun r => String.eqb (fst r) x) (combine labels totals))
    as [|r [|r' rest]].
  - exfalso. cbn in Hc. symmetry in Hc.
    apply (count_occ_not_In string_dec) in Hc. contradiction.
  - discriminate.
  - intros H. injection H as <-. reflexivity.
Qed.

Section CoincidingLabels.
Context {sorter : SortValues}.

Lemma coinciding_labels_raise (all_data : AllGroupsData) :
  nodupb (map group_label all_data) = false ->
  DrawBarplot.stacked_bar_chart (raw_frame all_data) = Raise TypeError
  \/ DrawBarplot.stacked_bar_chart (raw_frame all_data) = Raise ValueError.
Proof.
  intros Hdup.
  destruct (DrawBarplot.stacked_bar_chart (raw_frame all_data))
    as [chart|e] eqn:Echart.
  { apply chart_needs_distinct_labels in Echart. congruence. }
  revert Echart. unfold DrawBarplot.stacked_bar_chart.
  rewrite column_pair.
  rewrite (map_result_map DrawBarplot.translate_cell
             (fun g => CStr (fst g)) group_label) by reflexivity.
  rewrite stage_columns_of_raw_frame.
  rewrite (map_result_map (number_column (raw_frame all_data)) stage_column
             (fun s => map (fun g => dict_get_default (snd g) s 0) all_data))
    by (intros s Hs; apply number_column_stage; exact Hs).
  rewrite number_column_total. cbv zeta.
  destruct (map_result (reindex _ _ _) _) as [cols|e1] eqn:Ere.
  - destruct (map_result (loc_total _ _) _) as [totals|e2] eqn:Eloc;
      [discriminate|].
    intros H. injection H as <-.
    destruct (map_result_Raise_inv _ _ _ Eloc) as (x & Hx & Hr).
    left. f_equal.
    apply (loc_total_Raise (map group_label all_data)
             (map group_total all_data) x e2); [| |exact Hr].
    { rewrite !length_map. reflexivity. }
    apply (Permutation_in x
             (Permutation_map (fun i => nth i (map group_label all_data) "")
                (argsort_perm (map group_total all_data)))) in Hx.
    rewrite length_map, <- (length_map group_label all_data), map_nth_seq in Hx.
    exact Hx.
  - intros H. injection H as <-.
    destruct (map_result_Raise_inv _ _ _ Ere) as (x & _ & Hr).
    right. f_equal. exact (reindex_Raise _ _ _ _ _ Hr).
Qed.
End CoincidingLabels.

(** ** Stages a group does not have *)

Lemma nth_map_nth_error {A B : Type} (f : A -> B) (l : list A) (k : nat)
  (a : A) (d : B) :
  nth_error l k = Some a -> nth k (map f l) d = f a.
Proof.
  intros H. apply nth_error_nth. apply map_nth_error. exact H.
Qed.

(** C2, counterexample: in scenario B of the specification group [b] lacks
    stage [y], and no chart shows a segment for it: both group names
    translate to the empty label, and whatever the reader and the sort do,
    the run of [draw_barplot.py] ends with one error line and saves no
    figure. *)
Lemma scenario_b_chart_counterexample :
  run (collect_raw_data "target/criterion" (Some scenario_b))
  = ([Print (InfoGroupsFound 2)],
     Ok (Some [("a", [("x", 0 + 100); ("y", 0 + 100)]);
               ("b", [("x", 0 + 300)])]))
  /\ dict_get [("x", 0 + 300)] "y" = None
  /\ forall sorter : SortValues,
       exists e,
         run (DrawBarplot.main no_failures "target/criterion"
                (Some scenario_b) "out")
         = ([Print (InfoGroupsFound 2)]
            ++ reports_events
                 (raw_table DrawBarplot.raw_row
                    [("a", [("x", 0 + 100); ("y", 0 + 100)]);
                     ("b", [("x", 0 + 300)])])
                 [("a", [("x", 0 + 100); ("y", 0 + 100)]);
                  ("b", [("x", 0 + 300)])] "out"
            ++ [Print (ErrBarChart e)], Ok tt).
Proof.
  split; [vm_compute; reflexivity|]. split; [reflexivity|].
  intros sorter.
  rewrite (draw_barplot_run_events no_failures "target/criterion" "out"
             (Some scenario_b) [Print (InfoGroupsFound 2)]
             [("a", [("x", 0 + 100); ("y", 0 + 100)]); ("b", [("x", 0 + 300)])]
             eq_refl eq_refl eq_refl eq_refl).
  unfold bar_chart_events.
  destruct (pairs_are_text _); [|exists AttributeError; reflexivity].
  destruct (coinciding_labels_raise
              [("a", [("x", 0 + 100); ("y", 0 + 100)]); ("b", [("x", 0 + 300)])]
              eq_refl) as [-> | ->]; eexists; reflexivity.
Qed.

(** C2, amended: the percentage list of a stage has one entry,
    100 * value / total, for each group in scan order that holds the stage
    and has a positive total; a group without the stage adds nothing to the
    list.  Its row in the [timings_raw.csv] of either script holds 0 in the
    stage's column.  When [draw_barplot.py] saves a chart, the stage has a
    layer (every stage but one named [total]) and the total of the group is
    not 0, the bar of the group has a segment of height 0 in the stage's
    layer. *)
Theorem missing_stage_asymmetry {sorter : SortValues} (E : env)
  (root out : string) (fs : option node) (log : trace)
  (all_data : AllGroupsData) (s : string) :
  let names := all_stage_names all_data in
  let csv1 := path_join out "timings_raw.csv" in
  run (collect_raw_data root fs) = (log, Ok (Some all_data)) ->
  makedirs_fails E out = false ->
  open_fails E csv1 = false ->
  dict_get_default (stage_percentages all_data) s []
  = flat_map
      (fun g =>
         if Qlt_bool 0 (py_sum (values (snd g))) then
           match dict_get (snd g) s with
           | Some stage_time => [stage_time / py_sum (values (snd g)) * 100]
           | None => []
           end
         else [])
      all_data
  /\ exists raw1 raw2,
       In (Written csv1 raw1)
          (fst (run (ProcessAndPlot.generate_reports E all_data out)))
       /\ In (Written csv1 raw2)
            (fst (run (DrawBarplot.generate_reports E all_data out)))
       /\ forall k g,
            nth_error all_data k = Some g -> dict_get (snd g) s = None ->
            (forall i,
               index_of s names = Some i ->
               nth (2 + i) (nth k (rows raw2) []) (CStr "") = CNum 0
               /\ exists q,
                    nth (2 + i) (nth k (rows raw1) []) (CStr "") = CNum q
                    /\ q == 0)
            /\ (forall p chart,
                  In (SaveFig p (BarFigure chart))
                     (fst (run (DrawBarplot.main E root fs out))) ->
                  In s (charted_stages all_data) ->
                  ~ group_total g == 0 ->
                  exists layer j h,
                    In layer (bar_layers chart)
                    /\ layer_column layer = stage_column s
                    /\ nth_error (bar_labels chart) j = Some (group_label g)
                    /\ nth_error (layer_heights layer) j = Some (Some h)
                    /\ h == 0).
Proof.
  intros names csv1 Hscan Hmk H1.
  destruct (scanned_data_wf root fs log all_data Hscan) as [Hwf _].
  split.
  { unfold dict_get_default. rewrite (stage_percentages_get all_data s Hwf).
    change (flat_map _ all_data) with (contributions s all_data).
    destruct (contributions s all_data); reflexivity. }
  exists (raw_table ProcessAndPlot.raw_row all_data),
    (raw_table DrawBarplot.raw_row all_data).
  split; [|split].
  { unfold run. rewrite process_and_plot_reports_run. cbv zeta.
    fold csv1. rewrite Hmk, H1.
    destruct (open_fails E (path_join out "percentage_summary.csv"));
      cbn [fst app reports_events]; right; right; left; reflexivity. }
  { unfold run. rewrite draw_barplot_reports_run. cbv zeta.
    fold csv1. rewrite Hmk, H1.
    destruct (open_fails E (path_join out "percentage_summary.csv"));
      cbn [fst app reports_events]; right; right; left; reflexivity. }
  intros k g Hk Hnone. split.
  - intros i Hi. unfold raw_table. cbn [rows].
    rewrite (nth_map_nth_error _ _ _ _ _ Hk), (nth_map_nth_error _ _ _ _ _ Hk).
    unfold DrawBarplot.raw_row, ProcessAndPlot.raw_row.
    cbn [app nth Nat.add].
    rewrite (index_of_nth_map
               (fun s0 => CNum (dict_get_default (snd g) s0 0)) s _ i _ Hi).
    rewrite (index_of_nth_map
               (fun s0 => CNum (py_round2 (dict_get_default (snd g) s0 0)))
               s _ i _ Hi).
    unfold dict_get_default. rewrite Hnone. split; [reflexivity|].
    eexists. split; reflexivity.
  - intros p chart Hsaved Hs Hnz.
    apply saved_chart_is_computed in Hsaved.
    destruct Hsaved as (all_data' & Hscan' & Hchart).
    rewrite Hscan in Hscan'. cbn [snd] in Hscan'.
    injection Hscan' as <-.
    apply chart_produced in Hchart. subst chart.
    unfold expected_chart. cbn [bar_layers bar_labels].
    set (cols := map (fun s0 => (stage_column s0,
                                 map (fun g' => bar_height g' s0)
                                   (bars all_data)))
                   (charted_stages all_data)).
    assert (Hcol : In (stage_column s,
                       map (fun g' => bar_height g' s) (bars all_data)) cols).
    { unfold cols. apply in_map_iff. exists s. split; [reflexivity|exact Hs]. }
    rewrite <- (draw_layers_pairs 0 cols
                  (repeat (Some 0) (List.length all_data))) in Hcol.
    apply in_map_iff in Hcol. destruct Hcol as [layer [Heq Hin]].
    injection Heq as Hc Hh.
    assert (Hg : In g (bars all_data)).
    { apply (Permutation_in _ (Permutation_sym (bars_perm all_data))).
      exact (nth_error_In _ _ Hk). }
    apply In_nth_error in Hg. destruct Hg as [j Hj].
    exists layer, j, (0 / group_total g * 100).
    split; [exact Hin|]. split; [exact Hc|].
    split; [apply map_nth_error; exact Hj|].
    split.
    + rewrite Hh. rewrite (map_nth_error _ _ _ Hj). f_equal.
      unfold bar_height, percent_of, dict_get_default. rewrite Hnone.
      destruct (Qeq_bool (group_total g) 0) eqn:Eq0; [|reflexivity].
      apply Qeq_bool_iff in Eq0. contradiction.
    + unfold Qdiv. ring.
Qed.

Lemma missing_stage_asymmetry_witness :
  dict_get_default
    (stage_percentages
       [("apple2", [("y", 0 + 1); ("x", 0 + 3)]); ("lemon", [("x", 0 + 2)])])
    "y" []
  = [(0 + 1) / (0 + (0 + 1) + (0 + 3)) * 100]
  /\ exists chart layer j h,
       In (SaveFig "out/percentage_stacked_bar_chart.pdf" (BarFigure chart))
          (fst (run (DrawBarplot.main (sorter := stable_sort_values) no_failures
                       "target/criterion" (Some two_fruits) "out")))
       /\ In layer (bar_layers chart)
       /\ layer_column layer = "y_time_ns"
       /\ nth_error (bar_labels chart) j
          = Some (group_label ("lemon", [("x", 0 + 2)]))
       /\ nth_error (layer_heights layer) j = Some (Some h)
       /\ h == 0.
Proof.
  destruct (missing_stage_asymmetry (sorter := stable_sort_values) no_failures
              "target/criterion" "out" (Some two_fruits)
              [Print (InfoGroupsFound 2)]
              [("apple2", [("y", 0 + 1); ("x", 0 + 3)]);
               ("lemon", [("x", 0 + 2)])]
              "y" eq_refl eq_refl eq_refl)
    as (Hlist & raw1 & raw2 & _ & _ & Hmissing).
  split; [rewrite Hlist; reflexivity|].
  set (chart := expected_chart (sorter := stable_sort_values)
                  [("apple2", [("y", 0 + 1); ("x", 0 + 3)]);
                   ("lemon", [("x", 0 + 2)])]).
  assert (Hsaved : In (SaveFig "out/percentage_stacked_bar_chart.pdf"
                         (BarFigure chart))
                     (fst (run (DrawBarplot.main (sorter := stable_sort_values)
                                  no_failures "target/criterion"
                                  (Some two_fruits) "out")))).
  { vm_compute. do 8 right. left. reflexivity. }
  destruct (proj2 (Hmissing 1%nat ("lemon", [("x", 0 + 2)]) eq_refl eq_refl)
              _ chart Hsaved)
    as (layer & j & h & H).
  - vm_compute. right. left. reflexivity.
  - vm_compute. discriminate.
  - exists chart, layer, j, h. split; [exact Hsaved|exact H].
Defined.

(** ** The scenarios of the specification, run on the model *)

(** Scenario A: one group [a] with [x = 100] and [y = 300]. *)
Example scenario_a_reports :
  snd (run (collect_raw_data "target/criterion" (Some scenario_a)))
  = Ok (Some [("a", [("x", 0 + 100); ("y", 0 + 300)])])
  /\ rows (raw_table DrawBarplot.raw_row [("a", [("x", 100); ("y", 300)])])
     = [[CStr "a"; CNum (0 + 100 + 300); CNum 100; CNum 300]]
  /\ rows (summary_table [("a", [("x", 100); ("y", 300)])])
     = [[CStr "x"; CFix2 2500; CFix2 2500; CFix2 2500];
        [CStr "y"; CFix2 7500; CFix2 7500; CFix2 7500]].
Proof. repeat split; vm_compute; reflexivity. Qed.

(** Scenario B: [a] has [x] and [y], [b] has [x] only. *)
Example scenario_b_summary :
  rows (summary_table [("a", [("x", 100); ("y", 100)]); ("b", [("x", 300)])])
  = [[CStr "x"; CFix2 5000; CFix2 10000; CFix2 7500];
     [CStr "y"; CFix2 5000; CFix2 5000; CFix2 5000]].
Proof. vm_compute. reflexivity. Qed.

(** With the group names [a] and [b] of scenario B both bar labels are
    empty after the translation of the fruit names, and
    [draw_barplot.py] reports an error instead of saving a chart; the two
    reports are written all the same. *)
Example scenario_b_no_chart :
  let r := run (DrawBarplot.main (sorter := stable_sort_values) no_failures
                  "target/criterion" (Some scenario_b) "out") in
  snd r = Ok tt
  /\ last (fst r) (Print ErrNoValidData) = Print (ErrBarChart TypeError)
  /\ existsb (fun e => match e with SaveFig _ _ => true | _ => false end)
       (fst r) = false.
Proof. repeat split; vm_compute; reflexivity. Qed.

(** A group whose only estimate is 0: the reports are written, all
    averages are 0, and [process_and_plot.py] ends with the [ValueError] of
    the pie chart, saving nothing. *)
Example zero_estimate_stops_pie :
  let r := run (ProcessAndPlot.main no_failures "target/criterion"
                  (Some (Dir [("a", Dir [("x", stage_dir (estimates 0))])]))
                  "out") in
  snd r = Raise ValueError
  /\ existsb (fun e => match e with
                       | Written "out/percentage_summary.csv" _ => true
                       | _ => false
                       end) (fst r) = true
  /\ existsb (fun e => match e with SaveFig _ _ => true | _ => false end)
       (fst r) = false.
Proof. repeat split; vm_compute; reflexivity. Qed.

(** Scenario D: one malformed statistics file among valid data. *)
Example scenario_d_scan :
  run (collect_raw_data "target/criterion" (Some scenario_d))
  = ([Print (WarnLeaf "target/criterion/a/y/base" JSONDecodeError);
      Print (InfoGroupsFound 2)],
     Ok (Some [("a", [("x", 0 + 100)]); ("b", [("x", 0 + 300)])])).
Proof. vm_compute. reflexivity. Qed.

(** * Further properties of the code *)

(** ** The scanner: what a scan returns *)

(** X1: when [collect_raw_data] returns data, the data is not empty, no
    group name and no stage name of a group occurs twice, every group holds
    at least one stage, and the root is a directory whose entries include a
    directory for every group name. *)
Theorem scan_returns_well_formed_data (root : string) (fs : option node)
  (log : trace) (all_data : AllGroupsData) :
  run (collect_raw_data root fs) = (log, Ok (Some all_data)) ->
  all_data <> []
  /\ wf_data all_data = true
  /\ Forall (fun g => snd g <> []) all_data
  /\ exists entries,
       fs = Some (Dir entries)
       /\ incl (keys all_data)
            (map fst (filter (fun e => is_dir (snd e)) entries)).
Proof.
  intros E.
  destruct (scanned_data_wf root fs log all_data E) as [Hw Hn].
  split.
  { eapply collect_raw_data_Some_nonempty. exact E. }
  split; [exact Hw|]. split; [exact Hn|].
  unfold run in E. rewrite collect_raw_data_run in E.
  destruct fs as [[c|entries]|]; try discriminate.
  cbv zeta in E. exists entries. split; [reflexivity|].
  pose proof (collect_groups_invariant root
                (filter (fun e => is_dir (snd e)) entries)) as (_ & _ & Hi).
  destruct (fst (collect_groups root (filter (fun e => is_dir (snd e)) entries)))
    as [|g d] eqn:E'; [discriminate|].
  injection E as _ <-. exact Hi.
Qed.

Lemma scan_returns_well_formed_data_witness :
  [("a", [("x", 0 + 100); ("y", 0 + 300)])] <> []
  /\ wf_data [("a", [("x", 0 + 100); ("y", 0 + 300)])] = true
  /\ Forall (fun g : string * GroupTimings => snd g <> [])
       [("a", [("x", 0 + 100); ("y", 0 + 300)])]
  /\ exists entries,
       Some scenario_a = Some (Dir entries)
       /\ incl (keys [("a", [("x", 0 + 100); ("y", 0 + 300)])])
            (map fst (filter (fun e => is_dir (snd e)) entries)).
Proof.
  exact (scan_returns_well_formed_data "target/criterion" (Some scenario_a)
           [Print (InfoGroupsFound 1)]
           [("a", [("x", 0 + 100); ("y", 0 + 300)])] eq_refl).
Defined.

(** ** The scanner: how the leaves of a group add up *)

Lemma dict_get_default_set_same {V : Type} (d : dict V) (k : string) (v dflt : V) :
  dict_get_default (dict_set d k v) k dflt = v.
Proof. unfold dict_get_default. rewrite dict_get_set_same. reflexivity. Qed.

Lemma dict_get_default_set_other {V : Type} (d : dict V) (k k' : string)
  (v dflt : V) :
  k <> k' -> dict_get_default (dict_set d k v) k' dflt = dict_get_default d k' dflt.
Proof.
  intros H. unfold dict_get_default. rewrite dict_get_set_other by exact H.
  reflexivity.
Qed.

Lemma touched_get_default (st : dict Q) (k s : string) :
  dict_get_default
    (match dict_get st k with
     | Some _ => st
     | None => dict_set st k 0
     end) s 0
  = dict_get_default st s 0.
Proof.
  destruct (dict_get st k) eqn:E; [reflexivity|].
  destruct (string_dec k s) as [->|N].
  - rewrite dict_get_default_set_same. unfold dict_get_default. rewrite E.
    reflexivity.
  - apply dict_get_default_set_other, N.
Qed.

Lemma process_leaf_total (st : dict Q) (w : walk_item) (s : string) :
  dict_get_default (fst (process_leaf st w)) s 0
  == dict_get_default st s 0
     + (if String.eqb (basename (dirname (w_root w))) s then
          match read_point_estimate w with
          | Ok point_estimate =>
              match number_of point_estimate with
              | Some q => if too_large point_estimate then 0 else q
              | None => 0
              end
          | Raise _ => 0
          end
        else 0).
Proof.
  unfold process_leaf.
  set (parent := basename (dirname (w_root w))).
  assert (Z0 : forall x : Q, x == x + (if String.eqb parent s then 0 else 0)).
  { intros x. destruct (String.eqb parent s); ring. }
  assert (Hnum : forall q,
             dict_get_default
               (dict_set
                  (match dict_get st parent with
                   | Some _ => st
                   | None => dict_set st parent 0
                   end) parent (dict_get_default st parent 0 + q)) s 0
             == dict_get_default st s 0
                + (if String.eqb parent s then q else 0)).
  { intros q. destruct (String.eqb parent s) eqn:E.
    - apply String.eqb_eq in E. subst s.
      rewrite dict_get_default_set_same. reflexivity.
    - apply String.eqb_neq in E.
      rewrite dict_get_default_set_other by exact E.
      rewrite touched_get_default. ring. }
  destruct (read_point_estimate w) as [j|e]; cbn [fst].
  - destruct j; cbn [number_of too_large fst];
      try (rewrite touched_get_default; apply Z0);
      try apply Z0; try apply Hnum.
    destruct (_ <=? _)%Z; cbn [fst];
      [rewrite touched_get_default; apply Z0|apply Hnum].
  - apply Z0.
Qed.

Lemma scan_step_total (acc : dict Q * list event) (w : walk_item) (s : string) :
  dict_get_default (fst (scan_step acc w)) s 0
  == dict_get_default (fst acc) s 0 + leaf_estimate s w.
Proof.
  unfold scan_step, leaf_estimate.
  destruct (leaf_condition w); cbn [andb].
  - pose proof (process_leaf_total (fst acc) w s) as H.
    destruct (process_leaf (fst acc) w) as [st' out]. exact H.
  - ring.
Qed.

Lemma scan_fold_total (ws : list walk_item) (acc : dict Q * list event)
  (s : string) :
  dict_get_default (fst (fold_left scan_step ws acc)) s 0
  == dict_get_default (fst acc) s 0 + py_sum (map (leaf_estimate s) ws).
Proof.
  revert acc. induction ws as [|w ws IH]; intros acc.
  - cbn. unfold py_sum. cbn. ring.
  - cbn [fold_left map]. rewrite IH, scan_step_total, py_sum_cons. ring.
Qed.

(** X2: after the scan of a group, the total recorded for a stage is the sum
    of the numeric point estimates of the leaves whose parent directory has
    the name of the stage, an integer counting as the float nearest to it; a
    leaf that fails, holds no estimate, or holds one that cannot be added
    (not a number, or an integer beyond the floats) adds nothing, and a
    stage with no leaf reads as 0. *)
Theorem stage_total_is_sum_of_leaves (ws : list walk_item) (s : string) :
  dict_get_default (fst (scan_leaves ws)) s 0
  == py_sum (map (leaf_estimate s) ws).
Proof.
  unfold scan_leaves. rewrite scan_fold_total. cbn. ring.
Qed.

Lemma process_leaf_registers (st : dict Q) (w : walk_item) (j : json) :
  read_point_estimate w = Ok j -> j <> JNull ->
  In (basename (dirname (w_root w))) (keys (fst (process_leaf st w)))
  /\ (number_of j = None ->
      snd (process_leaf st w) = [Print (WarnLeaf (w_root w) TypeError)]).
Proof.
  intros Hr Hj. unfold process_leaf. rewrite Hr.
  set (parent := basename (dirname (w_root w))).
  assert (Ht : In parent (keys (match dict_get st parent with
                                | Some _ => st
                                | None => dict_set st parent 0
                                end))).
  { destruct (dict_get st parent) eqn:E.
    - destruct (in_dec string_dec parent (keys st)) as [i|n]; [exact i|].
      apply dict_get_None in n. congruence.
    - apply keys_dict_set_In. auto. }
  destruct j; try congruence; cbn [number_of too_large fst snd];
    try (destruct (_ <=? _)%Z);
    (split; [try exact Ht; apply keys_dict_set_In; auto|
             intros H; try discriminate H; reflexivity]).
Qed.

(** X3: a leaf whose [point_estimate] is present but is not a number (a
    string, a list, an object) is reported with a [TypeError] warning, yet
    its stage is registered in the totals of the group: the [defaultdict]
    stores 0.0 under the key before the addition fails.  The total of the
    stage is what it is without the leaf. *)
Theorem mistyped_estimate_registers_stage (ws1 ws2 : list walk_item)
  (w : walk_item) (point_estimate : json) :
  leaf_condition w = true ->
  read_point_estimate w = Ok point_estimate ->
  point_estimate <> JNull ->
  number_of point_estimate = None ->
  let stage := basename (dirname (w_root w)) in
  In stage (keys (fst (scan_leaves (ws1 ++ w :: ws2))))
  /\ In (Print (WarnLeaf (w_root w) TypeError))
       (snd (scan_leaves (ws1 ++ w :: ws2)))
  /\ dict_get_default (fst (scan_leaves (ws1 ++ w :: ws2))) stage 0
     == dict_get_default (fst (scan_leaves (ws1 ++ ws2))) stage 0.
Proof.
  intros Hl Hr Hj Hn stage.
  destruct (process_leaf_registers (fst (scan_leaves ws1)) w point_estimate Hr Hj)
    as [Hk Hw]. specialize (Hw Hn).
  assert (Hstep : scan_step (scan_leaves ws1) w
                  = (fst (process_leaf (fst (scan_leaves ws1)) w),
                     snd (scan_leaves ws1)
                     ++ [Print (WarnLeaf (w_root w) TypeError)])).
  { unfold scan_step. rewrite Hl.
    destruct (process_leaf (fst (scan_leaves ws1)) w) as [st' out].
    cbn [fst snd] in *. subst out. reflexivity. }
  unfold scan_leaves. rewrite !fold_left_app. cbn [fold_left].
  fold (scan_leaves ws1). rewrite Hstep.
  split; [apply scan_fold_keys; exact Hk|]. split.
  - rewrite scan_fold_log. cbn [snd]. apply in_or_app. left.
    apply in_or_app. right. left. reflexivity.
  - rewrite !scan_fold_total. cbn [fst].
    pose proof (scan_step_total (scan_leaves ws1) w stage) as Hs.
    rewrite Hstep in Hs. cbn [fst] in Hs. rewrite Hs.
    unfold leaf_estimate at 1. rewrite Hl, Hr, Hn.
    fold stage. rewrite String.eqb_refl. cbn [andb]. ring.
Qed.

Lemma mistyped_estimate_registers_stage_witness :
  let w :=
    {| w_root := "r/a/x/base"; w_dirs := [];
       w_files := ["benchmark.json"; "estimates.json"];
       w_entries := [("benchmark.json", File Malformed);
                     ("estimates.json",
                      File (Parsed (JObj [("mean",
                              JObj [("point_estimate", JStr "fast")])])))] |} in
  In "x" (keys (fst (scan_leaves ([] ++ w :: []))))
  /\ In (Print (WarnLeaf "r/a/x/base" TypeError))
       (snd (scan_leaves ([] ++ w :: [])))
  /\ dict_get_default (fst (scan_leaves ([] ++ w :: []))) "x" 0
     == dict_get_default (fst (scan_leaves ([] ++ []))) "x" 0.
Proof.
  exact (mistyped_estimate_registers_stage [] []
           {| w_root := "r/a/x/base"; w_dirs := [];
              w_files := ["benchmark.json"; "estimates.json"];
              w_entries := [("benchmark.json", File Malformed);
                            ("estimates.json",
                             File (Parsed (JObj [("mean",
                                     JObj [("point_estimate", JStr "fast")])])))] |}
           (JStr "fast") eq_refl eq_refl
           (fun H => match H in _ = j return match j with JNull => False | _ => True end with eq_refl => I end)
           eq_refl).
Defined.

(** X4: a directory of the walk that is not named [base], or holds no
    [benchmark.json], changes neither the totals nor the console output,
    whatever else it holds. *)
Theorem other_directories_are_ignored (ws1 ws2 : list walk_item) (w : walk_item) :
  leaf_condition w = false ->
  scan_leaves (ws1 ++ w :: ws2) = scan_leaves (ws1 ++ ws2).
Proof.
  intros H. unfold scan_leaves. rewrite !fold_left_app. cbn [fold_left].
  unfold scan_step at 2. rewrite H. reflexivity.
Qed.

Lemma other_directories_are_ignored_witness :
  scan_leaves
    ([] ++ {| w_root := "r/a/x/base"; w_dirs := [];
              w_files := ["estimates.json"];
              w_entries := [("estimates.json", estimates 5)] |} :: [])
  = scan_leaves ([] ++ []).
Proof.
  exact (other_directories_are_ignored [] []
           {| w_root := "r/a/x/base"; w_dirs := [];
              w_files := ["estimates.json"];
              w_entries := [("estimates.json", estimates 5)] |} eq_refl).
Defined.

(** X5: the console output of a scan that returns data is the warnings of
    the skipped leaves followed by one line with the number of groups
    returned. *)
Theorem successful_scan_log (root : string) (fs : option node) (log : trace)
  (all_data : AllGroupsData) :
  run (collect_raw_data root fs) = (log, Ok (Some all_data)) ->
  exists warnings,
    log = warnings ++ [Print (InfoGroupsFound (List.length all_data))]
    /\ forallb is_warning warnings = true.
Proof.
  unfold run. rewrite collect_raw_data_run.
  destruct fs as [[c|entries]|]; try discriminate.
  cbv zeta.
  pose proof (collect_groups_warnings root
                (filter (fun e => is_dir (snd e)) entries)) as Hw.
  destruct (collect_groups root (filter (fun e => is_dir (snd e)) entries))
    as [d out]. cbn [fst snd] in *.
  destruct d as [|g d]; [discriminate|].
  intros H. injection H as <- <-.
  exists out. split; [reflexivity|exact Hw].
Qed.

Lemma successful_scan_log_witness :
  exists warnings,
    [Print (WarnLeaf "target/criterion/a/y/base" JSONDecodeError);
     Print (InfoGroupsFound 2)]
    = warnings
      ++ [Print (InfoGroupsFound
                   (List.length [("a", [("x", 0 + 100)]); ("b", [("x", 0 + 300)])]))]
    /\ forallb is_warning warnings = true.
Proof.
  exact (successful_scan_log "target/criterion" (Some scenario_d) _ _ eq_refl).
Defined.

(** ** Paths: the stage name of a leaf *)

Lemma append_assoc (a b c : string) : ((a ++ b) ++ c = a ++ (b ++ c))%string.
Proof. induction a as [|x a IH]; simpl; [reflexivity|]. rewrite IH. reflexivity. Qed.

Lemma has_slash_append (a b : string) :
  has_slash (a ++ b)%string = has_slash a || has_slash b.
Proof.
  induction a as [|c a IH]; simpl; [reflexivity|].
  rewrite IH. apply orb_assoc.
Qed.

Lemma basename_no_slash (s : string) : has_slash s = false -> basename s = s.
Proof.
  destruct s as [|c rest]; simpl; [reflexivity|].
  intros H. apply orb_false_iff in H as [Hc Hr]. rewrite Hr, Hc. reflexivity.
Qed.

Lemma basename_after_slash (a s : string) :
  has_slash s = false -> basename (a ++ String "/" s)%string = s.
Proof.
  intros H. induction a as [|c a IH].
  - cbn [append basename]. rewrite H. reflexivity.
  - cbn [append basename]. rewrite has_slash_append. cbn [has_slash].
    replace (is_slash "/") with true by reflexivity.
    cbn [orb]. rewrite orb_true_r. exact IH.
Qed.

Lemma ends_with_slash_split (a : string) :
  ends_with_slash a = true -> exists a0, a = (a0 ++ "/")%string.
Proof.
  induction a as [|c a IH]; simpl; [discriminate|].
  destruct a as [|c' a'].
  - unfold is_slash. intros H. apply Ascii.eqb_eq in H. subst c.
    exists "". reflexivity.
  - intros H. destruct (IH H) as [a0 E]. exists (String c a0). simpl.
    rewrite <- E. reflexivity.
Qed.

Lemma ends_with_slash_append (a s : string) :
  s <> "" -> ends_with_slash (a ++ s)%string = ends_with_slash s.
Proof.
  intros Hs. induction a as [|c a IH]; simpl; [reflexivity|].
  destruct (a ++ s)%string eqn:E.
  - destruct a; simpl in E; [congruence|discriminate].
  - exact IH.
Qed.

Lemma ends_with_slash_has_slash (s : string) :
  has_slash s = false -> ends_with_slash s = false.
Proof.
  induction s as [|c s IH]; simpl; [reflexivity|].
  intros H. apply orb_false_iff in H as [Hc Hr].
  destruct s; [exact Hc|apply IH, Hr].
Qed.

Lemma head_part_no_slash (s : string) : has_slash s = false -> head_part s = "".
Proof.
  destruct s as [|c s]; [reflexivity|]. intros H.
  cbn [head_part]. rewrite H. reflexivity.
Qed.

Lemma head_part_before_slash (a b : string) :
  has_slash b = false ->
  head_part (a ++ String "/" b)%string = (a ++ "/")%string.
Proof.
  intros H. induction a as [|c a IH].
  - cbn [append head_part has_slash]. rewrite (head_part_no_slash b H).
    reflexivity.
  - cbn [append head_part]. rewrite IH.
    replace (has_slash (String c (a ++ String "/" b))) with true; [reflexivity|].
    cbn [has_slash]. rewrite has_slash_append. cbn [has_slash].
    replace (is_slash "/") with true by reflexivity.
    cbn [orb]. rewrite !orb_true_r. reflexivity.
Qed.

Lemma all_slashes_append (a b : string) :
  all_slashes (a ++ b)%string = all_slashes a && all_slashes b.
Proof.
  induction a as [|c a IH]; simpl; [reflexivity|].
  rewrite IH. apply andb_assoc.
Qed.

Lemma all_slashes_no_slash (s : string) :
  s <> "" -> has_slash s = false -> all_slashes s = false.
Proof.
  destruct s as [|c s]; [congruence|]. simpl. intros _ H.
  apply orb_false_iff in H as [Hc _]. rewrite Hc. reflexivity.
Qed.

Lemma rstrip_slashes_fixed (q : string) :
  ends_with_slash q = false -> rstrip_slashes q = q.
Proof.
  induction q as [|c q IH]; [reflexivity|].
  cbn [ends_with_slash rstrip_slashes].
  destruct q as [|c' q'].
  - intros H. cbn. rewrite H. reflexivity.
  - intros H. rewrite (IH H). reflexivity.
Qed.

Lemma rstrip_slashes_slash (q : string) :
  rstrip_slashes (q ++ "/")%string = rstrip_slashes q.
Proof.
  induction q as [|c q IH]; [reflexivity|].
  cbn [append rstrip_slashes]. rewrite IH. reflexivity.
Qed.

Lemma path_join_relative (p s : string) :
  s <> "" -> has_slash s = false ->
  exists a, path_join p s = (a ++ s)%string
            /\ (a = "" \/ ends_with_slash a = true).
Proof.
  intros Hs Hn. unfold path_join.
  destruct s as [|c s']; [congruence|].
  assert (Hc : c <> "/"%char).
  { intros ->. discriminate Hn. }
  assert (E : match String c s' with
              | String "/"%char _ => String c s'
              | _ => if String.eqb p "" || ends_with_slash p
                     then (p ++ String c s')%string
                     else (p ++ "/" ++ String c s')%string
              end
              = if String.eqb p "" || ends_with_slash p
                then (p ++ String c s')%string
                else (p ++ "/" ++ String c s')%string).
  { destruct c as [[] [] [] [] [] [] [] []]; try reflexivity. congruence. }
  rewrite E. clear E.
  destruct (String.eqb p "") eqn:Ep.
  - apply String.eqb_eq in Ep. subst p. exists "". auto.
  - cbn [orb]. destruct (ends_with_slash p) eqn:Es.
    + exists p. auto.
    + exists (p ++ "/")%string. rewrite append_assoc. split; [reflexivity|].
      right. apply ends_with_slash_append. discriminate.
Qed.

Lemma basename_of_join (p s : string) :
  s <> "" -> has_slash s = false -> basename (path_join p s) = s.
Proof.
  intros Hs Hn. destruct (path_join_relative p s Hs Hn) as (a & -> & [->|Ha]).
  - apply basename_no_slash, Hn.
  - destruct (ends_with_slash_split a Ha) as [a0 ->].
    rewrite append_assoc. apply (basename_after_slash a0 s), Hn.
Qed.

Lemma leaf_path_names (stage_path stage : string) :
  stage <> "" -> has_slash stage = false ->
  let root := path_join (path_join stage_path stage) "base" in
  basename root = "base" /\ basename (dirname root) = stage.
Proof.
  intros Hs Hn root.
  destruct (path_join_relative stage_path stage Hs Hn) as (a & Ea & Ha).
  set (q := path_join stage_path stage) in *.
  assert (Hq : ends_with_slash q = false).
  { rewrite Ea, ends_with_slash_append by exact Hs.
    apply ends_with_slash_has_slash, Hn. }
  assert (Hq0 : q <> "").
  { rewrite Ea. destruct a; [exact Hs|discriminate]. }
  assert (Er : root = (q ++ String "/" "base")%string).
  { unfold root, path_join. cbn [orb]. rewrite Hq.
    destruct (String.eqb q "") eqn:E; [|reflexivity].
    apply String.eqb_eq in E. congruence. }
  split.
  - rewrite Er. apply basename_after_slash. reflexivity.
  - unfold dirname. rewrite Er, head_part_before_slash by reflexivity.
    assert (H1 : String.eqb (q ++ "/") "" = false).
    { apply String.eqb_neq. destruct q; discriminate. }
    assert (H2 : all_slashes (q ++ "/") = false).
    { rewrite all_slashes_append.
      rewrite Ea, all_slashes_append, (all_slashes_no_slash stage Hs Hn).
      rewrite andb_false_r. reflexivity. }
    rewrite H1, H2. cbn [negb andb].
    rewrite rstrip_slashes_slash, (rstrip_slashes_fixed q Hq).
    unfold q. apply basename_of_join; assumption.
Qed.

(** X6: for a directory [<path>/<stage>/base] that holds [benchmark.json],
    with [stage] a non-empty name without a slash, the leaf test succeeds
    and the stage derived from the path is [stage], at any depth below the
    group directory. *)
Theorem stage_name_of_leaf (stage_path stage : string) (w : walk_item) :
  stage <> "" -> has_slash stage = false ->
  w_root w = path_join (path_join stage_path stage) "base" ->
  In "benchmark.json" (w_files w) ->
  leaf_condition w = true /\ basename (dirname (w_root w)) = stage.
Proof.
  intros Hs Hn Hr Hf.
  destruct (leaf_path_names stage_path stage Hs Hn) as [Hb Hp].
  unfold leaf_condition. rewrite Hr, Hb, Hp.
  split; [|reflexivity]. rewrite String.eqb_refl.
  apply existsb_eqb_In in Hf. rewrite Hf. reflexivity.
Qed.

Lemma stage_name_of_leaf_witness :
  let w :=
    {| w_root := "target/criterion/apple2 lemon/warp/base"; w_dirs := [];
       w_files := ["benchmark.json"; "estimates.json"];
       w_entries := [("benchmark.json", File Malformed);
                     ("estimates.json", estimates 5)] |} in
  leaf_condition w = true /\ basename (dirname (w_root w)) = "warp".
Proof.
  exact (stage_name_of_leaf "target/criterion/apple2 lemon" "warp"
           {| w_root := "target/criterion/apple2 lemon/warp/base"; w_dirs := [];
              w_files := ["benchmark.json"; "estimates.json"];
              w_entries := [("benchmark.json", File Malformed);
                            ("estimates.json", estimates 5)] |}
           (fun H => match H in _ = s
                           return match s with EmptyString => False | _ => True end
                     with eq_refl => I end)
           eq_refl eq_refl (or_introl eq_refl)).
Defined.

(** ** The scan of a well-laid-out group *)

Lemma walk_dir (top : string) (entries : list (string * node)) :
  walk top (Dir entries)
  = {| w_root := top; w_dirs := dir_names entries;
       w_files := file_names entries; w_entries := entries |}
    :: flat_map (fun e => walk (path_join top (fst e)) (snd e)) entries.
Proof.
  cbn [walk]. f_equal.
  induction entries as [|[name child] entries IH]; [reflexivity|].
  cbn [flat_map fst snd]. rewrite <- IH. reflexivity.
Qed.

Lemma dict_set_fresh {V : Type} (d : dict V) (k : string) (v : V) :
  dict_get d k = None -> dict_set d k v = d ++ [(k, v)].
Proof.
  induction d as [|[k' v'] d IH]; cbn [dict_get dict_set app]; [reflexivity|].
  destruct (String.eqb k' k); [discriminate|].
  intros H. rewrite (IH H). reflexivity.
Qed.

Lemma dict_set_twice {V : Type} (d : dict V) (k : string) (v0 v : V) :
  dict_set (dict_set d k v0) k v = dict_set d k v.
Proof.
  induction d as [|[k' v'] d IH]; cbn [dict_set].
  - rewrite String.eqb_refl. reflexivity.
  - destruct (String.eqb k' k) eqn:E; cbn [dict_set]; rewrite E;
      [reflexivity|]. rewrite IH. reflexivity.
Qed.

Lemma dict_get_app_fresh {V : Type} (d : dict V) (k k' : string) (v : V) :
  k <> k' -> dict_get d k' = None -> dict_get (d ++ [(k, v)]) k' = None.
Proof.
  intros Hk. induction d as [|[k0 v0] d IH]; cbn [dict_get app].
  - intros _. apply String.eqb_neq in Hk. rewrite Hk. reflexivity.
  - destruct (String.eqb k0 k'); [discriminate|]. exact IH.
Qed.

Lemma scan_stage_dir (stage_path stage : string) (q : Q)
  (acc : dict Q * list event) :
  is_name stage = true ->
  dict_get (fst acc) stage = None ->
  fold_left scan_step
    (walk (path_join stage_path stage) (stage_dir (estimates q))) acc
  = (fst acc ++ [(stage, 0 + q)], snd acc).
Proof.
  intros Hname Hfresh. unfold is_name in Hname.
  apply andb_true_iff in Hname as [Hs Hn].
  apply negb_true_iff in Hs, Hn. apply String.eqb_neq in Hs.
  destruct (leaf_path_names stage_path stage Hs Hn) as [Hb Hp].
  unfold stage_dir, estimates. rewrite walk_dir.
  cbn [flat_map fst snd app]. rewrite walk_dir.
  cbn [flat_map fst snd app walk dir_names file_names filter is_dir negb map].
  cbn [fold_left].
  assert (H1 : forall a w, w_files w = [] -> scan_step a w = a).
  { intros a w Hw. unfold scan_step, leaf_condition. rewrite Hw.
    cbn [existsb]. rewrite andb_false_r. reflexivity. }
  rewrite (H1 acc) by reflexivity.
  unfold scan_step, leaf_condition. cbn [w_root w_files].
  rewrite Hb. cbn [String.eqb existsb]. 
  replace (String.eqb "base" "base") with true by reflexivity.
  replace (String.eqb "benchmark.json" "benchmark.json") with true
    by reflexivity.
  cbn [orb andb].
  unfold process_leaf. cbn [w_root]. rewrite Hp.
  replace (read_point_estimate _) with (Ok (JNum q)) by reflexivity.
  cbn [number_of too_large]. unfold dict_get_default. rewrite Hfresh.
  rewrite dict_set_twice, (dict_set_fresh _ _ _ Hfresh), app_nil_r.
  reflexivity.
Qed.

Lemma scan_group_dir_loop (group_path : string) (stages : GroupTimings)
  (acc : dict Q * list event) :
  wf_dict stages = true ->
  forallb is_name (keys stages) = true ->
  (forall k, In k (keys stages) -> dict_get (fst acc) k = None) ->
  fold_left scan_step
    (flat_map (fun e => walk (path_join group_path (fst e)) (snd e))
       (map (fun st => (fst st, stage_dir (estimates (snd st)))) stages)) acc
  = (fst acc ++ map (fun st => (fst st, 0 + snd st)) stages, snd acc).
Proof.
  revert acc. induction stages as [|[s q] stages IH]; intros acc Hwf Hnames Hfresh.
  - cbn. rewrite app_nil_r. destruct acc; reflexivity.
  - cbn [map flat_map fst snd]. rewrite fold_left_app.
    unfold wf_dict in Hwf. cbn [keys map fst nodupb] in Hwf.
    apply andb_true_iff in Hwf as [Hs Hwf]. apply negb_true_iff in Hs.
    cbn [keys map fst forallb] in Hnames.
    apply andb_true_iff in Hnames as [Hname Hnames].
    rewrite scan_stage_dir; [|exact Hname|apply Hfresh; left; reflexivity].
    rewrite IH; cbn [fst snd].
    + rewrite <- app_assoc. reflexivity.
    + exact Hwf.
    + exact Hnames.
    + intros k Hk. apply dict_get_app_fresh.
      * intros <-. apply existsb_eqb_In in Hk. fold (keys stages) in Hs.
        congruence.
      * apply Hfresh. right. exact Hk.
Qed.

Lemma scan_of_group_dir (group_path : string) (stages : GroupTimings) :
  wf_dict stages = true ->
  forallb is_name (keys stages) = true ->
  scan_group group_path (group_dir stages)
  = (map (fun st => (fst st, 0 + snd st)) stages, []).
Proof.
  intros Hwf Hnames. unfold scan_group, scan_leaves, group_dir.
  rewrite walk_dir. cbn [fold_left].
  assert (Hroot : forall w, w_files w = [] -> scan_step ([], []) w = ([], [])).
  { intros w Hw. unfold scan_step, leaf_condition. rewrite Hw.
    cbn [existsb]. rewrite andb_false_r. reflexivity. }
  rewrite Hroot.
  - rewrite (scan_group_dir_loop group_path stages ([], []) Hwf Hnames);
      [reflexivity|]. intros k _. reflexivity.
  - cbn [w_files]. unfold file_names.
    induction stages as [|st stages IH]; [reflexivity|].
    cbn [map filter snd is_dir negb]. apply IH.
    + unfold wf_dict in *. cbn [keys map nodupb] in Hwf.
      apply andb_true_iff in Hwf as [_ Hwf]. exact Hwf.
    + cbn [keys map forallb] in Hnames.
      apply andb_true_iff in Hnames as [_ Hnames]. exact Hnames.
Qed.

Lemma filter_group_dirs (all_data : AllGroupsData) :
  filter (fun e : string * node => is_dir (snd e))
    (map (fun g => (fst g, group_dir (snd g))) all_data)
  = map (fun g => (fst g, group_dir (snd g))) all_data.
Proof.
  induction all_data as [|g all_data IH]; [reflexivity|].
  cbn [map filter snd group_dir is_dir]. rewrite IH. reflexivity.
Qed.

Lemma collect_group_dirs (root : string) (all_data : AllGroupsData)
  (acc : AllGroupsData * list event) :
  wf_data all_data = true ->
  forallb (fun g => match snd g with [] => false | _ => true end) all_data = true ->
  forallb is_name (stage_keys all_data) = true ->
  (forall k, In k (keys all_data) -> dict_get (fst acc) k = None) ->
  fold_left
    (fun acc g =>
       let (stage_totals, out) :=
         scan_group (path_join root (fst g)) (snd g) in
       (match stage_totals with
        | [] => fst acc
        | _ => dict_set (fst acc) (fst g) stage_totals
        end, snd acc ++ out))
    (map (fun g => (fst g, group_dir (snd g))) all_data) acc
  = (fst acc
     ++ map (fun g => (fst g, map (fun st => (fst st, 0 + snd st)) (snd g)))
          all_data, snd acc).
Proof.
  revert acc. induction all_data as [|[name stages] all_data IH];
    intros acc Hwf Hne Hnames Hfresh.
  - cbn. rewrite app_nil_r. destruct acc; reflexivity.
  - unfold wf_data in Hwf. apply andb_true_iff in Hwf as [Hk Hst].
    unfold wf_dict in Hk. cbn [keys map fst nodupb] in Hk.
    apply andb_true_iff in Hk as [Hname Hk]. apply negb_true_iff in Hname.
    cbn [forallb snd] in Hst, Hne.
    apply andb_true_iff in Hst as [Hstages Hst].
    apply andb_true_iff in Hne as [Hnonempty Hne].
    unfold stage_keys in Hnames. cbn [flat_map snd] in Hnames.
    rewrite forallb_app in Hnames.
    apply andb_true_iff in Hnames as [Hvalid Hnames].
    cbn [map fold_left fst snd].
    rewrite (scan_of_group_dir (path_join root name) stages Hstages Hvalid).
    rewrite app_nil_r.
    destruct stages as [|st stages]; [discriminate|].
    set (totals := map (fun st0 => (fst st0, 0 + snd st0)) (st :: stages)).
    cbn [map] in totals. subst totals.
    rewrite IH; cbn [fst snd].
    + rewrite (dict_set_fresh (fst acc) name) by (apply Hfresh; left; reflexivity).
      rewrite <- app_assoc. reflexivity.
    + unfold wf_data. apply andb_true_iff. split; [exact Hk|exact Hst].
    + exact Hne.
    + exact Hnames.
    + intros k Hin.
      rewrite (dict_set_fresh (fst acc) name) by (apply Hfresh; left; reflexivity).
      apply dict_get_app_fresh.
      * intros <-. apply existsb_eqb_In in Hin. fold (keys all_data) in Hname.
        congruence.
      * apply Hfresh. right. exact Hin.
Qed.

(** X7: round trip of the scanner.  A result tree with one directory per
    group, in it one directory per stage, and in that a [base] leaf whose
    mean point estimate is the time of the stage, a float, is scanned back
    to those groups and stages, in order, each time being 0.0 plus the
    estimate, and the console shows only the number of groups. *)
Theorem scan_of_result_tree (root : string) (all_data : AllGroupsData) :
  all_data <> [] ->
  wf_data all_data = true ->
  forallb (fun g => match snd g with [] => false | _ => true end) all_data = true ->
  forallb is_name (stage_keys all_data) = true ->
  run (collect_raw_data root
         (Some (Dir (map (fun g => (fst g, group_dir (snd g))) all_data))))
  = ([Print (InfoGroupsFound (List.length all_data))],
     Ok (Some (map (fun g => (fst g, map (fun st => (fst st, 0 + snd st)) (snd g)))
                 all_data))).
Proof.
  intros Hd Hwf Hne Hnames. unfold run. rewrite collect_raw_data_run.
  cbv zeta. rewrite filter_group_dirs.
  assert (Eg : collect_groups root
                 (map (fun g => (fst g, group_dir (snd g))) all_data)
               = (map (fun g => (fst g,
                                 map (fun st => (fst st, 0 + snd st)) (snd g)))
                    all_data, [])).
  { exact (collect_group_dirs root all_data ([], []) Hwf Hne Hnames
             (fun k _ => eq_refl)). }
  rewrite Eg. cbn [fst snd app].
  destruct all_data as [|g all_data]; [congruence|].
  cbn [map]. cbn [List.length]. rewrite length_map. reflexivity.
Qed.

Lemma scan_of_result_tree_witness :
  run (collect_raw_data "target/criterion"
         (Some (Dir (map (fun g => (fst g, group_dir (snd g)))
                       [("apple2 lemon", [("warp", 5); ("blend", 7)]);
                        ("pear banana", [("warp", 3)])]))))
  = ([Print (InfoGroupsFound 2)],
     Ok (Some (map (fun g => (fst g, map (fun st => (fst st, 0 + snd st)) (snd g)))
                 [("apple2 lemon", [("warp", 5); ("blend", 7)]);
                  ("pear banana", [("warp", 3)])]))).
Proof.
  exact (scan_of_result_tree "target/criterion"
           [("apple2 lemon", [("warp", 5); ("blend", 7)]);
            ("pear banana", [("warp", 3)])]
           (fun H => match H in _ = l
                           return match l with [] => False | _ => True end
                     with eq_refl => I end)
           eq_refl eq_refl eq_refl).
Defined.

(** ** The aggregator: groups without a positive total *)

Lemma add_group_percentages_skip (sp : dict (list Q)) (stages : GroupTimings) :
  Qlt_bool 0 (py_sum (values stages)) = false ->
  add_group_percentages sp stages = sp.
Proof. intros H. unfold add_group_percentages. rewrite H. reflexivity. Qed.

Lemma stage_percentages_no_positive (all_data : AllGroupsData) :
  forallb (fun g => negb (Qlt_bool 0 (py_sum (values (snd g))))) all_data = true ->
  stage_percentages all_data = [].
Proof.
  unfold stage_percentages. generalize (@nil (string * list Q)) as sp.
  induction all_data as [|g all_data IH]; intros sp H; [reflexivity|].
  cbn [forallb] in H. apply andb_true_iff in H as [Hg H].
  cbn [fold_left]. apply negb_true_iff in Hg.
  rewrite (add_group_percentages_skip sp (snd g) Hg). apply IH, H.
Qed.

Lemma summary_loop_empty (names : list string) :
  summary_loop [] names
  = (map (fun s => (s, {| min_percentage := 0; max_percentage := 0;
                          avg_percentage := py_sum [0] / inject_Z (Z.of_nat 1) |}))
       names, None).
Proof.
  induction names as [|s names IH]; [reflexivity|].
  cbn [summary_loop map]. rewrite IH. reflexivity.
Qed.

(** X9: when no group has a positive total, every stage row of
    [percentage_summary.csv] reads 0.00, 0.00, 0.00. *)
Theorem summary_without_positive_total (all_data : AllGroupsData) :
  forallb (fun g => negb (Qlt_bool 0 (py_sum (values (snd g))))) all_data = true ->
  rows (summary_table all_data)
  = map (fun s => [CStr s; CFix2 0; CFix2 0; CFix2 0]) (all_stage_names all_data).
Proof.
  intros H. unfold summary_table, summary_stats. cbn [rows].
  rewrite (stage_percentages_no_positive all_data H), summary_loop_empty.
  cbn [fst]. rewrite map_map. reflexivity.
Qed.

Lemma summary_without_positive_total_witness :
  rows (summary_table [("a", [("x", 0)]); ("b", [("y", 0); ("x", 0)])])
  = map (fun s => [CStr s; CFix2 0; CFix2 0; CFix2 0])
      (all_stage_names [("a", [("x", 0)]); ("b", [("y", 0); ("x", 0)])]).
Proof.
  exact (summary_without_positive_total
           [("a", [("x", 0)]); ("b", [("y", 0); ("x", 0)])] eq_refl).
Defined.

(** ** The order of the groups *)

(** X10: [all_stage_names], hence the stage columns of both reports, does
    not depend on the order in which the groups were scanned. *)
Theorem stage_names_ignore_group_order (d1 d2 : AllGroupsData) :
  Permutation d1 d2 -> all_stage_names d1 = all_stage_names d2.
Proof.
  intros P. apply strictly_sorted_unique; try apply all_stage_names_strict.
  intros s. rewrite !all_stage_names_In.
  split; intros (g & Hg & Hs); exists g; split; auto.
  - eapply Permutation_in; eauto.
  - eapply Permutation_in; [apply Permutation_sym|]; eauto.
Qed.

Lemma stage_names_ignore_group_order_witness :
  all_stage_names [("a", [("y", 1); ("x", 2)]); ("b", [("z", 3)])]
  = all_stage_names [("b", [("z", 3)]); ("a", [("y", 1); ("x", 2)])].
Proof.
  exact (stage_names_ignore_group_order _ _
           (perm_swap ("b", [("z", 3)]) ("a", [("y", 1); ("x", 2)]) [])).
Defined.

(** ** Rows of [timings_raw.csv] *)

(** X12: the rows that the two scripts write to [timings_raw.csv] for a
    group have the same length and the same group name, and every number of
    [process_and_plot.py] is within 0.005 of the number of
    [draw_barplot.py]. *)
Theorem raw_rows_agree_up_to_rounding (names : list string)
  (g : string * GroupTimings) :
  Forall2 cell_close (ProcessAndPlot.raw_row names g)
    (DrawBarplot.raw_row names g).
Proof.
  unfold ProcessAndPlot.raw_row, DrawBarplot.raw_row. cbn [app].
  constructor; [reflexivity|]. constructor; [apply py_round2_close|].
  induction names as [|s names IH]; cbn [map]; constructor.
  - apply py_round2_close.
  - exact IH.
Qed.

(** ** Rounding *)




(** ** The rows of [percentage_summary.csv] *)




Lemma contribution_In (s : string) (stages : GroupTimings) (p : Q) :
  In p (contribution s stages) ->
  exists stage_time,
    dict_get stages s = Some stage_time
    /\ 0 < py_sum (values stages)
    /\ p = stage_time / py_sum (values stages) * 100.
Proof.
  unfold contribution.
  destruct (Qlt_bool 0 (py_sum (values stages))) eqn:E; [|intros []].
  apply Qlt_bool_iff in E.
  destruct (dict_get stages s) as [v|]; [|intros []].
  intros [<-|[]]. exists v. auto.
Qed.

(** X14: for a stage that has an entry in [stage_percentages], the minimum
    and the maximum of the summary are each the share of the stage in some
    group that holds it and has a positive total. *)
Theorem extremes_are_attained (all_data : AllGroupsData) (s : string)
  (st : PercentageStat) :
  wf_data all_data = true ->
  dict_get (stage_percentages all_data) s <> None ->
  percentage_stat (stage_percentages all_data) s = Some st ->
  forall p, p = min_percentage st \/ p = max_percentage st ->
  exists g stage_time,
    In g all_data
    /\ dict_get (snd g) s = Some stage_time
    /\ 0 < py_sum (values (snd g))
    /\ p = stage_time / py_sum (values (snd g)) * 100.
Proof.
  intros Hwf Hne Hst p Hp.
  destruct (percentage_stat_of_list _ _ _ Hst)
    as (_ & Hmin & _ & Hmax & _ & _).
  assert (Hin : In p (dict_get_default (stage_percentages all_data) s [0])).
  { destruct Hp as [->| ->]; assumption. }
  rewrite (percentages_used all_data s Hwf) in Hin.
  rewrite (stage_percentages_get all_data s Hwf) in Hne.
  destruct (contributions s all_data) as [|q c] eqn:E.
  { exfalso. apply Hne. reflexivity. }
  rewrite <- E in Hin. unfold contributions in Hin.
  apply in_flat_map in Hin. destruct Hin as (g & Hg & Hin).
  destruct (contribution_In s (snd g) p Hin) as (v & Hv & Ht & Ep).
  exists g, v. auto.
Qed.

Lemma extremes_are_attained_witness :
  exists st g stage_time,
    percentage_stat
      (stage_percentages [("a", [("x", 100); ("y", 100)]); ("b", [("x", 300)])])
      "x" = Some st
    /\ In g [("a", [("x", 100); ("y", 100)]); ("b", [("x", 300)])]
    /\ dict_get (snd g) "x" = Some stage_time
    /\ 0 < py_sum (values (snd g))
    /\ min_percentage st = stage_time / py_sum (values (snd g)) * 100.
Proof.
  destruct (percentage_stat
              (stage_percentages
                 [("a", [("x", 100); ("y", 100)]); ("b", [("x", 300)])]) "x")
    as [st|] eqn:E; [|discriminate E].
  destruct (extremes_are_attained
              [("a", [("x", 100); ("y", 100)]); ("b", [("x", 300)])] "x" st
              eq_refl
              (fun H : Some _ = None =>
                 match H in _ = o return match o with None => False | _ => True end
                 with eq_refl => I end)
              E (min_percentage st) (or_introl eq_refl))
    as (g & v & H).
  exists st, g, v. split; [reflexivity|exact H].
Defined.

(** ** Whole runs *)

(** X15: when the output directory cannot be created, both scripts stop
    with the error of [os.makedirs] right after the scan: no file is
    opened and nothing more is printed. *)
Theorem makedirs_failure_writes_nothing {sorter : SortValues} (E : env)
  (root out : string) (fs : option node) (log : trace)
  (all_data : AllGroupsData) :
  run (collect_raw_data root fs) = (log, Ok (Some all_data)) ->
  makedirs_fails E out = true ->
  run (ProcessAndPlot.main E root fs out) = (log, Raise OSError)
  /\ run (DrawBarplot.main E root fs out) = (log, Raise OSError).
Proof.
  intros Hscan Hmk.
  destruct (scan_then root fs log [] all_data Hscan) as [Hscan' Hne].
  simpl in Hscan'.
  destruct all_data as [|g d]; [congruence|].
  unfold run.
  rewrite process_and_plot_main_run, draw_barplot_main_run, Hscan'.
  rewrite process_and_plot_reports_run, draw_barplot_reports_run.
  cbv zeta. rewrite Hmk. split; reflexivity.
Qed.

Lemma makedirs_failure_writes_nothing_witness :
  let E := {| makedirs_fails := fun _ => true;
              open_fails := fun _ => false;
              savefig_fails := fun _ => false |} in
  run (ProcessAndPlot.main E "target/criterion" (Some scenario_a) "out")
  = ([Print (InfoGroupsFound 1)], Raise OSError)
  /\ run (DrawBarplot.main (sorter := stable_sort_values) E "target/criterion"
            (Some scenario_a) "out")
     = ([Print (InfoGroupsFound 1)], Raise OSError).
Proof.
  exact (makedirs_failure_writes_nothing (sorter := stable_sort_values)
           {| makedirs_fails := fun _ => true;
              open_fails := fun _ => false;
              savefig_fails := fun _ => false |}
           "target/criterion" "out" (Some scenario_a)
           [Print (InfoGroupsFound 1)] [("a", [("x", 0 + 100); ("y", 0 + 300)])]
           eq_refl eq_refl).
Defined.

(** X16: when [percentage_summary.csv] cannot be opened, both scripts
    stop with that error after [timings_raw.csv] was written in full and
    announced; no chart is attempted. *)
Theorem summary_write_failure {sorter : SortValues} (E : env)
  (root out : string) (fs : option node) (log : trace)
  (all_data : AllGroupsData) :
  let csv1 := path_join out "timings_raw.csv" in
  let csv2 := path_join out "percentage_summary.csv" in
  run (collect_raw_data root fs) = (log, Ok (Some all_data)) ->
  makedirs_fails E out = false ->
  open_fails E csv1 = false ->
  open_fails E csv2 = true ->
  run (ProcessAndPlot.main E root fs out)
  = (log ++ [MakeDirs out; OpenWrite csv1;
             Written csv1 (raw_table ProcessAndPlot.raw_row all_data);
             Print (InfoRawSaved csv1); OpenWrite csv2], Raise OSError)
  /\ run (DrawBarplot.main E root fs out)
     = (log ++ [MakeDirs out; OpenWrite csv1;
                Written csv1 (raw_table DrawBarplot.raw_row all_data);
                Print (InfoRawSaved csv1); OpenWrite csv2], Raise OSError).
Proof.
  intros csv1 csv2 Hscan Hmk H1 H2.
  destruct (scan_then root fs log [] all_data Hscan) as [Hscan' Hne].
  simpl in Hscan'.
  assert (Hgd : exists g d, all_data = g :: d)
    by (destruct all_data; [congruence|eauto]).
  destruct Hgd as (g & d & Hgd).
  unfold run.
  rewrite process_and_plot_main_run, draw_barplot_main_run, Hscan'.
  rewrite process_and_plot_reports_run, draw_barplot_reports_run.
  cbv zeta. rewrite Hmk. fold csv1 csv2. rewrite H1, H2.
  rewrite Hgd. split; reflexivity.
Qed.

Lemma summary_write_failure_witness :
  let E := {| makedirs_fails := fun _ => false;
              open_fails := fun p => String.eqb p "out/percentage_summary.csv";
              savefig_fails := fun _ => false |} in
  snd (run (ProcessAndPlot.main E "target/criterion" (Some scenario_a) "out"))
  = Raise OSError
  /\ snd (run (DrawBarplot.main (sorter := stable_sort_values) E
                 "target/criterion" (Some scenario_a) "out"))
     = Raise OSError.
Proof.
  destruct (summary_write_failure (sorter := stable_sort_values)
              {| makedirs_fails := fun _ => false;
                 open_fails := fun p => String.eqb p "out/percentage_summary.csv";
                 savefig_fails := fun _ => false |}
              "target/criterion" "out" (Some scenario_a)
              [Print (InfoGroupsFound 1)]
              [("a", [("x", 0 + 100); ("y", 0 + 300)])]
              eq_refl eq_refl eq_refl eq_refl) as [H1 H2].
  split; [rewrite H1|rewrite H2]; reflexivity.
Defined.

(** X17: a run of [process_and_plot.py] whose scan returns data and whose
    reports can be written always reaches the pie chart (the summary is
    never empty).  It stops with a [ValueError] when the averages hold a
    negative number or add up to zero, and with the error of [savefig] when
    the file cannot be saved; neither is caught.  Otherwise it saves the
    chart of the averages and announces it. *)
Theorem process_and_plot_run (E : env) (root out : string)
  (fs : option node) (log : trace) (all_data : AllGroupsData) :
  let csv1 := path_join out "timings_raw.csv" in
  let csv2 := path_join out "percentage_summary.csv" in
  let chart_filename := path_join out "summary_pie_chart.pdf" in
  run (collect_raw_data root fs) = (log, Ok (Some all_data)) ->
  makedirs_fails E out = false ->
  open_fails E csv1 = false ->
  open_fails E csv2 = false ->
  run (ProcessAndPlot.main E root fs out)
  = if ProcessAndPlot.pie_refuses
         (pie_sizes (ProcessAndPlot.summary_pie (summary_for_chart all_data)))
    then
      (log ++ reports_events (raw_table ProcessAndPlot.raw_row all_data)
                all_data out, Raise ValueError)
    else if savefig_fails E chart_filename then
      (log ++ reports_events (raw_table ProcessAndPlot.raw_row all_data)
                all_data out, Raise OSError)
    else
      (log ++ reports_events (raw_table ProcessAndPlot.raw_row all_data)
                all_data out
           ++ [SaveFig chart_filename
                 (PieFigure (ProcessAndPlot.summary_pie
                               (summary_for_chart all_data)));
               Print (InfoPieSaved chart_filename)], Ok tt).
Proof.
  exact (process_and_plot_run_events E root out fs log all_data).
Qed.

Lemma process_and_plot_run_witness :
  run (ProcessAndPlot.main no_failures "target/criterion" (Some scenario_a) "out")
  = ([Print (InfoGroupsFound 1)]
     ++ reports_events
          (raw_table ProcessAndPlot.raw_row
             [("a", [("x", 0 + 100); ("y", 0 + 300)])])
          [("a", [("x", 0 + 100); ("y", 0 + 300)])] "out"
     ++ [SaveFig "out/summary_pie_chart.pdf"
           (PieFigure (ProcessAndPlot.summary_pie
                         (summary_for_chart
                            [("a", [("x", 0 + 100); ("y", 0 + 300)])])));
         Print (InfoPieSaved "out/summary_pie_chart.pdf")], Ok tt).
Proof.
  exact (process_and_plot_run no_failures "target/criterion" "out"
           (Some scenario_a) [Print (InfoGroupsFound 1)]
           [("a", [("x", 0 + 100); ("y", 0 + 300)])]
           eq_refl eq_refl eq_refl eq_refl).
Defined.

(** X19: every table that [generate_reports] writes, in either script, is
    rectangular: each row has as many cells as the header. *)
Theorem written_tables_are_rectangular (E : env) (all_data : AllGroupsData)
  (out path : string) (t : table) :
  In (Written path t)
     (fst (run (ProcessAndPlot.generate_reports E all_data out)))
  \/ In (Written path t)
       (fst (run (DrawBarplot.generate_reports E all_data out))) ->
  Forall (fun r => List.length r = List.length (header t)) (rows t).
Proof.
  assert (Hraw : forall raw_row,
             (forall names g, List.length (raw_row names g)
                              = S (S (List.length names))) ->
             Forall (fun r => List.length r
                              = List.length (header (raw_table raw_row all_data)))
               (rows (raw_table raw_row all_data))).
  { intros raw_row Hlen. unfold raw_table. cbn [header rows].
    apply Forall_map, Forall_forall. intros g _.
    rewrite Hlen. unfold raw_header. cbn [List.length].
    rewrite length_map. reflexivity. }
  assert (Hsum : Forall (fun r => List.length r
                                  = List.length (header (summary_table all_data)))
                   (rows (summary_table all_data))).
  { unfold summary_table. cbn [header rows].
    apply Forall_map, Forall_forall. intros r _. reflexivity. }
  assert (Hcases : forall raw l,
             (forall e, In e l ->
                e = MakeDirs out
                \/ (exists p, e = OpenWrite p)
                \/ (exists m, e = Print m)
                \/ (exists p, e = Written p raw)
                \/ (exists p, e = Written p (summary_table all_data))) ->
             In (Written path t) l ->
             t = raw \/ t = summary_table all_data).
  { intros raw l Hl Hin.
    destruct (Hl _ Hin) as [H|[[p H]|[[m H]|[[p H]|[p H]]]]];
      try discriminate H; injection H as _ <-; auto. }
  unfold run. rewrite process_and_plot_reports_run, draw_barplot_reports_run.
  cbv zeta.
  set (csv1 := path_join out "timings_raw.csv").
  set (csv2 := path_join out "percentage_summary.csv").
  intros [H|H].
  - assert (Ht : t = raw_table ProcessAndPlot.raw_row all_data
                 \/ t = summary_table all_data).
    { revert H. apply Hcases.
      destruct (makedirs_fails E out); [intros e []|].
      destruct (open_fails E csv1);
        [|destruct (open_fails E csv2)]; cbn [fst app reports_events];
        intros e He; cbn [In] in He;
        repeat (destruct He as [<-|He]; [eauto 6|]); destruct He. }
    destruct Ht as [-> | ->]; [|exact Hsum].
    apply Hraw. intros names g. unfold ProcessAndPlot.raw_row.
    cbn [app List.length]. rewrite length_map. reflexivity.
  - assert (Ht : t = raw_table DrawBarplot.raw_row all_data
                 \/ t = summary_table all_data).
    { revert H. apply Hcases.
      destruct (makedirs_fails E out); [intros e []|].
      destruct (open_fails E csv1);
        [|destruct (open_fails E csv2)]; cbn [fst app reports_events];
        intros e He; cbn [In] in He;
        repeat (destruct He as [<-|He]; [eauto 6|]); destruct He. }
    destruct Ht as [-> | ->]; [|exact Hsum].
    apply Hraw. intros names g. unfold DrawBarplot.raw_row.
    cbn [app List.length]. rewrite length_map. reflexivity.
Qed.

Lemma written_tables_are_rectangular_witness :
  Forall (fun r => List.length r = 4%nat)
    (rows (raw_table DrawBarplot.raw_row [("a", [("x", 100); ("y", 300)])])).
Proof.
  exact (written_tables_are_rectangular no_failures
           [("a", [("x", 100); ("y", 300)])] "out" "out/timings_raw.csv"
           (raw_table DrawBarplot.raw_row [("a", [("x", 100); ("y", 300)])])
           (or_intror (or_intror (or_intror (or_introl eq_refl))))).
Defined.

(** ** The stacked bar chart *)

Section ChartFacts.
Context {sorter : SortValues}.

Lemma draw_layers_first (i : nat) (cols : list (string * list (option Q)))
  (bottom : list (option Q)) (layer : bar_layer) :
  nth_error (DrawBarplot.draw_layers i cols bottom) 0 = Some layer ->
  layer_bottoms layer = bottom.
Proof.
  destruct cols as [|[name vals] rest]; cbn; [discriminate|].
  intros H. injection H as <-. reflexivity.
Qed.

(** X21: the first layer of the chart stands on the initial bottom and
    every later layer stands on the bottom of the layer before it plus the
    heights of that layer. *)
Theorem layers_stack_cumulatively (i : nat)
  (cols : list (string * list (option Q))) (bottom : list (option Q)) :
  (forall layer,
     nth_error (DrawBarplot.draw_layers i cols bottom) 0 = Some layer ->
     layer_bottoms layer = bottom)
  /\ forall k below above,
       nth_error (DrawBarplot.draw_layers i cols bottom) k = Some below ->
       nth_error (DrawBarplot.draw_layers i cols bottom) (S k) = Some above ->
       layer_bottoms above
       = zip_with add_opt (layer_bottoms below) (layer_heights below).
Proof.
  split; [apply draw_layers_first|].
  revert i bottom. induction cols as [|[name vals] rest IH]; intros i bottom k.
  - destruct k; discriminate.
  - intros below above. destruct k as [|k].
    + cbn [DrawBarplot.draw_layers nth_error]. intros H1 H2.
      injection H1 as <-. cbn [layer_bottoms layer_heights].
      apply (draw_layers_first _ _ _ _ H2).
    + cbn [DrawBarplot.draw_layers nth_error]. apply IH.
Qed.

Lemma zip_with_length {A B C : Type} (f : A -> B -> C) (l1 : list A)
  (l2 : list B) :
  List.length l1 = List.length l2 ->
  List.length (zip_with f l1 l2) = List.length l1.
Proof.
  revert l2. induction l1 as [|x l1 IH]; intros [|y l2] H; cbn in *;
    try reflexivity; try discriminate.
  f_equal. apply IH. lia.
Qed.

Lemma draw_layers_lengths (n i : nat) (cols : list (string * list (option Q)))
  (bottom : list (option Q)) :
  Forall (fun c => List.length (snd c) = n) cols ->
  List.length bottom = n ->
  Forall (fun l => List.length (layer_heights l) = n
                   /\ List.length (layer_bottoms l) = n)
    (DrawBarplot.draw_layers i cols bottom).
Proof.
  revert i bottom. induction cols as [|[name vals] rest IH];
    intros i bottom Hc Hb; cbn [DrawBarplot.draw_layers]; constructor.
  - inversion Hc; subst. cbn in *. auto.
  - inversion Hc; subst. apply IH; [assumption|].
    cbn [snd] in *. rewrite zip_with_length; congruence.
Qed.

Lemma draw_layers_length (i : nat) (cols : list (string * list (option Q)))
  (bottom : list (option Q)) :
  List.length (DrawBarplot.draw_layers i cols bottom) = List.length cols.
Proof.
  revert i bottom. induction cols as [|[name vals] rest IH]; intros i bottom;
    cbn [DrawBarplot.draw_layers List.length]; [reflexivity|].
  rewrite IH. reflexivity.
Qed.

(** X22: a computed chart has one label and one annotated total per group,
    one layer per stage column, and every layer has one height and one
    bottom per bar. *)
Theorem chart_has_one_segment_per_bar (all_data : AllGroupsData)
  (chart : bar_chart) :
  DrawBarplot.stacked_bar_chart (raw_frame all_data) = Ok chart ->
  let n := List.length all_data in
  List.length (bar_labels chart) = n
  /\ List.length (bar_totals_ms chart) = n
  /\ List.length (bar_layers chart) = List.length (charted_stages all_data)
  /\ Forall (fun l => List.length (layer_heights l) = n
                      /\ List.length (layer_bottoms l) = n)
       (bar_layers chart).
Proof.
  intros H n. apply chart_produced in H. subst chart.
  unfold expected_chart. cbn [bar_labels bar_totals_ms bar_layers].
  rewrite !length_map, bars_length, draw_layers_length, length_map.
  repeat split.
  apply draw_layers_lengths.
  - apply Forall_map, Forall_forall. intros s _. cbn [snd].
    rewrite length_map. apply bars_length.
  - apply repeat_length.
Qed.

(** X23: the bar of a group whose total is 0 has no finite height in any
    layer (the division by the total is a division by zero). *)
Theorem zero_total_bar_has_no_height (all_data : AllGroupsData)
  (chart : bar_chart) (j : nat) (g : string * GroupTimings) :
  DrawBarplot.stacked_bar_chart (raw_frame all_data) = Ok chart ->
  nth_error (bars all_data) j = Some g ->
  group_total g == 0 ->
  Forall (fun l => nth j (layer_heights l) (Some 0) = None) (bar_layers chart).
Proof.
  intros H Hj Hz. apply chart_produced in H. subst chart.
  unfold expected_chart. cbn [bar_layers].
  set (cols := map (fun s => (stage_column s,
                              map (fun g' => bar_height g' s) (bars all_data)))
                 (charted_stages all_data)).
  pose proof (draw_layers_pairs 0 cols
                (repeat (Some 0) (List.length all_data))) as Hp.
  apply Forall_forall. intros l Hl.
  assert (Hin : In (layer_column l, layer_heights l) cols).
  { rewrite <- Hp. apply (in_map (fun l => (layer_column l, layer_heights l))).
    exact Hl. }
  unfold cols in Hin. apply in_map_iff in Hin. destruct Hin as (s & Es & _).
  injection Es as _ <-.
  rewrite (nth_map_lt (fun g' => bar_height g' s) (bars all_data) j g (Some 0)).
  - rewrite (nth_error_nth _ _ _ Hj). unfold bar_height, percent_of.
    apply Qeq_bool_iff in Hz. rewrite Hz. reflexivity.
  - apply nth_error_Some. congruence.
Qed.

End ChartFacts.

Lemma chart_has_one_segment_per_bar_witness :
  let all_data : AllGroupsData :=
    [("apple2", [("y", 1); ("x", 3)]); ("lemon", [("x", 2)])] in
  let chart := expected_chart (sorter := stable_sort_values) all_data in
  List.length (bar_labels chart) = 2%nat
  /\ List.length (bar_totals_ms chart) = 2%nat
  /\ List.length (bar_layers chart) = List.length (charted_stages all_data)
  /\ Forall (fun l => List.length (layer_heights l) = 2%nat
                      /\ List.length (layer_bottoms l) = 2%nat)
       (bar_layers chart).
Proof.
  exact (chart_has_one_segment_per_bar (sorter := stable_sort_values)
           [("apple2", [("y", 1); ("x", 3)]); ("lemon", [("x", 2)])]
           (expected_chart (sorter := stable_sort_values)
              [("apple2", [("y", 1); ("x", 3)]); ("lemon", [("x", 2)])])
           (stacked_bar_chart_of_reports (sorter := stable_sort_values)
              [("apple2", [("y", 1); ("x", 3)]); ("lemon", [("x", 2)])]
              eq_refl)).
Defined.

Lemma zero_total_bar_has_no_height_witness :
  Forall (fun l => nth 1 (layer_heights l) (Some 0) = None)
    (bar_layers (expected_chart (sorter := stable_sort_values)
                   [("apple2", [("x", 0)]); ("lemon", [("x", 2)])])).
Proof.
  exact (zero_total_bar_has_no_height (sorter := stable_sort_values)
           [("apple2", [("x", 0)]); ("lemon", [("x", 2)])]
           (expected_chart (sorter := stable_sort_values)
              [("apple2", [("x", 0)]); ("lemon", [("x", 2)])])
           1 ("apple2", [("x", 0)])
           (stacked_bar_chart_of_reports (sorter := stable_sort_values)
              [("apple2", [("x", 0)]); ("lemon", [("x", 2)])] eq_refl)
           eq_refl eq_refl).
Defined.

Section BarplotRun.
Context {sorter : SortValues}.

End BarplotRun.


(** ** The order of the bars in a saved chart *)

(** X27: in a saved stacked-bar chart the bars are the scanned groups, each
    once, arranged by descending total, with the label and the total in
    milliseconds of each group at its bar. *)
Theorem bars_descend_by_total {sorter : SortValues} (E : env)
  (root out : string) (fs : option node) (p : string) (chart : bar_chart) :
  In (SaveFig p (BarFigure chart)) (fst (run (DrawBarplot.main E root fs out))) ->
  exists all_data ordered,
    snd (run (collect_raw_data root fs)) = Ok (Some all_data)
    /\ Permutation ordered all_data
    /\ bar_labels chart = map group_label ordered
    /\ bar_totals_ms chart = map (fun g => group_total g / 1000000) ordered
    /\ StronglySorted (fun g1 g2 => group_total g2 <= group_total g1) ordered.
Proof.
  intro H. apply saved_chart_is_computed in H.
  destruct H as (all_data & Hscan & Hchart).
  apply chart_produced in Hchart. subst chart.
  exists all_data, (bars all_data).
  repeat split; try reflexivity.
  - exact Hscan.
  - apply bars_perm.
  - apply bars_sorted.
Qed.

Lemma bars_descend_by_total_witness :
  exists chart all_data ordered,
    In (SaveFig "out/percentage_stacked_bar_chart.pdf" (BarFigure chart))
       (fst (run (DrawBarplot.main (sorter := stable_sort_values) no_failures
                    "target/criterion" (Some tied_groups) "out")))
    /\ Permutation ordered all_data
    /\ bar_labels chart = map group_label ordered
    /\ StronglySorted (fun g1 g2 => group_total g2 <= group_total g1) ordered.
Proof.
  set (chart := expected_chart (sorter := stable_sort_values)
                  [("apple2", [("x", 1)]); ("lemon", [("x", 1)])]).
  assert (H : In (SaveFig "out/percentage_stacked_bar_chart.pdf"
                    (BarFigure chart))
                (fst (run (DrawBarplot.main (sorter := stable_sort_values)
                             no_failures "target/criterion"
                             (Some tied_groups) "out")))).
  { vm_compute. do 8 right. left. reflexivity. }
  destruct (bars_descend_by_total (sorter := stable_sort_values) _ _ _ _ _ _ H)
    as (all_data & ordered & _ & Hperm & Hlabels & _ & Hsorted).
  exists chart, all_data, ordered. repeat split; assumption.
Defined.

(** ** Labels *)

Lemma prefix_split (p s : string) :
  String.prefix p s = true -> exists rest, s = (p ++ rest)%string.
Proof.
  revert s. induction p as [|c p IH]; intros s H.
  - exists s. reflexivity.
  - destruct s as [|c' s]; [discriminate|]. cbn [String.prefix] in H.
    destruct (ascii_dec c c') as [->|]; [|discriminate].
    destruct (IH s H) as [rest ->]. exists rest. reflexivity.
Qed.

(** X25: the legend label of a stage column is the stage name again,
    provided [_time_ns] occurs in the column name only as its ending. *)
Theorem legend_label_is_stage_name (stage : string) :
  (forall before after,
     stage_column stage = (before ++ "_time_ns" ++ after)%string ->
     after = "") ->
  remove_all "_time_ns" 0 (stage_column stage) = stage.
Proof.
  unfold stage_column. induction stage as [|c stage IH]; intros H.
  - reflexivity.
  - cbn [append remove_all].
    destruct (String.prefix "_time_ns" (String c (stage ++ "_time_ns")))
      eqn:Ep.
    + exfalso. destruct (prefix_split _ _ Ep) as [rest Er].
      assert (Hrest : rest = "").
      { apply (H "" rest). exact Er. }
      subst rest. apply (f_equal String.length) in Er.
      cbn [String.length append] in Er. rewrite length_append in Er.
      cbn in Er. lia.
    + f_equal. apply IH. intros before after E.
      apply (H (String c before) after). cbn [append]. rewrite E. reflexivity.
Qed.

Lemma legend_label_is_stage_name_witness :
  remove_all "_time_ns" 0 (stage_column "warp") = "warp".
Proof.
  apply legend_label_is_stage_name.
  intros before after E. unfold stage_column in E. cbn [append] in E.
  do 13 (destruct before as [|? before]; cbn [append] in E;
         [try discriminate E; injection E; intros; subst; reflexivity|
          try discriminate E; injection E as _ E]).
Defined.






